(* ===== verification/_CoqProject ===== *)
-Q . S2P
Prelude.v
CTypes.v
Stream.v
KeepAlive.v
Native.v
CFFI.v
Surface.v
ImageSurface.v
Png.v
World.v
Pixels.v
