(* ===== verification/Prelude.v ===== *)
(** * cairocffi surfaces: a model of src/cairocffi/surfaces.py and its proofs

    ** The program

    surfaces.py is the cffi binding of cairo's surface API.  Its parts:
    - the stream callbacks [_make_read_func] and [_make_write_func]
      (lines 18-34), through which cairo reads or writes a PNG from or
      to a Python file object;
    - the boundary helpers [_encode_filename] and [from_buffer]
      (lines 37-45), which turn Python paths and buffers into C pointers;
    - [KeepAlive] (lines 48-61), a process-wide set that pins Python
      objects lent to cairo until cairo calls a destroy callback;
    - the wrapper class [Surface] (lines 64-156): a Python object holding a
      native handle released by [ffi.gc] with [cairo_surface_destroy],
      its methods, and [_from_handle], which re-classes a wrapper after
      the native type tag through [SURFACE_TYPE_TO_CLASS] (lines 215-217);
    - [ImageSurface] (lines 159-212): image surfaces over pixels cairo
      allocates, or over a caller's [bytearray] without copying.
    Every method calls into cairo and the cffi runtime, which are not
    code of this repository; [_check_status] lives in
    cairocffi/__init__.py.  Those are modelled from the spec (their rows
    in the map are marked spec_modelled).

    ** The files

    - Prelude.v (this file): [res] and the execution monad [PyM S E A :=
      S -> res E A * S] of a Python call (state changes before an
      exception are kept), its notation in [py_scope], byte buffers with
      [store]/[load] (a slice assignment and a read of [ffi.buffer]), the
      hint databases [cairo] and [cairo_rw] and the shared tactics.
    - CTypes.v: the cairo.h enumerations (status, surface type, format,
      content), the Python exceptions, cffi's conversion of an [int]
      argument ([to_c_int]: [OverflowError] outside int32) and
      [check_status] (= [_check_status]).
    - Stream.v: the interface [FileLike] (a Python file object: [read],
      [write]) with its instance [BytesIO]; [read_func]/[write_func]
      (= [_make_read_func]/[_make_write_func] with [@ffi.callback]'s
      [error=] fallback); [read_chunks]/[write_chunks], the order in which
      a PNG decoder or encoder calls them.
    - KeepAlive.v: Section [KeepAlive] over the type of pinned objects;
      [keepalive_new] (= [KeepAlive.__init__]), [destroy_callback] (the
      lambda [f]), [ka_collect] (the collector), and the protocol step
      function [ka_step] over events: [KeepAlive( *objects)] with the
      closure it returns passed to cairo, cairo calling a closure it
      holds, the collector; cairo holds exactly the closures
      [keepalive_new] returned, and the invariant [ka_wf] (held
      closures belong to registered KeepAlives, once each) follows
      from [__init__]'s registration.
    - Native.v: the part of cairo the bindings call, modelled after the
      cairo sources for image surfaces: a heap of surfaces and memory
      blocks ([nstate]), handles ([HSurf] or cairo's static error
      surfaces [HNil]), [cairo_format_stride_for_width],
      [cairo_image_surface_create(_for_data)], the surface calls and
      [cairo_surface_destroy] with reference counts.  A dangling handle or
      an access outside a block raises [NativeFault] (undefined
      behaviour in C).
    - CFFI.v: [ffi.new('char *'/'char[]')], [str.encode] in strict UTF-8,
      the bytes C reads at a [char *] ([c_string]), [encode_filename]
      (= [_encode_filename]) and [from_buffer].
    - Surface.v: the world (native state + Python heap of wrappers), the
      [Surface] methods one [Definition] each, [Surface__from_handle],
      [SURFACE_TYPE_TO_CLASS] and [surface_finalize] (what [ffi.gc] runs).
    - ImageSurface.v: [ImageSurface___init__] on both paths,
      [create_for_data], [format_stride_for_width], the getters and
      [get_data] (a view into the pixel memory, no copy).
    - Png.v: [Surface_write_to_png] and [ImageSurface_create_from_png]
      over cairo-png.c's control flow.  libpng is the class [PngCodec]
      (encoder chunks, a pull decoder [png_next], [png_decode]) with the
      laws [PngCodecLaws] cairo relies on; the state [pworld] adds the
      Python file object and a file system (names to contents) to the
      world.  A raw codec instance, with its laws proved, serves the
      witnesses.
    - World.v: a program using the bindings together with the
      collector, as a step function [wstep] on [wstate] (the world, the
      buffers the program references, the blocks that are Python
      buffers) over events: [bytearray(n)], dropping a reference,
      collecting an unreferenced buffer, [ImageSurface(...)],
      [create_for_data], a slice assignment through [get_data()],
      [finish()], and the collector reclaiming a wrapper ([ffi.gc]).
      A buffer is referenced while a wrapper's [_data] holds it
      ([ImageSurface.__init__], line 169).  [reachable] is the Inductive
      closure of [wstep] from [winit]; the Record [wf] is its invariant
      (freshness, the pixels of every surface allocated, owned pixels
      private, borrowed pixels pinned by [_data], one reference per
      wrapped surface, every wrapper typed), proved preserved event by
      event; allocation and finishing share the lemmas [wf_alloc] and
      [wf_finish_surface], and the facts about wrappers ([wrappers_ok])
      are kept by [wrappers_insert], [wrappers_replace] and
      [wrappers_remove].
    - Pixels.v: the abstract view of an image surface as a grid of rows
      ([grid_write] writes bytes into a row), the abstraction
      [image_grid] of the pixel memory, and the refinement of
      [get_data()] slice assignments by grid writes, in a Section whose
      hypotheses describe a live image surface.

    ** The theorems (claims C1-C35)

    - Image surfaces and memory safety (C1-C6): with a non-negative
      stride every row of an image over a caller's buffer lies inside
      that buffer; a negative stride passes the size check and cairo
      accepts it, with rows before the buffer (C2, a finding); a short
      buffer is refused before any native call; [get_data] is a
      zero-copy view; created surfaces report their arguments; an image
      written to PNG and read back has the same geometry and rows (C6,
      spec section 8).
    - Streams (C7-C11): a short read is [READ_ERROR] and copies nothing;
      a successful read copies exactly the requested bytes; chunks
      written to a BytesIO read back with any plan of the same length;
      a premature end of input, also in the middle of a PNG stream, is
      [READ_ERROR] and registers nothing.
    - KeepAlive (C12-C17): over every run of the protocol a KeepAlive
      whose callback cairo has not called stays registered with its
      objects; calling a callback cairo was given never raises, because
      [__init__] registered the object whose closure it returned; after
      the call the KeepAlive can be collected; [KeepAlive()] pins, the
      callback unpins, a second call raises [KeyError].
    - Surface (C18-C24): dispatch on the native type tag, a native error
      raises [CairoError] without arranging a release, the release
      frees the surface and the pixels it owns, [create_similar_image]
      passes a content where cairo wants a format and always fails, the
      device offset round-trips, and the PNG path variants fail as
      cairo makes them (an empty file left by a refused write, a
      missing file).
    - Strides (C25-C26): [format_stride_for_width] gives the 4-aligned
      byte width, -1 or [OverflowError]; pixman's stride and cairo's
      agree.
    - Paths (C27-C29): a path without NUL bytes reaches cairo unchanged,
      an embedded NUL truncates it, a lone surrogate raises
      [UnicodeEncodeError].
    - The life cycle (C30-C32, World.v): in every reachable state the
      pixels of every image surface are allocated; a borrowed buffer
      cannot be collected while a wrapper holds it; once the wrapper is
      reclaimed and the program dropped it, the buffer is collected and
      no native surface has its pixels there any more.
    - Termination (C33): [create_from_png] over a BytesIO needs at most
      one request more than the bytes left; any larger bound gives the
      same outcome.
    - Refinement (C34, Pixels.v): writing through [get_data()] at
      [y * stride + x] is writing into row [y] of the grid that
      [write_to_png] encodes.
    - Typing (C35, World.v): in every reachable state every wrapper is
      an [ImageSurface] over a live native image surface, so its methods
      never meet a dangling handle or a missing attribute.

    The methods that cannot work as written ([set_fallback_resolution]
    calls the getter, the MIME methods call functions cairo does not
    export and allocate the type with [ffi.new('char *')]) are modelled
    by what they raise; they are findings of the manifest, not theorems,
    since their bodies in the model are the exception itself.

    ** Bounds, conversions and fuel

    C [int] arguments are Z checked against int32 ([to_c_int]);
    [(unsigned)] casts are [to_unsigned32] (Z modulo 2^32); sizes are
    bounded by cairo's MAX_IMAGE_SIZE = 32767, which keeps every stride
    and [stride * height] below 2^31.  C doubles are [Q] (the device
    offset and fallback resolution are stored and returned, never
    computed with).  The only fuel is [png_pull]'s: a pull decoder may
    request bytes forever from a file object that never ends, so the
    number of requests is bounded; a decoder that follows its plan
    over a stream of [n] bytes makes at most [n] requests, and the PNG
    theorems take fuel [n + 1]; C33 shows that for any decoder that
    never asks for zero bytes (libpng does not), fuel above the bytes
    left in a BytesIO does not change the outcome, so [n + 1] is
    enough.  [wrun] runs a finite list of events; every other
    definition is structural.

    ** Not modelled

    libpng's format and pixel conversions (premultiplied alpha, which
    is where a real PNG round trip can lose information: [png_lossless]
    delimits the images the theorems speak of), drawing (contexts,
    patterns, fonts: not in surfaces.py), the other surface backends
    (PDF, PS, SVG, ...) beyond their type tag, memory exhaustion inside
    cairo, the cffi library itself, and the collector's timing (World.v
    lets it run at any point, which covers every timing).  KeepAlive is
    not part of World.v: its only user, [set_mime_data], always raises
    before pinning anything (its callee is looked up first and does
    not exist), so no KeepAlive is ever created by
    surfaces.py; its protocol is modelled on its own in KeepAlive.v.
    Reading through a [get_data()] view is not modelled (the code only
    hands out the buffer; reading is cffi's); World.v re-fetches
    [get_data()] for every write, so a view kept after its surface was
    finished or collected is not modelled, and neither are surfaces
    created by [create_similar].  C doubles are exact rationals, so the
    device offset round trip (C22) holds for every rational, not only
    for those a double represents; cairo's [fopen] never fails in the
    model of the PNG path variants.  Every line of
    surfaces.py that is code is translated; the components left partly
    modelled (cairo, libpng, cffi, the collector) are libraries the
    code calls, modelled as far as surfaces.py relies on them. *)

(** ** Prelude: notation, the Python execution monad, byte buffers

    Shared by every component of the development:
    - [res] and [PyM]: a Python call is a function from the state to an
      outcome (a value or a raised exception) and the state reached; the
      state changes made before an exception is raised are kept, as in
      Python;
    - notation in [py_scope] for sequencing such calls;
    - byte buffers ([list byte]) and the slice assignment of [ffi.buffer];
    - the hint database [cairo] and the tactics the components share. *)

From stdpp Require Export base list gmap.
From Stdlib Require Export ZArith.
From Stdlib Require Export Init.Byte.
From Stdlib Require Strings.Byte.

Declare Scope py_scope.
Delimit Scope py_scope with py.

Create HintDb cairo discriminated.
Create Rewrite HintDb cairo_rw.

(** ** Outcomes of a Python call *)

Inductive res (E A : Type) : Type :=
| Ok (a : A)
| Err (e : E).
Arguments Ok {E A} a.
Arguments Err {E A} e.

Definition PyM (S E A : Type) : Type := S -> res E A * S.

Section Monad.
Context {S E : Type}.

Definition ret {A} (a : A) : PyM S E A := fun s => (Ok a, s).
Definition raise {A} (e : E) : PyM S E A := fun s => (Err e, s).
Definition bind {A B} (m : PyM S E A) (k : A -> PyM S E B) : PyM S E B :=
  fun s => match m s with
           | (Ok a, s') => k a s'
           | (Err e, s') => (Err e, s')
           end.
Definition get_st : PyM S E S := fun s => (Ok s, s).
Definition put_st (s : S) : PyM S E unit := fun _ => (Ok tt, s).
Definition modify_st (f : S -> S) : PyM S E unit := fun s => (Ok tt, f s).
(** [try: m except: h] for every exception. *)
Definition catch {A} (m : PyM S E A) (h : E -> PyM S E A) : PyM S E A :=
  fun s => match m s with
           | (Ok a, s') => (Ok a, s')
           | (Err e, s') => h e s'
           end.

Lemma bind_ret_l {A B} (a : A) (k : A -> PyM S E B) s :
  bind (ret a) k s = k a s.
Proof. reflexivity. Qed.

Lemma bind_ok {A B} (m : PyM S E A) (k : A -> PyM S E B) s a s' :
  m s = (Ok a, s') -> bind m k s = k a s'.
Proof. unfold bind. by intros ->. Qed.

Lemma bind_err {A B} (m : PyM S E A) (k : A -> PyM S E B) s e s' :
  m s = (Err e, s') -> bind m k s = (Err e, s').
Proof. unfold bind. by intros ->. Qed.

Lemma bind_assoc {A B C} (m : PyM S E A) (k : A -> PyM S E B)
      (k' : B -> PyM S E C) s :
  bind (bind m k) k' s = bind m (fun a => bind (k a) k') s.
Proof. unfold bind. destruct (m s) as [[a|e] s']; reflexivity. Qed.
End Monad.

Notation "x <- m ;; k" := (bind m (fun x => k))
  (at level 100, m at next level, right associativity) : py_scope.
Notation "m ;; k" := (bind m (fun _ => k))
  (at level 100, right associativity) : py_scope.

#[export] Hint Rewrite @bind_ret_l : cairo_rw.

(** ** Byte buffers *)

#[export] Instance byte_eq_decision : EqDecision byte := Strings.Byte.byte_eq_dec.

(** [store buf off src]: the bytes of [buf] with [src] written from
    offset [off] on; what [memmove] or a slice assignment does inside the
    bounds of [buf]. *)
Definition store (buf : list byte) (off : nat) (src : list byte) : list byte :=
  take off buf ++ src ++ drop (off + length src) buf.

(** [load buf off n]: the [n] bytes of [buf] from offset [off]. *)
Definition load (buf : list byte) (off n : nat) : list byte :=
  take n (drop off buf).

Lemma length_store buf off src :
  off + length src <= length buf -> length (store buf off src) = length buf.
Proof.
  intros H. unfold store. rewrite !length_app, length_take, length_drop. lia.
Qed.

Lemma load_store_same buf off src :
  off + length src <= length buf -> load (store buf off src) off (length src) = src.
Proof.
  intros H. unfold load, store.
  rewrite drop_app_length'; [|rewrite length_take; lia].
  by rewrite take_app_length.
Qed.

Lemma load_store_disjoint buf off src off' n :
  off + length src <= length buf -> off' + n <= off ->
  load (store buf off src) off' n = load buf off' n.
Proof.
  intros H1 H2. unfold load, store.
  rewrite drop_app_le; [|rewrite length_take; lia].
  rewrite take_app_le; [|rewrite length_drop, length_take; lia].
  rewrite !take_drop_commute, take_take. f_equal. rewrite Nat.min_l; [done|lia].
Qed.

Lemma store_nil buf off : off <= length buf -> store buf off [] = buf.
Proof. intros H. unfold store. simpl. rewrite Nat.add_0_r. apply take_drop. Qed.

Lemma load_app_l (l1 l2 : list byte) n :
  n <= length l1 -> load (l1 ++ l2) 0 n = load l1 0 n.
Proof. intros H. unfold load. rewrite !drop_0. by apply take_app_le. Qed.

Lemma length_load buf off n :
  off + n <= length buf -> length (load buf off n) = n.
Proof. intros H. unfold load. rewrite length_take, length_drop. lia. Qed.

Lemma load_load_app buf off n m :
  load buf off n ++ load buf (off + n) m = load buf off (n + m).
Proof. unfold load. by rewrite <- take_take_drop, drop_drop. Qed.

Lemma load_all buf : load buf 0 (length buf) = buf.
Proof. unfold load. rewrite drop_0. apply firstn_all. Qed.

(** A store after the bytes read does not change them. *)
Lemma load_store_after buf off src off' n :
  off + length src <= length buf -> off + length src <= off' ->
  load (store buf off src) off' n = load buf off' n.
Proof.
  intros H1 H2. unfold load, store. rewrite app_assoc.
  rewrite drop_app_ge; [|rewrite length_app, length_take; lia].
  rewrite drop_drop, length_app, length_take. f_equal. f_equal. lia.
Qed.

(** A store inside the bytes read is a store into what is read. *)
Lemma load_store_inside buf a n off src :
  a <= off -> off + length src <= a + n -> a + n <= length buf ->
  load (store buf off src) a n = store (load buf a n) (off - a) src.
Proof.
  intros H1 H2 H3. unfold load, store.
  rewrite drop_app_le by (rewrite length_take; lia).
  replace (drop a (take off buf)) with (take (off - a) (drop a buf))
    by (rewrite take_drop_commute; f_equal; f_equal; lia).
  set (X := drop a buf).
  assert (HX : length X = length buf - a) by (subst X; apply length_drop).
  replace (drop (off + length src) buf) with (drop (off - a + length src) X)
    by (subst X; rewrite drop_drop; f_equal; lia).
  rewrite take_take, Nat.min_l by lia.
  rewrite take_app_ge by (rewrite length_take; lia).
  rewrite length_take, Nat.min_l by lia. f_equal.
  rewrite take_app_ge by lia. f_equal.
  rewrite take_drop_commute. do 2 f_equal. lia.
Qed.

#[export] Hint Resolve length_store load_store_same length_load : cairo.

(** ** Tactics *)

(** Unfold a sequence of monadic steps at a concrete or symbolic state. *)
Ltac py_simp :=
  repeat (unfold bind, ret, raise, get_st, put_st, modify_st, catch in *;
          simpl in *).

(** Case on every [if]/[match] whose scrutinee is a boolean comparison
    of integers, keeping its meaning as an hypothesis. *)
Ltac case_cmp :=
  repeat match goal with
  | |- context [Z.ltb ?a ?b] => destruct (Z.ltb_spec a b)
  | |- context [Z.leb ?a ?b] => destruct (Z.leb_spec a b)
  | |- context [Z.eqb ?a ?b] => destruct (Z.eqb_spec a b)
  | |- context [Nat.ltb ?a ?b] => destruct (Nat.ltb_spec a b)
  | |- context [Nat.leb ?a ?b] => destruct (Nat.leb_spec a b)
  | |- context [Nat.eqb ?a ?b] => destruct (Nat.eqb_spec a b)
  end.

(** [lia] after turning each [/] and [mod] into its defining equations. *)
Ltac zlia := Z.div_mod_to_equations; lia.
