(* ===== verification/CTypes.v ===== *)
(** * CTypes: the values that cross the cffi boundary

    The enumerations of cairo.h that the surface bindings exchange with
    the native library (status, surface type, pixel format, content),
    the conversion cffi applies to a Python integer passed where C
    expects an [int], and the Python exceptions the bindings raise.
    [check_status] models [_check_status] of cairocffi/__init__.py,
    which is not under src/ (it is modelled from the spec, section 4.1). *)

From S2P Require Import Prelude.

(** ** Python exceptions raised by the bindings *)

(** The two [ValueError]s of the bindings: the buffer handed to
    [ImageSurface] is too small ("Got a %d bytes buffer, needs at least
    %d."), and a slice assignment to an [ffi.buffer] whose right operand
    has another length than the slice. *)
Inductive value_msg : Type :=
| BufferTooSmall (got needed : Z)
| SliceLengthMismatch
| BufferTooSmall0.                 (** ctypes: [from_buffer] of an empty buffer *)

#[export] Instance value_msg_eq_dec : EqDecision value_msg.
Proof. solve_decision. Defined.

Inductive exn : Type :=
| CairoError (st : Z)              (** [_check_status]: a native status *)
| ValueError (msg : value_msg)
| TypeError                        (** cffi refuses an argument *)
| OverflowError                    (** cffi: integer out of the C range *)
| AttributeError                   (** missing attribute or library symbol *)
| KeyError                         (** [set.remove] of an absent element *)
| UnicodeEncodeError               (** [str.encode] in strict mode *)
| NotImplementedError
| NativeFault.                     (** undefined behaviour in C: a dangling
                                       handle or an access outside a block *)

#[export] Instance exn_eq_dec : EqDecision exn.
Proof. solve_decision. Defined.

(** ** cairo_status_t, with the numbering of cairo.h *)

Inductive status : Type :=
| SUCCESS | NO_MEMORY | INVALID_RESTORE | INVALID_POP_GROUP
| NO_CURRENT_POINT | INVALID_MATRIX | INVALID_STATUS | NULL_POINTER
| INVALID_STRING | INVALID_PATH_DATA | READ_ERROR | WRITE_ERROR
| SURFACE_FINISHED | SURFACE_TYPE_MISMATCH | PATTERN_TYPE_MISMATCH
| INVALID_CONTENT | INVALID_FORMAT | INVALID_VISUAL | FILE_NOT_FOUND
| INVALID_DASH | INVALID_DSC_COMMENT | INVALID_INDEX
| CLIP_NOT_REPRESENTABLE | TEMP_FILE_ERROR | INVALID_STRIDE
| FONT_TYPE_MISMATCH | USER_FONT_IMMUTABLE | USER_FONT_ERROR
| NEGATIVE_COUNT | INVALID_CLUSTERS | INVALID_SLANT | INVALID_WEIGHT
| INVALID_SIZE | USER_FONT_NOT_IMPLEMENTED | DEVICE_TYPE_MISMATCH
| DEVICE_ERROR | INVALID_MESH_CONSTRUCTION | DEVICE_FINISHED
| JBIG2_GLOBAL_MISSING | PNG_ERROR.

#[export] Instance status_eq_dec : EqDecision status.
Proof. solve_decision. Defined.

(** The statuses in the order of their codes. *)
Definition all_statuses : list status :=
  [SUCCESS; NO_MEMORY; INVALID_RESTORE; INVALID_POP_GROUP;
   NO_CURRENT_POINT; INVALID_MATRIX; INVALID_STATUS; NULL_POINTER;
   INVALID_STRING; INVALID_PATH_DATA; READ_ERROR; WRITE_ERROR;
   SURFACE_FINISHED; SURFACE_TYPE_MISMATCH; PATTERN_TYPE_MISMATCH;
   INVALID_CONTENT; INVALID_FORMAT; INVALID_VISUAL; FILE_NOT_FOUND;
   INVALID_DASH; INVALID_DSC_COMMENT; INVALID_INDEX;
   CLIP_NOT_REPRESENTABLE; TEMP_FILE_ERROR; INVALID_STRIDE;
   FONT_TYPE_MISMATCH; USER_FONT_IMMUTABLE; USER_FONT_ERROR;
   NEGATIVE_COUNT; INVALID_CLUSTERS; INVALID_SLANT; INVALID_WEIGHT;
   INVALID_SIZE; USER_FONT_NOT_IMPLEMENTED; DEVICE_TYPE_MISMATCH;
   DEVICE_ERROR; INVALID_MESH_CONSTRUCTION; DEVICE_FINISHED;
   JBIG2_GLOBAL_MISSING; PNG_ERROR].

(** The C value of a status, and cffi's conversion back. *)
Definition status_code (s : status) : Z :=
  match list_find (fun s' => s' = s) all_statuses with
  | Some (i, _) => Z.of_nat i
  | None => -1
  end.

Definition status_of_code (z : Z) : option status :=
  if (z <? 0)%Z then None else all_statuses !! Z.to_nat z.

(** ** cairo_surface_type_t *)

Inductive surface_type : Type :=
| ST_IMAGE | ST_PDF | ST_PS | ST_XLIB | ST_XCB | ST_GLITZ | ST_QUARTZ
| ST_WIN32 | ST_BEOS | ST_DIRECTFB | ST_SVG | ST_OS2 | ST_WIN32_PRINTING
| ST_QUARTZ_IMAGE | ST_SCRIPT | ST_QT | ST_RECORDING | ST_VG | ST_GL
| ST_DRM | ST_TEE | ST_XML | ST_SKIA | ST_SUBSURFACE | ST_COGL.

#[export] Instance surface_type_eq_dec : EqDecision surface_type.
Proof. solve_decision. Defined.

(** ** cairo_format_t: a C [int]; the named formats of cairo.h *)

Definition FORMAT_INVALID : Z := -1.
Definition FORMAT_ARGB32 : Z := 0.
Definition FORMAT_RGB24 : Z := 1.
Definition FORMAT_A8 : Z := 2.
Definition FORMAT_A1 : Z := 3.
Definition FORMAT_RGB16_565 : Z := 4.
Definition FORMAT_RGB30 : Z := 5.

(** [CAIRO_FORMAT_VALID] *)
Definition format_valid (f : Z) : bool := (0 <=? f)%Z && (f <=? FORMAT_RGB30)%Z.

(** [_cairo_format_bits_per_pixel] on the valid formats. *)
Definition format_bpp (f : Z) : Z :=
  if (f =? FORMAT_A1)%Z then 1
  else if (f =? FORMAT_A8)%Z then 8
  else if (f =? FORMAT_RGB16_565)%Z then 16
  else 32.

(** ** cairo_content_t *)

Definition CONTENT_COLOR : Z := 4096.
Definition CONTENT_ALPHA : Z := 8192.
Definition CONTENT_COLOR_ALPHA : Z := 12288.

(** [CAIRO_CONTENT_VALID] *)
Definition content_valid (c : Z) : bool :=
  bool_decide (c = CONTENT_COLOR \/ c = CONTENT_ALPHA \/ c = CONTENT_COLOR_ALPHA).

(** ** C integers *)

Definition INT32_MIN : Z := - 2 ^ 31.
Definition INT32_MAX : Z := 2 ^ 31 - 1.

Definition in_int32 (z : Z) : bool := (INT32_MIN <=? z)%Z && (z <=? INT32_MAX)%Z.

(** cffi converts a Python [int] passed for a C [int] parameter, and
    raises [OverflowError] when it does not fit. *)
Definition to_c_int {S} (z : Z) : PyM S exn Z :=
  if in_int32 z then ret z else raise OverflowError.

(** The C cast [(unsigned) x] of a 32-bit [int]. *)
Definition to_unsigned32 (z : Z) : Z := Z.modulo z (2 ^ 32).

(** ** [_check_status] (cairocffi/__init__.py) *)

Definition check_status {S} (st : status) : PyM S exn unit :=
  match st with
  | SUCCESS => ret tt
  | _ => raise (CairoError (status_code st))
  end.

(** ** Lemmas *)

(** cffi's conversion of a status back from its C value inverts
    [status_code]. *)
Lemma status_of_code_status_code (s : status) :
  status_of_code (status_code s) = Some s.
Proof. destruct s; reflexivity. Qed.

Lemma status_code_inj (s1 s2 : status) :
  status_code s1 = status_code s2 -> s1 = s2.
Proof.
  intros H. apply (f_equal status_of_code) in H.
  rewrite !status_of_code_status_code in H. congruence.
Qed.

Lemma check_status_ok {S} (st : status) (s : S) r s' :
  check_status st s = (r, s') -> s' = s /\ (r = Ok tt <-> st = SUCCESS).
Proof. destruct st; intros [= <- <-]; split; try done. Qed.

Lemma to_c_int_ok {S} (z : Z) (s : S) :
  to_c_int z s = (if in_int32 z then Ok z else Err OverflowError, s).
Proof. unfold to_c_int. by destruct (in_int32 z). Qed.

Lemma in_int32_spec z : in_int32 z = true <-> (INT32_MIN <= z <= INT32_MAX)%Z.
Proof. unfold in_int32. rewrite andb_true_iff, !Z.leb_le. done. Qed.

#[export] Hint Rewrite status_of_code_status_code @to_c_int_ok : cairo_rw.
