(* ===== verification/Stream.v ===== *)
(** * Stream: the read and write callbacks of surfaces.py

    [_make_read_func] and [_make_write_func] (src/cairocffi/surfaces.py,
    lines 18-34) build the C callbacks through which cairo reads a PNG
    from, or writes one to, a Python file object.  A file object is
    anything with [read] or [write]: the class [FileLike] is that
    interface, [BytesIO] its instance for in-memory streams.

    A callback receives a pointer [data] into a native buffer and a
    length; the native buffer is [list byte] and [data] an offset into
    it.  [ffi_callback] is what [@ffi.callback(..., error=E)] adds to the
    Python body: an exception escaping the body is replaced by the
    status [E].  [read_chunks] and [write_chunks] are the native side:
    the sequence of calls a decoder or an encoder makes, in order,
    stopping at the first status that is not [SUCCESS]. *)

From S2P Require Import Prelude CTypes.

Local Open Scope py_scope.

(** ** Python file objects *)

Class FileLike (F : Type) := {
  file_read : nat -> F -> res exn (list byte) * F;   (** [f.read(n)] *)
  file_write : list byte -> F -> res exn unit * F     (** [f.write(b)] *)
}.

(** [io.BytesIO]: a byte string and a position. *)
Record BytesIO := mkBytesIO { bio_data : list byte; bio_pos : nat }.

(** [BytesIO.read(n)]: at most [n] bytes from the position on. *)
Definition bytesio_read (n : nat) (f : BytesIO) : res exn (list byte) * BytesIO :=
  let s := take n (drop (bio_pos f) (bio_data f)) in
  (Ok s, mkBytesIO (bio_data f) (bio_pos f + length s)).

(** [BytesIO.write(b)]: overwrite from the position on, padding with
    zero bytes when the position is past the end. *)
Definition bytesio_write (b : list byte) (f : BytesIO) : res exn unit * BytesIO :=
  let d := bio_data f ++ replicate (bio_pos f - length (bio_data f)) x00 in
  (Ok tt, mkBytesIO (take (bio_pos f) d ++ b ++ drop (bio_pos f + length b) d)
                    (bio_pos f + length b)).

#[export] Instance BytesIO_FileLike : FileLike BytesIO :=
  {| file_read := bytesio_read; file_write := bytesio_write |}.

(** ** cffi callbacks *)

(** [@ffi.callback(ctype, error=err)]: the C function runs the Python
    body; an exception escaping it is not propagated across C frames,
    the callback returns [err] instead. *)
Definition ffi_callback {S} (err : status) (body : PyM S exn status) (s : S)
  : status * S :=
  match body s with
  | (Ok st, s') => (st, s')
  | (Err _, s') => (err, s')
  end.

Section Callbacks.
Context {F : Type} `{FileLike F}.

(** The state a callback runs in: the Python file object and the
    native buffer it reads from or writes to. *)
Definition cb_state : Type := F * list byte.

Definition py_read (n : nat) : PyM cb_state exn (list byte) :=
  fun '(f, mem) => let '(r, f') := file_read n f in (r, (f', mem)).

Definition py_write (b : list byte) : PyM cb_state exn unit :=
  fun '(f, mem) => let '(r, f') := file_write b f in (r, (f', mem)).

(** [ffi.buffer(data, length)[:k] = string]: the slice of a buffer of
    [length] bytes is clipped to [length]; its right operand must have
    the slice's length. *)
Definition buffer_setslice (data length k : nat) (s : list byte)
  : PyM cb_state exn unit :=
  if Nat.eqb (List.length s) (Nat.min k length) then
    fun '(f, mem) => (Ok tt, (f, store mem data s))
  else raise (ValueError SliceLengthMismatch).

(** [ffi.buffer(data, length)] read as bytes. *)
Definition buffer_get (data length : nat) : PyM cb_state exn (list byte) :=
  fun '(f, mem) => (Ok (load mem data length), (f, mem)).

(** [read_func] of [_make_read_func] (lines 19-25). *)
Definition read_func_body (data length : nat) : PyM cb_state exn status :=
  string <- py_read length ;;
  if Nat.ltb (List.length string) length then ret READ_ERROR
  else buffer_setslice data length (List.length string) string ;;
       ret SUCCESS.

Definition read_func (data length : nat) : cb_state -> status * cb_state :=
  ffi_callback READ_ERROR (read_func_body data length).

(** [read_func] of [_make_write_func] (lines 30-33). *)
Definition write_func_body (data length : nat) : PyM cb_state exn status :=
  b <- buffer_get data length ;;
  py_write b ;;
  ret SUCCESS.

Definition write_func (data length : nat) : cb_state -> status * cb_state :=
  ffi_callback WRITE_ERROR (write_func_body data length).

(** ** The native side of a stream *)

(** A decoder reads [chunks] in order, each into a fresh native buffer
    of that size, and keeps what it received; the first failing call
    ends the stream with its status. *)
Fixpoint read_chunks (chunks : list nat) (f : F) : status * list byte * F :=
  match chunks with
  | [] => (SUCCESS, [], f)
  | n :: rest =>
      let '(st, (f', buf)) := read_func 0 n (f, replicate n x00) in
      match st with
      | SUCCESS =>
          let '(st', got, f'') := read_chunks rest f' in (st', buf ++ got, f'')
      | _ => (st, [], f')
      end
  end.

(** An encoder hands its output to the stream in [chunks], each from
    the start of its native buffer. *)
Fixpoint write_chunks (chunks : list (list byte)) (f : F) : status * F :=
  match chunks with
  | [] => (SUCCESS, f)
  | c :: rest =>
      let '(st, (f', _)) := write_func 0 (length c) (f, c) in
      match st with
      | SUCCESS => write_chunks rest f'
      | _ => (st, f')
      end
  end.
End Callbacks.

(** ** Behaviour of the callbacks, for every file object *)

Section CallbackSpec.
Context {F : Type} `{FileLike F}.

(** [read_func] in full: it succeeds exactly when [read] returned
    [length] bytes, and then copies them at [data]; in every other
    case the native buffer is left as it was. *)
Lemma read_func_eq (data n : nat) (f : F) (mem : list byte) :
  read_func data n (f, mem) =
    match file_read n f with
    | (Ok s, f') => if Nat.eqb (length s) n then (SUCCESS, (f', store mem data s))
                    else (READ_ERROR, (f', mem))
    | (Err _, f') => (READ_ERROR, (f', mem))
    end.
Proof.
  unfold read_func, ffi_callback, read_func_body, py_read, buffer_setslice.
  py_simp. destruct (file_read n f) as [[s|e] f'] eqn:Hr; [|done].
  case_cmp; simpl; try done; lia.
Qed.

Lemma write_func_eq (data n : nat) (f : F) (mem : list byte) :
  write_func data n (f, mem) =
    match file_write (load mem data n) f with
    | (Ok _, f') => (SUCCESS, (f', mem))
    | (Err _, f') => (WRITE_ERROR, (f', mem))
    end.
Proof.
  unfold write_func, ffi_callback, write_func_body, buffer_get, py_write.
  py_simp. by destruct (file_write (load mem data n) f) as [[]].
Qed.

(** C7: a source that yields fewer bytes than requested makes
    [read_func] report [READ_ERROR] and copy nothing: the native
    buffer is unchanged, not partially filled. *)
Theorem read_func_short_read (data n : nat) (f f' : F) (s mem : list byte) :
  file_read n f = (Ok s, f') -> length s < n ->
  read_func data n (f, mem) = (READ_ERROR, (f', mem)).
Proof.
  intros Hr Hlt. rewrite read_func_eq, Hr. case_cmp; [lia|done].
Qed.

(** C8: [read_func] reports [SUCCESS] only when [read] returned exactly
    the requested number of bytes, and then the native buffer holds
    them at [data]; a failing [read] (an exception) is [READ_ERROR]
    and leaves the buffer as it was. *)
Theorem read_func_success (data n : nat) (f f' : F) (mem mem' : list byte) :
  read_func data n (f, mem) = (SUCCESS, (f', mem')) ->
  exists s, file_read n f = (Ok s, f') /\ length s = n /\ mem' = store mem data s.
Proof.
  rewrite read_func_eq. destruct (file_read n f) as [[s|e] f''].
  - case_cmp; intros [= <- <-]; eauto.
  - intros [=].
Qed.
End CallbackSpec.

(** ** BytesIO *)

Lemma bytesio_read_enough (d : list byte) (p n : nat) :
  p + n <= length d ->
  bytesio_read n (mkBytesIO d p) = (Ok (load d p n), mkBytesIO d (p + n)).
Proof.
  intros Hn. unfold bytesio_read, load. simpl.
  rewrite length_take, length_drop, Nat.min_l by lia. done.
Qed.

Lemma bytesio_read_short (d : list byte) (p n : nat) :
  p <= length d -> length d < p + n ->
  exists s, bytesio_read n (mkBytesIO d p) = (Ok s, mkBytesIO d (p + length s))
            /\ length s < n.
Proof.
  intros Hp Hn. eexists. split; [reflexivity|].
  rewrite length_take, length_drop. simpl. lia.
Qed.

Lemma bytesio_write_end (d b : list byte) :
  bytesio_write b (mkBytesIO d (length d)) =
    (Ok tt, mkBytesIO (d ++ b) (length d + length b)).
Proof.
  unfold bytesio_write. simpl. rewrite Nat.sub_diag. simpl.
  rewrite !app_nil_r, take_ge, drop_ge by lia. by rewrite app_nil_r.
Qed.

Lemma store_fresh (n : nat) (s : list byte) :
  length s = n -> store (replicate n x00) 0 s = s.
Proof.
  intros <-. unfold store. simpl. rewrite drop_ge by (rewrite length_replicate; lia).
  apply app_nil_r.
Qed.

#[export] Hint Rewrite bytesio_write_end : cairo_rw.

Definition sum_list (l : list nat) : nat := foldr Nat.add 0 l.

(** [read_func] at a BytesIO holding enough bytes: one full chunk. *)
Lemma read_func_bytesio_enough (d : list byte) (p n : nat) :
  p + n <= length d ->
  read_func 0 n (mkBytesIO d p, replicate n x00) =
    (SUCCESS, (mkBytesIO d (p + n), load d p n)).
Proof.
  intros Hn. rewrite read_func_eq. change (file_read n) with (bytesio_read n).
  rewrite bytesio_read_enough by done.
  rewrite length_load, Nat.eqb_refl by done.
  rewrite store_fresh by (by apply length_load). done.
Qed.

(** [read_func] at a BytesIO that ends too early: [READ_ERROR]. *)
Lemma read_func_bytesio_short (d : list byte) (p n : nat) mem :
  p <= length d -> length d < p + n ->
  fst (read_func 0 n (mkBytesIO d p, mem)) = READ_ERROR.
Proof.
  intros Hp Hn. rewrite read_func_eq. change (file_read n) with (bytesio_read n).
  destruct (bytesio_read_short d p n Hp Hn) as (s & -> & Hs).
  case_cmp; [lia|done].
Qed.

Lemma write_func_whole (c : list byte) (d : list byte) :
  write_func 0 (length c) (mkBytesIO d (length d), c) =
    (SUCCESS, (mkBytesIO (d ++ c) (length (d ++ c)), c)).
Proof.
  rewrite write_func_eq, load_all. change (file_write c) with (bytesio_write c).
  rewrite bytesio_write_end, length_app. done.
Qed.

(** ** The native side against a BytesIO *)

(** A decoder that reads chunks of any sizes from a BytesIO holding
    enough bytes gets, in order, exactly the bytes from the position on,
    and the position advances by their number. *)
Theorem read_chunks_bytesio (chunks : list nat) (d : list byte) (p : nat) :
  p + sum_list chunks <= length d ->
  read_chunks chunks (mkBytesIO d p) =
    (SUCCESS, load d p (sum_list chunks), mkBytesIO d (p + sum_list chunks)).
Proof.
  revert p. induction chunks as [|n rest IH]; intros p Hp; simpl in *.
  - unfold load. rewrite Nat.add_0_r. done.
  - rewrite read_func_bytesio_enough by lia. rewrite IH by lia.
    rewrite load_load_app, Nat.add_assoc. done.
Qed.

(** C10: when the BytesIO ends before the decoder has read all its chunks,
    the stream fails with [READ_ERROR]: a premature end of input is
    never reported as a success. *)
Theorem read_chunks_bytesio_eof (chunks : list nat) (d : list byte) (p : nat) :
  p <= length d -> length d < p + sum_list chunks ->
  (read_chunks chunks (mkBytesIO d p)).1.1 = READ_ERROR.
Proof.
  revert p. induction chunks as [|n rest IH]; intros p Hp Hlt; simpl in *; [lia|].
  destruct (Nat.le_gt_cases (p + n) (length d)).
  - rewrite read_func_bytesio_enough by lia. simpl.
    destruct (read_chunks rest (mkBytesIO d (p + n))) as [[st got] f''] eqn:E.
    simpl. specialize (IH (p + n) ltac:(lia) ltac:(lia)). rewrite E in IH. done.
  - pose proof (read_func_bytesio_short d p n (replicate n x00) Hp ltac:(lia)) as Hs.
    destruct (read_func 0 n _) as [st [f' buf]]. simpl in *. by subst st.
Qed.

(** An encoder writing chunks to a BytesIO positioned at its end
    appends exactly their concatenation. *)
Theorem write_chunks_bytesio (chunks : list (list byte)) (d : list byte) :
  write_chunks chunks (mkBytesIO d (length d)) =
    (SUCCESS, mkBytesIO (d ++ concat chunks) (length (d ++ concat chunks))).
Proof.
  revert d. induction chunks as [|c rest IH]; intros d; cbn [write_chunks concat].
  - by rewrite app_nil_r.
  - rewrite write_func_whole, IH. by rewrite app_assoc.
Qed.

(** C9: round trip through two streams: what an encoder writes to a
    fresh BytesIO, in chunks of its choice, a decoder reads back from
    the start of that BytesIO, in chunks of another choice, byte for
    byte. *)
Theorem stream_roundtrip (chunks : list (list byte)) (plan : list nat) :
  sum_list plan = length (concat chunks) ->
  exists sink,
    write_chunks chunks (mkBytesIO [] 0) = (SUCCESS, sink) /\
    read_chunks plan (mkBytesIO (bio_data sink) 0) =
      (SUCCESS, concat chunks, mkBytesIO (concat chunks) (length (concat chunks))).
Proof.
  intros Hsum. eexists. split.
  - exact (write_chunks_bytesio chunks []).
  - simpl. rewrite read_chunks_bytesio by lia. rewrite Hsum, load_all. done.
Qed.

(** ** Witnesses *)

Lemma read_func_short_read_witness :
  file_read 4 (mkBytesIO [x01; x02] 0) = (Ok [x01; x02], mkBytesIO [x01; x02] 2) /\
  read_func 0 4 (mkBytesIO [x01; x02] 0, replicate 4 x00) =
    (READ_ERROR, (mkBytesIO [x01; x02] 2, replicate 4 x00)).
Proof.
  split; [reflexivity|].
  apply (read_func_short_read 0 4 _ _ [x01; x02]); [reflexivity | simpl; lia].
Defined.

Lemma read_func_success_witness :
  read_func 0 2 (mkBytesIO [x01; x02] 0, [x00; x00]) =
    (SUCCESS, (mkBytesIO [x01; x02] 2, [x01; x02])) /\
  exists s, file_read 2 (mkBytesIO [x01; x02] 0) = (Ok s, mkBytesIO [x01; x02] 2) /\
            length s = 2 /\ [x01; x02] = store [x00; x00] 0 s.
Proof.
  split; [reflexivity|]. apply read_func_success. reflexivity.
Defined.

Lemma stream_roundtrip_witness :
  sum_list [1; 2] = length (concat [[x01; x02]; [x03]]) /\
  exists sink,
    write_chunks [[x01; x02]; [x03]] (mkBytesIO [] 0) = (SUCCESS, sink) /\
    read_chunks [1; 2] (mkBytesIO (bio_data sink) 0) =
      (SUCCESS, concat [[x01; x02]; [x03]],
       mkBytesIO (concat [[x01; x02]; [x03]]) (length (concat [[x01; x02]; [x03]]))).
Proof. split; [reflexivity|]. apply stream_roundtrip. reflexivity. Defined.

Lemma read_chunks_bytesio_eof_witness :
  0 <= length [x01; x02] /\ length [x01; x02] < 0 + sum_list [1; 4] /\
  (read_chunks [1; 4] (mkBytesIO [x01; x02] 0)).1.1 = READ_ERROR.
Proof.
  split_and!; [simpl; lia | simpl; lia |].
  apply read_chunks_bytesio_eof; simpl; lia.
Defined.
