(* ===== verification/KeepAlive.v ===== *)
(** * KeepAlive: the live-set that pins buffers lent to cairo

    [KeepAlive] (src/cairocffi/surfaces.py, lines 48-61).  The class
    attribute [instances] is one process-wide Python [set]; creating a
    [KeepAlive] adds the new object to it and builds the C callback
    [f = lambda _: self.instances.remove(self)], returned in [closure]
    together with [ffi.NULL].  While the object is in [instances], it,
    its [objects] and its callback are reachable; once removed, the
    garbage collector may reclaim all three.

    The state [ka_state] is the set [instances] and the KeepAlive objects
    still allocated ([ka_heap], each with its [objects]); identities are
    drawn from [ka_next].  The callback is defunctionalised: the native
    side holds a [closure] naming the object whose [f] it will call.

    [ka_step] is the protocol between Python, cairo and the collector:
    [KeepAlive( *objects)] with its [closure] passed to cairo (as
    [set_mime_data] means to), cairo calling a closure it was given
    once, and the collector reclaiming an unreachable KeepAlive.  Cairo
    holds exactly the closures [keepalive_new] returned; nothing in the
    protocol assumes they were registered.  Its invariant [ka_wf] gives
    that every callback cairo may still call belongs to a registered,
    allocated KeepAlive, so calling it never raises; after the call the
    KeepAlive can be collected. *)

From S2P Require Import Prelude CTypes.

Local Open Scope py_scope.

Definition ka_id := positive.

(** [self.closure]: the destroy callback of one KeepAlive, and the
    [void *] closure argument, always [ffi.NULL]. *)
Record closure := mkClosure { cl_destroy : ka_id; cl_data_is_null : bool }.

#[export] Instance closure_eq_dec : EqDecision closure.
Proof. solve_decision. Defined.

Section KeepAlive.
Context {Obj : Type}.

Record ka_state := mkKA {
  ka_instances : gset ka_id;           (** [KeepAlive.instances] *)
  ka_heap : gmap ka_id (list Obj);     (** allocated KeepAlives, [self.objects] *)
  ka_next : ka_id                      (** next fresh identity *)
}.

(** [KeepAlive( *objects)]: [__init__] on a freshly allocated object;
    the caller gets the object's [closure]. *)
Definition keepalive_new (objects : list Obj) : PyM ka_state exn closure :=
  fun st =>
    let k := ka_next st in
    (Ok (mkClosure k true),
     mkKA ({[k]} ∪ ka_instances st) (<[k := objects]> (ka_heap st)) (Pos.succ k)).

(** [lambda _: self.instances.remove(self)]: [set.remove] raises
    [KeyError] when the element is absent. *)
Definition keepalive_release (k : ka_id) : PyM ka_state exn unit :=
  fun st =>
    if decide (k ∈ ka_instances st)
    then (Ok tt, mkKA (ka_instances st ∖ {[k]}) (ka_heap st) (ka_next st))
    else (Err KeyError, st).

(** The C function [cairo_destroy_func_t] cffi builds around the
    lambda: it returns [void], so an exception is printed and dropped. *)
Definition destroy_callback (c : closure) (st : ka_state) : ka_state :=
  snd (keepalive_release (cl_destroy c) st).

(** The collector reclaims a KeepAlive (its [objects] and its callback)
    once it is no longer in [instances]; the step is refused while it is. *)
Definition ka_collect (k : ka_id) (st : ka_state) : option ka_state :=
  if decide (k ∈ ka_instances st) then None
  else Some (mkKA (ka_instances st) (delete k (ka_heap st)) (ka_next st)).

(** An object is pinned when a registered KeepAlive holds it. *)
Definition pinned (st : ka_state) (o : Obj) : Prop :=
  exists k objs, k ∈ ka_instances st /\ ka_heap st !! k = Some objs /\ o ∈ objs.

(** ** The protocol *)

(** The world of the protocol: the Python side and the closures cairo
    holds and has not called yet. *)
Record ka_world := mkKW { kw_py : ka_state; kw_pending : list closure }.

Inductive ka_event :=
| EvPin (objects : list Obj)   (** [keepalive = KeepAlive( *objects)]; [*keepalive.closure]
                                   is passed to cairo *)
| EvFire (c : closure)         (** cairo calls a destroy callback it holds *)
| EvCollect (k : ka_id).       (** the collector reclaims KeepAlive [k] *)

(** One event; [None] when it cannot happen: cairo calls only a closure
    it was given, once. *)
Definition ka_step (w : ka_world) (ev : ka_event) : option ka_world :=
  match ev with
  | EvPin objs =>
      let '(r, st') := keepalive_new objs (kw_py w) in
      match r with
      | Ok c => Some (mkKW st' (c :: kw_pending w))
      | Err _ => Some (mkKW st' (kw_pending w))
      end
  | EvFire c =>
      if decide (c ∈ kw_pending w)
      then Some (mkKW (destroy_callback c (kw_py w)) (filter (fun c' => c' <> c) (kw_pending w)))
      else None
  | EvCollect k =>
      st' ← ka_collect k (kw_py w); Some (mkKW st' (kw_pending w))
  end.

Fixpoint ka_run (w : ka_world) (evs : list ka_event) : option ka_world :=
  match evs with
  | [] => Some w
  | ev :: rest => w' ← ka_step w ev; ka_run w' rest
  end.

(** Well-formedness: identities below [ka_next] are the allocated ones;
    registered KeepAlives are allocated.  The protocol adds that every
    closure cairo holds is the closure of a registered KeepAlive, each
    held once. *)
Definition ka_state_wf (st : ka_state) : Prop :=
  ka_instances st ⊆ dom (ka_heap st) /\
  (forall k, k ∈ dom (ka_heap st) -> (k < ka_next st)%positive).

Definition ka_wf (w : ka_world) : Prop :=
  ka_state_wf (kw_py w) /\
  Forall (fun c => cl_destroy c ∈ ka_instances (kw_py w)) (kw_pending w) /\
  NoDup (cl_destroy <$> kw_pending w).

Definition ka_init : ka_world := mkKW (mkKA ∅ ∅ 1%positive) [].
End KeepAlive.

Arguments ka_state : clear implicits.
Arguments ka_world : clear implicits.
Arguments ka_event : clear implicits.

(** ** Lemmas *)

Section Lemmas.
Context {Obj : Type}.
Implicit Types (st : ka_state Obj) (w : ka_world Obj).

Lemma ka_fresh st : ka_state_wf st -> ka_heap st !! ka_next st = None.
Proof.
  intros [_ Hlt]. apply not_elem_of_dom. intros Hin.
  specialize (Hlt _ Hin). lia.
Qed.

Lemma keepalive_new_wf st objs :
  ka_state_wf st -> ka_state_wf (snd (keepalive_new objs st)).
Proof.
  intros [Hsub Hlt]. split; simpl; rewrite dom_insert_L; [set_solver|].
  intros k Hk. apply elem_of_union in Hk as [Hk|Hk].
  - apply elem_of_singleton in Hk. subst. lia.
  - specialize (Hlt _ Hk). lia.
Qed.

Lemma keepalive_release_wf st k :
  ka_state_wf st -> ka_state_wf (snd (keepalive_release k st)).
Proof.
  intros [Hsub Hlt]. unfold keepalive_release.
  case_decide; simpl; [|by split]. split; [set_solver | done].
Qed.

Lemma ka_collect_wf st st' k :
  ka_state_wf st -> ka_collect k st = Some st' -> ka_state_wf st'.
Proof.
  intros [Hsub Hlt]. unfold ka_collect. case_decide; [done|].
  intros [= <-]. split; simpl; rewrite dom_delete_L; [set_solver|].
  intros k' Hk'. apply elem_of_difference in Hk' as [Hk' _]. auto.
Qed.

(** C15: [KeepAlive(objs)] returns the closure of a fresh object, adds
    exactly that object to [instances], and pins each of [objs]. *)
Theorem keepalive_new_spec st objs :
  ka_state_wf st ->
  let '(r, st') := keepalive_new objs st in
  exists k, r = Ok (mkClosure k true) /\ (k ∉ ka_instances st) /\
    ka_instances st' = {[k]} ∪ ka_instances st /\
    ka_heap st' !! k = Some objs /\
    (forall k', k' ≠ k -> ka_heap st' !! k' = ka_heap st !! k') /\
    (forall o, o ∈ objs -> pinned st' o).
Proof.
  intros Hwf. simpl. exists (ka_next st). pose proof (ka_fresh st Hwf) as Hf.
  split_and!; try done.
  - intros Hin. destruct Hwf as [Hsub _]. apply Hsub, elem_of_dom in Hin.
    rewrite Hf in Hin. by destruct Hin.
  - simpl. by rewrite lookup_insert_eq.
  - intros k' Hne. simpl. by rewrite lookup_insert_ne.
  - intros o Ho. exists (ka_next st), objs. simpl.
    rewrite lookup_insert_eq. split_and!; [set_solver|done|done].
Qed.

(** C16: the callback of a new KeepAlive, called once, removes it again:
    [instances] is back to what it was, and nothing is raised. *)
Theorem keepalive_release_roundtrip st objs :
  ka_state_wf st ->
  let '(r, st1) := keepalive_new objs st in
  forall c, r = Ok c ->
  keepalive_release (cl_destroy c) st1 =
    (Ok tt, mkKA (ka_instances st) (<[ka_next st := objs]> (ka_heap st))
                 (Pos.succ (ka_next st))).
Proof.
  intros Hwf. simpl. intros c [= <-]. unfold keepalive_release. simpl.
  case_decide as Hin; [|set_solver]. f_equal. f_equal.
  assert (ka_next st ∉ ka_instances st).
  { intros Hk. pose proof Hwf as [Hsub _]. apply Hsub, elem_of_dom in Hk.
    rewrite ka_fresh in Hk by done. by destruct Hk. }
  set_solver.
Qed.

(** C17: calling the same destroy callback a second time raises
    [KeyError] in the lambda and changes nothing. *)
Theorem keepalive_release_twice st k :
  k ∈ ka_instances st ->
  let st1 := snd (keepalive_release k st) in
  keepalive_release k st1 = (Err KeyError, st1).
Proof.
  intros Hin. cbn zeta. unfold keepalive_release.
  destruct (decide (k ∈ ka_instances st)); [|done]. simpl.
  rewrite decide_False by set_solver. done.
Qed.

(** A fresh identity is not registered. *)
Lemma ka_fresh_unregistered st : ka_state_wf st -> ka_next st ∉ ka_instances st.
Proof.
  intros Hwf Hin. pose proof Hwf as [Hsub _]. apply Hsub, elem_of_dom in Hin.
  rewrite ka_fresh in Hin by done. by destruct Hin.
Qed.

(** The release of a registered KeepAlive succeeds and removes it. *)
Lemma keepalive_release_registered st k :
  k ∈ ka_instances st ->
  keepalive_release k st = (Ok tt, mkKA (ka_instances st ∖ {[k]}) (ka_heap st) (ka_next st)).
Proof. intros Hk. unfold keepalive_release. by rewrite decide_True. Qed.

(** Two closures cairo holds with the same callback are the same. *)
Lemma pending_inj (l : list closure) c c' :
  NoDup (cl_destroy <$> l) -> c ∈ l -> c' ∈ l -> cl_destroy c = cl_destroy c' -> c = c'.
Proof.
  induction l as [|c0 l IH]; simpl; intros Hnd Hc Hc' Heq; [set_solver|].
  apply NoDup_cons in Hnd as [Hnot Hnd].
  apply elem_of_cons in Hc as [Hc|Hc]; apply elem_of_cons in Hc' as [Hc'|Hc']; subst; auto;
    exfalso; apply Hnot; [rewrite Heq | rewrite <- Heq]; by apply list_elem_of_fmap_2.
Qed.

(** Every event of the protocol preserves [ka_wf]. *)
Lemma ka_step_wf w ev w' :
  ka_wf w -> ka_step w ev = Some w' -> ka_wf w'.
Proof.
  intros (Hpy & Hreg & Hnd). rewrite Forall_forall in Hreg.
  destruct ev as [objs|c|k]; simpl.
  - intros [= <-]. split_and!; simpl.
    + by apply keepalive_new_wf.
    + constructor; [set_solver|]. apply Forall_forall. set_solver.
    + constructor; [|done]. intros (c & Hc & Hin)%list_elem_of_fmap.
      apply (ka_fresh_unregistered _ Hpy). rewrite Hc. by apply Hreg.
  - case_decide as Hin; [|done]. intros [= <-].
    unfold destroy_callback. rewrite keepalive_release_registered by auto. split_and!; simpl.
    + destruct Hpy as [Hsub Hlt]. split; [set_solver | done].
    + apply Forall_forall. intros c' (Hne & Hc')%list_elem_of_filter.
      apply elem_of_difference. split; [auto|]. intros Heq%elem_of_singleton.
      apply Hne. by apply (pending_inj (kw_pending w)).
    + eapply sublist_NoDup; [exact Hnd|]. apply fmap_sublist, sublist_filter.
  - destruct (ka_collect k (kw_py w)) as [st'|] eqn:Hc; simpl; [|done].
    intros [= <-]. unfold ka_collect in Hc. case_decide; [done|]. injection Hc as <-.
    split_and!; simpl; [|apply Forall_forall; auto | done].
    by eapply ka_collect_wf; [|unfold ka_collect; rewrite decide_False].
Qed.

Lemma ka_run_wf w evs w' : ka_wf w -> ka_run w evs = Some w' -> ka_wf w'.
Proof.
  revert w. induction evs as [|ev evs IH]; intros w Hw; simpl; [by intros [= <-]|].
  destruct (ka_step w ev) as [w1|] eqn:Hs; simpl; [|done].
  apply IH. by eapply ka_step_wf.
Qed.

Lemma ka_init_wf : ka_wf (@ka_init Obj).
Proof.
  split_and!; [split|constructor|constructor]; simpl; [set_solver|]. intros k. set_solver.
Qed.

(** C13: when cairo calls a destroy callback it was given, in any world
    the protocol reaches from the start, the KeepAlive of that callback
    is still allocated (its callback was not reclaimed) and
    [self.instances.remove(self)] raises nothing: [__init__] registered
    the object whose closure it returned. *)
Theorem ka_fire_safe evs w c :
  ka_run ka_init evs = Some w -> c ∈ kw_pending w ->
  cl_destroy c ∈ dom (ka_heap (kw_py w)) /\
  fst (keepalive_release (cl_destroy c) (kw_py w)) = Ok tt.
Proof.
  intros Hrun Hc. destruct (ka_run_wf _ _ _ ka_init_wf Hrun) as ([Hsub _] & Hreg & _).
  rewrite Forall_forall in Hreg. specialize (Hreg c Hc).
  split; [set_solver|]. by rewrite keepalive_release_registered.
Qed.

(** C14: no leak: in any reachable world, once cairo has called a
    destroy callback it holds, the collector can reclaim that KeepAlive
    and with it the objects it pinned. *)
Theorem ka_fire_then_collect evs w c :
  ka_run ka_init evs = Some w -> c ∈ kw_pending w ->
  exists w', ka_run w [EvFire c; EvCollect (cl_destroy c)] = Some w' /\
             ka_heap (kw_py w') !! cl_destroy c = None.
Proof.
  intros Hrun Hc. destruct (ka_run_wf _ _ _ ka_init_wf Hrun) as (_ & Hreg & _).
  rewrite Forall_forall in Hreg. specialize (Hreg c Hc).
  simpl. rewrite decide_True by done. simpl. unfold destroy_callback.
  rewrite keepalive_release_registered by done. simpl. unfold ka_collect. simpl.
  rewrite decide_False by set_solver. eexists. split; [reflexivity|]. apply lookup_delete_eq.
Qed.

Lemma ka_step_keeps w ev w' k :
  ka_wf w -> ka_step w ev = Some w' -> (forall c, ev = EvFire c -> cl_destroy c <> k) ->
  k ∈ ka_instances (kw_py w) ->
  k ∈ ka_instances (kw_py w') /\ ka_heap (kw_py w') !! k = ka_heap (kw_py w) !! k.
Proof.
  intros (Hpy & _) Hs Hne Hk. destruct ev as [objs|c|k']; simpl in Hs.
  - injection Hs as <-. simpl. split; [set_solver|].
    rewrite lookup_insert_ne; [done|]. intros Heq.
    apply (ka_fresh_unregistered _ Hpy). by rewrite Heq.
  - case_decide; [|done]. injection Hs as <-. simpl.
    specialize (Hne c eq_refl).
    unfold destroy_callback, keepalive_release. simpl.
    case_decide; simpl; split; [set_solver|done|done|done].
  - unfold ka_collect in Hs. case_decide as Hc; [done|]. simpl in Hs.
    injection Hs as <-. simpl. rewrite lookup_delete_ne; [done|].
    intros ->. done.
Qed.

(** C12: no premature release: as long as cairo has not called the
    destroy callback of a registered KeepAlive, whatever else happens
    (other pins, other callbacks, collections), it stays registered
    and keeps the same [objects], so each of them stays pinned. *)
Theorem ka_retained w evs w' k :
  ka_wf w -> ka_run w evs = Some w' -> (forall c, EvFire c ∈ evs -> cl_destroy c <> k) ->
  k ∈ ka_instances (kw_py w) ->
  k ∈ ka_instances (kw_py w') /\ ka_heap (kw_py w') !! k = ka_heap (kw_py w) !! k.
Proof.
  revert w. induction evs as [|ev evs IH]; intros w Hwf Hrun Hnot Hk; simpl in Hrun.
  - by injection Hrun as <-.
  - destruct (ka_step w ev) as [w1|] eqn:Hs; simpl in Hrun; [|done].
    destruct (ka_step_keeps w ev w1 k Hwf Hs) as [Hk1 Hh1]; [|done|].
    { intros c ->. apply Hnot. set_solver. }
    destruct (IH w1 (ka_step_wf _ _ _ Hwf Hs) Hrun) as [Hk2 Hh2]; [set_solver|done|].
    split; [done|]. by rewrite Hh2, Hh1.
Qed.
End Lemmas.

(** ** Witnesses *)

Lemma ka_empty_wf : ka_state_wf (mkKA (Obj := nat) ∅ ∅ 1%positive).
Proof. split; simpl; [set_solver|]. intros k. set_solver. Qed.

Lemma keepalive_new_spec_witness :
  ka_state_wf (mkKA (Obj := nat) ∅ ∅ 1%positive) /\
  let '(r, st') := keepalive_new [7] (mkKA (Obj := nat) ∅ ∅ 1%positive) in
  exists k, r = Ok (mkClosure k true) /\ (k ∉ (∅ : gset ka_id)) /\
    ka_instances st' = {[k]} ∪ ∅ /\ ka_heap st' !! k = Some [7] /\
    (forall k', k' ≠ k -> ka_heap st' !! k' = (∅ : gmap ka_id (list nat)) !! k') /\
    (forall o, o ∈ [7] -> pinned st' o).
Proof. split; [exact ka_empty_wf|]. exact (keepalive_new_spec _ [7] ka_empty_wf). Defined.

Lemma keepalive_release_roundtrip_witness :
  ka_state_wf (mkKA (Obj := nat) ∅ ∅ 1%positive) /\
  keepalive_release 1%positive (snd (keepalive_new [7] (mkKA (Obj := nat) ∅ ∅ 1%positive))) =
    (Ok tt, mkKA ∅ (<[1%positive := [7]]> ∅) 2%positive).
Proof.
  split; [exact ka_empty_wf|].
  exact (keepalive_release_roundtrip _ [7] ka_empty_wf (mkClosure 1%positive true) eq_refl).
Defined.

Lemma keepalive_release_twice_witness :
  (1%positive ∈ ({[1%positive]} : gset ka_id)) /\
  let st1 := snd (keepalive_release 1%positive (mkKA (Obj := nat) {[1%positive]} {[1%positive := [7]]} 2%positive)) in
  keepalive_release 1%positive st1 = (Err KeyError, st1).
Proof.
  split; [set_solver|]. apply (keepalive_release_twice (mkKA {[1%positive]} _ _) 1%positive). simpl. set_solver.
Defined.

Lemma ka_fire_safe_witness :
  exists w, ka_run (@ka_init nat) [EvPin [7]; EvPin [8]] = Some w /\
    mkClosure 1%positive true ∈ kw_pending w /\
    1%positive ∈ dom (ka_heap (kw_py w)) /\ fst (keepalive_release 1%positive (kw_py w)) = Ok tt.
Proof.
  eexists. split; [reflexivity|]. split; [simpl; set_solver|].
  apply (ka_fire_safe [EvPin [7]; EvPin [8]] _ (mkClosure 1%positive true));
    [reflexivity | simpl; set_solver].
Defined.

Lemma ka_fire_then_collect_witness :
  exists w, ka_run (@ka_init nat) [EvPin [7]] = Some w /\ mkClosure 1%positive true ∈ kw_pending w /\
    exists w', ka_run w [EvFire (mkClosure 1%positive true); EvCollect 1%positive] = Some w' /\
               ka_heap (kw_py w') !! 1%positive = None.
Proof.
  eexists. split; [reflexivity|]. split; [simpl; set_solver|].
  apply (ka_fire_then_collect [EvPin [7]] _ (mkClosure 1%positive true));
    [reflexivity | simpl; set_solver].
Defined.

Lemma ka_retained_witness :
  let w1 := mkKW (snd (keepalive_new [7] (mkKA (Obj := nat) ∅ ∅ 1%positive))) [] in
  ka_wf w1 /\ (forall c, EvFire c ∈ [EvPin [8]; EvFire (mkClosure 2%positive true)] -> cl_destroy c <> 1%positive) /\
  1%positive ∈ ka_instances (kw_py w1) /\
  exists w', ka_run w1 [EvPin [8]; EvFire (mkClosure 2%positive true)] = Some w' /\
    1%positive ∈ ka_instances (kw_py w') /\
    ka_heap (kw_py w') !! 1%positive = ka_heap (kw_py w1) !! 1%positive.
Proof.
  cbv zeta.
  assert (Hwf : ka_wf (mkKW (snd (keepalive_new [7] (mkKA (Obj := nat) ∅ ∅ 1%positive))) [])).
  { split_and!; [exact (keepalive_new_wf _ [7] ka_empty_wf) | constructor | constructor]. }
  assert (Hn : forall c, EvFire (Obj := nat) c ∈ [EvPin [8]; EvFire (mkClosure 2%positive true)] ->
                 cl_destroy c <> 1%positive).
  { intros c Hc. apply elem_of_cons in Hc as [Hc|Hc]; [discriminate|].
    apply list_elem_of_singleton in Hc. injection Hc as ->. simpl. lia. }
  split_and!; [exact Hwf | exact Hn | simpl; set_solver |].
  eexists. split; [reflexivity|].
  apply (ka_retained _ [EvPin [8]; EvFire (mkClosure 2%positive true)]);
    [exact Hwf | reflexivity | exact Hn | simpl; set_solver].
Defined.
