(* ===== verification/Native.v ===== *)
(** * Native: the part of cairo the surface bindings call

    cairo itself is not code of this repository: what is modelled here is
    the behaviour the spec (sections 3, 4.4-4.6 and 6) relies on, as the
    cairo sources implement it for image surfaces.

    - A handle is a pointer to a surface: [HSurf p] for a surface cairo
      allocated, [HNil st] for the static "nil" surface cairo returns for
      an error [st] (its reference count is invalid: destroying it does
      nothing).
    - The native state [nstate] holds the allocated surfaces and every
      memory block, Python buffers included: an image surface created
      over a Python [bytearray] points into that Python object's block.
    - A call on a freed handle, or a read or write outside a block, is
      undefined behaviour in C; it raises [NativeFault], which no
      Python code can catch.

    Every operation is a [PyM nstate exn _]; it raises nothing else. *)

From S2P Require Import Prelude CTypes.
From Stdlib Require Import QArith_base.

Local Open Scope py_scope.

(** ** Data *)

Definition block := positive.

(** A [char *]: a block and an offset into it. *)
Record ptr := mkPtr { p_block : block; p_off : Z }.

Inductive handle :=
| HNil (st : status)
| HSurf (p : positive).

#[export] Instance handle_eq_dec : EqDecision handle.
Proof. solve_decision. Defined.

(** [cairo_image_surface_t]: format, geometry, and the pixel data
    ([None]: NULL, after [finish] freed data the surface owned). *)
Record image_info := mkImage {
  img_format : Z; img_width : Z; img_height : Z; img_stride : Z;
  img_data : option ptr;
  img_owns_data : bool
}.

Record nsurface := mkSurf {
  ns_type : surface_type;
  ns_content : Z;
  ns_refcount : nat;
  ns_status : status;
  ns_finished : bool;
  ns_device_offset : Q * Q;
  ns_fallback_resolution : Q * Q;
  ns_image : option image_info
}.

Record nstate := mkN {
  n_surfaces : gmap positive nsurface;
  n_mem : gmap block (list byte);
  n_next : positive
}.

(** The static nil surface of a status ([DEFINE_NIL_SURFACE]). *)
Definition nil_surface (st : status) : nsurface :=
  mkSurf ST_IMAGE CONTENT_COLOR 0 st false (0, 0)%Q (0, 0)%Q None.

(** [_cairo_surface_create_in_error] *)
Definition create_in_error (st : status) : handle := HNil st.

(** ** Surfaces and memory *)

Definition surface_of (h : handle) : PyM nstate exn nsurface :=
  match h with
  | HNil st => ret (nil_surface st)
  | HSurf p => fun n => match n_surfaces n !! p with
                        | Some s => (Ok s, n)
                        | None => (Err NativeFault, n)
                        end
  end.

Definition put_surface (p : positive) (s : nsurface) : PyM nstate exn unit :=
  modify_st (fun n => mkN (<[p := s]> (n_surfaces n)) (n_mem n) (n_next n)).

Definition fresh_id : PyM nstate exn positive :=
  fun n => (Ok (n_next n), mkN (n_surfaces n) (n_mem n) (Pos.succ (n_next n))).

Definition mem_alloc (bytes : list byte) : PyM nstate exn block :=
  b <- fresh_id ;;
  modify_st (fun n => mkN (n_surfaces n) (<[b := bytes]> (n_mem n)) (n_next n)) ;;
  ret b.

Definition mem_free (b : block) : PyM nstate exn unit :=
  modify_st (fun n => mkN (n_surfaces n) (delete b (n_mem n)) (n_next n)).

(** [_cairo_surface_set_error]: the first error sticks; the static nil
    surfaces are never written. *)
Definition set_error (h : handle) (st : status) : PyM nstate exn unit :=
  match h with
  | HNil _ => ret tt
  | HSurf p =>
      s <- surface_of h ;;
      match ns_status s with
      | SUCCESS => put_surface p (mkSurf (ns_type s) (ns_content s) (ns_refcount s) st
                                   (ns_finished s) (ns_device_offset s)
                                   (ns_fallback_resolution s) (ns_image s))
      | _ => ret tt
      end
  end.

(** The guard the mutating calls start with: a surface in error is left
    alone; a finished one gets [SURFACE_FINISHED]; otherwise [k] runs. *)
Definition when_live (h : handle) (k : positive -> nsurface -> PyM nstate exn unit)
  : PyM nstate exn unit :=
  s <- surface_of h ;;
  match ns_status s with
  | SUCCESS =>
      if ns_finished s then set_error h SURFACE_FINISHED
      else match h with HSurf p => k p s | HNil _ => ret tt end
  | _ => ret tt
  end.

(** ** Strides and sizes *)

(** [CAIRO_STRIDE_FOR_WIDTH_BPP]: bytes of a row, rounded up to a
    multiple of [CAIRO_STRIDE_ALIGNMENT] = 4 with a mask. *)
Definition stride_for_width_bpp (w bpp : Z) : Z :=
  Z.land ((bpp * w + 7) / 8 + 3) (-4).

(** [cairo_format_stride_for_width]: -1 for an invalid format, and for a
    width whose [(unsigned)] cast is too large (a negative width
    included). *)
Definition format_stride_for_width (format width : Z) : Z :=
  if negb (format_valid format) then -1
  else let bpp := format_bpp format in
       if (to_unsigned32 width >=? (INT32_MAX - 7) / bpp)%Z then -1
       else stride_for_width_bpp width bpp.

Definition MAX_IMAGE_SIZE : Z := 32767.

(** [_cairo_image_surface_is_size_valid] *)
Definition size_valid (w h : Z) : bool :=
  (0 <=? w)%Z && (w <=? MAX_IMAGE_SIZE)%Z && (0 <=? h)%Z && (h <=? MAX_IMAGE_SIZE)%Z.

(** [_cairo_content_from_format] *)
Definition content_of_format (f : Z) : Z :=
  if (f =? FORMAT_A8)%Z || (f =? FORMAT_A1)%Z then CONTENT_ALPHA
  else if (f =? FORMAT_ARGB32)%Z then CONTENT_COLOR_ALPHA
  else CONTENT_COLOR.

(** [_cairo_format_from_content] *)
Definition format_of_content (c : Z) : Z :=
  if (c =? CONTENT_ALPHA)%Z then FORMAT_A8
  else if (c =? CONTENT_COLOR)%Z then FORMAT_RGB24
  else FORMAT_ARGB32.

(** A fresh image surface, reference count 1, over [data]. *)
Definition new_image (fmt w h stride : Z) (data : ptr) (owns : bool) : nsurface :=
  mkSurf ST_IMAGE (content_of_format fmt) 1 SUCCESS false (0, 0)%Q (300, 300)%Q
         (Some (mkImage fmt w h stride (Some data) owns)).

Definition alloc_surface (s : nsurface) : PyM nstate exn handle :=
  p <- fresh_id ;; put_surface p s ;; ret (HSurf p).

(** [_cairo_image_surface_create_with_pixman_format] with [data = NULL]:
    pixman allocates zeroed rows of [((w * bpp + 0x1f) >> 5) * 4] bytes. *)
Definition image_create_pixman (fmt w h : Z) : PyM nstate exn handle :=
  if negb (size_valid w h) then ret (create_in_error INVALID_SIZE)
  else let stride := (Z.shiftr (w * format_bpp fmt + 31) 5 * 4)%Z in
       b <- mem_alloc (replicate (Z.to_nat (stride * h)) x00) ;;
       alloc_surface (new_image fmt w h stride (mkPtr b 0) true).

(** [cairo_image_surface_create] *)
Definition cairo_image_surface_create (fmt w h : Z) : PyM nstate exn handle :=
  if negb (format_valid fmt) then ret (create_in_error INVALID_FORMAT)
  else image_create_pixman fmt w h.

(** [cairo_image_surface_create_for_data]: the surface does not own
    [data]; a negative stride is accepted when its magnitude is at least
    the minimum stride (rows then go downwards in memory). *)
Definition cairo_image_surface_create_for_data (data : ptr) (fmt w h stride : Z)
  : PyM nstate exn handle :=
  if negb (format_valid fmt) then ret (create_in_error INVALID_FORMAT)
  else if negb (Z.land stride 3 =? 0)%Z then ret (create_in_error INVALID_STRIDE)
  else if negb (size_valid w h) then ret (create_in_error INVALID_SIZE)
  else let minstride := format_stride_for_width fmt w in
       if (if (stride <? 0)%Z then (- minstride <? stride)%Z else (stride <? minstride)%Z)
       then ret (create_in_error INVALID_STRIDE)
       else alloc_surface (new_image fmt w h stride data false).

(** ** Life cycle *)

Definition cairo_surface_status (h : handle) : PyM nstate exn status :=
  s <- surface_of h ;; ret (ns_status s).

Definition cairo_surface_get_type (h : handle) : PyM nstate exn surface_type :=
  s <- surface_of h ;; ret (ns_type s).

Definition cairo_surface_get_content (h : handle) : PyM nstate exn Z :=
  s <- surface_of h ;; ret (ns_content s).

(** [_cairo_surface_finish] on an image: owned pixel data is freed and
    the pointer set to NULL; the surface is marked finished. *)
Definition surface_finish_internal (p : positive) (s : nsurface) : PyM nstate exn unit :=
  match ns_image s with
  | Some img =>
      (if img_owns_data img then
         match img_data img with Some d => mem_free (p_block d) | None => ret tt end
       else ret tt) ;;
      let img' := if img_owns_data img
                  then mkImage (img_format img) (img_width img) (img_height img)
                               (img_stride img) None true
                  else img in
      put_surface p (mkSurf (ns_type s) (ns_content s) (ns_refcount s) (ns_status s)
                            true (ns_device_offset s) (ns_fallback_resolution s) (Some img'))
  | None =>
      put_surface p (mkSurf (ns_type s) (ns_content s) (ns_refcount s) (ns_status s)
                            true (ns_device_offset s) (ns_fallback_resolution s) None)
  end.

(** [cairo_surface_finish]: nothing on a nil surface or a finished one. *)
Definition cairo_surface_finish (h : handle) : PyM nstate exn unit :=
  match h with
  | HNil _ => ret tt
  | HSurf p => s <- surface_of h ;;
               if ns_finished s then ret tt else surface_finish_internal p s
  end.

(** [cairo_surface_destroy]: drops one reference; the last one finishes
    the surface if needed and frees it. *)
Definition cairo_surface_destroy (h : handle) : PyM nstate exn unit :=
  match h with
  | HNil _ => ret tt
  | HSurf p =>
      s <- surface_of h ;;
      match ns_refcount s with
      | O => raise NativeFault
      | S O => (if ns_finished s then ret tt else surface_finish_internal p s) ;;
             modify_st (fun n => mkN (delete p (n_surfaces n)) (n_mem n) (n_next n))
      | S r => put_surface p (mkSurf (ns_type s) (ns_content s) r (ns_status s)
                                     (ns_finished s) (ns_device_offset s)
                                     (ns_fallback_resolution s) (ns_image s))
      end
  end.

(** [cairo_surface_flush]: for an image surface nothing to write back. *)
Definition cairo_surface_flush (h : handle) : PyM nstate exn unit :=
  _ <- surface_of h ;; ret tt.

(** [cairo_surface_copy_page], [cairo_surface_show_page]: an image
    surface has no pages; only the guard has an effect. *)
Definition cairo_surface_copy_page (h : handle) : PyM nstate exn unit :=
  when_live h (fun _ _ => ret tt).

Definition cairo_surface_show_page (h : handle) : PyM nstate exn unit :=
  when_live h (fun _ _ => ret tt).

(** [cairo_surface_mark_dirty_rectangle] (and [cairo_surface_mark_dirty],
    the whole surface). *)
Definition cairo_surface_mark_dirty_rectangle (h : handle) (x y w hh : Z)
  : PyM nstate exn unit :=
  when_live h (fun _ _ => ret tt).

Definition cairo_surface_mark_dirty (h : handle) : PyM nstate exn unit :=
  cairo_surface_mark_dirty_rectangle h 0 0 (-1) (-1).

Definition cairo_surface_set_device_offset (h : handle) (x y : Q) : PyM nstate exn unit :=
  when_live h (fun p s =>
    put_surface p (mkSurf (ns_type s) (ns_content s) (ns_refcount s) (ns_status s)
                          (ns_finished s) (x, y) (ns_fallback_resolution s) (ns_image s))).

Definition cairo_surface_get_device_offset (h : handle) : PyM nstate exn (Q * Q) :=
  s <- surface_of h ;; ret (ns_device_offset s).

Definition cairo_surface_get_fallback_resolution (h : handle) : PyM nstate exn (Q * Q) :=
  s <- surface_of h ;; ret (ns_fallback_resolution s).

(** [cairo_surface_create_similar] for an image surface: an image of the
    format that holds [content], with the fallback resolution of [other]. *)
Definition cairo_surface_create_similar (other : handle) (content w h : Z)
  : PyM nstate exn handle :=
  s <- surface_of other ;;
  match ns_status s with
  | SUCCESS =>
      if ns_finished s then ret (create_in_error SURFACE_FINISHED)
      else if (w <? 0)%Z || (h <? 0)%Z then ret (create_in_error INVALID_SIZE)
      else if negb (content_valid content) then ret (create_in_error INVALID_CONTENT)
      else r <- cairo_image_surface_create (format_of_content content) w h ;;
           match r with
           | HSurf p =>
               s' <- surface_of r ;;
               put_surface p (mkSurf (ns_type s') (ns_content s') (ns_refcount s')
                                (ns_status s') (ns_finished s') (ns_device_offset s')
                                (ns_fallback_resolution s) (ns_image s')) ;;
               ret r
           | HNil _ => ret r
           end
  | st => ret (create_in_error st)
  end.

(** [cairo_surface_create_similar_image]: its second parameter is a
    [cairo_format_t]. *)
Definition cairo_surface_create_similar_image (other : handle) (fmt w h : Z)
  : PyM nstate exn handle :=
  s <- surface_of other ;;
  match ns_status s with
  | SUCCESS =>
      if ns_finished s then ret (create_in_error SURFACE_FINISHED)
      else if (w <? 0)%Z || (h <? 0)%Z then ret (create_in_error INVALID_SIZE)
      else if negb (format_valid fmt) then ret (create_in_error INVALID_FORMAT)
      else cairo_image_surface_create fmt w h
  | st => ret (create_in_error st)
  end.

(** ** Image surface queries: on a surface that is not an image they
    return [CAIRO_FORMAT_INVALID], 0 or NULL. *)

Definition image_query {A} (dflt : A) (f : image_info -> A) (h : handle)
  : PyM nstate exn A :=
  s <- surface_of h ;;
  match h, ns_image s with
  | HSurf _, Some img => ret (f img)
  | _, _ => ret dflt
  end.

Definition cairo_image_surface_get_format := image_query FORMAT_INVALID img_format.
Definition cairo_image_surface_get_width := image_query 0%Z img_width.
Definition cairo_image_surface_get_height := image_query 0%Z img_height.
Definition cairo_image_surface_get_stride := image_query 0%Z img_stride.
Definition cairo_image_surface_get_data := image_query None img_data.

(** ** The memory an image surface reads and writes *)

(** Bytes of pixel data in one row. *)
Definition row_bytes (fmt w : Z) : Z := (format_bpp fmt * w + 7) / 8.

(** Row [y] occupies [[data + y * stride, data + y * stride + row_bytes)]. *)
Definition row_in_block (m : gmap block (list byte)) (img : image_info) (y : Z) : bool :=
  match img_data img with
  | None => false
  | Some d =>
      match m !! p_block d with
      | None => false
      | Some bytes =>
          let start := (p_off d + y * img_stride img)%Z in
          (0 <=? start)%Z &&
          (start + row_bytes (img_format img) (img_width img) <=? Z.of_nat (length bytes))%Z
      end
  end.

(** Every row cairo may touch lies inside the block of the data. *)
Definition image_in_bounds (m : gmap block (list byte)) (img : image_info) : bool :=
  forallb (fun y => row_in_block m img (Z.of_nat y)) (seq 0 (Z.to_nat (img_height img))).

(** ** MIME types *)

(** [cairo_surface_supports_mime_type]: the image backend lists no
    supported MIME type, so the answer is always false (after the
    guard). *)
Definition cairo_surface_supports_mime_type (h : handle) (mime : ptr) : PyM nstate exn bool :=
  s <- surface_of h ;;
  match ns_status s with
  | SUCCESS => if ns_finished s then set_error h SURFACE_FINISHED ;; ret false
               else ret false
  | _ => ret false
  end.

(** ** Lemmas on strides *)

Lemma land_minus4 (x : Z) : Z.land x (-4) = (4 * (x / 4))%Z.
Proof.
  change (-4)%Z with (Z.lnot (Z.ones 2)).
  rewrite <- Z.ldiff_land, Z.ldiff_ones_r, Z.shiftl_mul_pow2, Z.shiftr_div_pow2 by lia.
  change (2 ^ 2)%Z with 4%Z. lia.
Qed.

(** cairo's mask form of the stride and the shift form pixman uses
    when it allocates the rows itself agree: both are the row's bytes
    rounded up to a multiple of 4. *)
Lemma stride_for_width_bpp_pixman (w bpp : Z) :
  (0 <= bpp * w)%Z ->
  stride_for_width_bpp w bpp = (Z.shiftr (w * bpp + 31) 5 * 4)%Z.
Proof.
  intros H. unfold stride_for_width_bpp. rewrite land_minus4, Z.shiftr_div_pow2 by lia.
  change (2 ^ 5)%Z with 32%Z. rewrite (Z.mul_comm w bpp).
  replace ((bpp * w + 7) / 8 + 3)%Z with ((bpp * w + 7 + 3 * 8) / 8)%Z
    by (rewrite Z.div_add; lia).
  rewrite Z.div_div by lia. replace (bpp * w + 7 + 3 * 8)%Z with (bpp * w + 31)%Z by lia.
  change (8 * 4)%Z with 32%Z. lia.
Qed.

Lemma format_bpp_range (f : Z) : (1 <= format_bpp f <= 32)%Z.
Proof. unfold format_bpp. repeat case_match; lia. Qed.

(** Below its limit, the width passes the unsigned check and the stride
    is the mask formula at the format's bits per pixel. *)
Lemma format_stride_valid (fmt w : Z) :
  format_valid fmt = true ->
  (0 <= w < (INT32_MAX - 7) / format_bpp fmt)%Z ->
  format_stride_for_width fmt w = stride_for_width_bpp w (format_bpp fmt).
Proof.
  intros Hv Hw. unfold format_stride_for_width. rewrite Hv. simpl.
  pose proof (format_bpp_range fmt) as Hb.
  assert (Hq : ((INT32_MAX - 7) / format_bpp fmt <= INT32_MAX - 7)%Z)
    by (apply Z.div_le_upper_bound; unfold INT32_MAX; nia).
  unfold to_unsigned32. rewrite Z.mod_small by (unfold INT32_MAX in *; lia).
  destruct (Z.geb_spec w ((INT32_MAX - 7) / format_bpp fmt)); [lia|done].
Qed.

(** For a valid format and a width the stride function accepts, the
    stride is the least multiple of 4 that holds a row, and fits a C
    [int]. *)
Lemma stride_bounds (fmt w : Z) :
  format_valid fmt = true ->
  (0 <= w < (INT32_MAX - 7) / format_bpp fmt)%Z ->
  let s := format_stride_for_width fmt w in
  (row_bytes fmt w <= s < row_bytes fmt w + 4)%Z /\ (s mod 4 = 0)%Z /\
  (0 <= s <= INT32_MAX)%Z.
Proof.
  intros Hv Hw. unfold format_stride_for_width, row_bytes. rewrite Hv. simpl.
  pose proof (format_bpp_range fmt) as Hb.
  assert (Hq : ((INT32_MAX - 7) / format_bpp fmt <= INT32_MAX - 7)%Z)
    by (apply Z.div_le_upper_bound; unfold INT32_MAX; nia).
  assert (Hm : (format_bpp fmt * w <= INT32_MAX - 7)%Z).
  { pose proof (Z.mul_div_le (INT32_MAX - 7) (format_bpp fmt)). nia. }
  unfold to_unsigned32. rewrite Z.mod_small by (unfold INT32_MAX in *; lia).
  destruct (Z.geb_spec w ((INT32_MAX - 7) / format_bpp fmt)); [lia|].
  unfold stride_for_width_bpp. rewrite land_minus4.
  assert (0 <= format_bpp fmt * w)%Z by nia.
  set (m := (format_bpp fmt * w)%Z) in *. clearbody m. clear Hw Hq H.
  set (a := ((m + 7) / 8)%Z).
  assert (0 <= a <= INT32_MAX / 8)%Z by (subst a; unfold INT32_MAX in *; split;
    [apply Z.div_pos; lia | apply Z.div_le_mono; lia]).
  clearbody a. rewrite Z.mul_comm, Z_mod_mult. unfold INT32_MAX in *. zlia.
Qed.

(** The stride function reports an error (-1) for an invalid format
    and, through its unsigned cast, for every negative width. *)
Lemma stride_error (fmt w : Z) :
  (format_valid fmt = false \/ (INT32_MIN <= w < 0)%Z) ->
  format_stride_for_width fmt w = (-1)%Z.
Proof.
  intros [Hf | Hw]; unfold format_stride_for_width; [by rewrite Hf|].
  destruct (format_valid fmt); [simpl|done].
  pose proof (format_bpp_range fmt) as Hb.
  assert (Hu : to_unsigned32 w = (w + 2 ^ 32)%Z)
    by (unfold to_unsigned32; unfold INT32_MIN in Hw; zlia).
  rewrite Hu.
  assert (Hq : ((INT32_MAX - 7) / format_bpp fmt <= INT32_MAX - 7)%Z)
    by (apply Z.div_le_upper_bound; unfold INT32_MAX; nia).
  destruct (Z.geb_spec (w + 2 ^ 32) ((INT32_MAX - 7) / format_bpp fmt)); [done|].
  unfold INT32_MIN, INT32_MAX in *. lia.
Qed.
