(* ===== verification/CFFI.v ===== *)
(** * CFFI: strings, byte arrays and pointers at the cffi boundary

    - [utf8_encode]: [str.encode('utf8')] (and [str.encode] with the
      file-system encoding, UTF-8 on the platforms cairo runs on), in
      the default strict mode: a lone surrogate raises
      [UnicodeEncodeError].  A Python [str] is its list of code points.
    - [ffi_new_char_ptr], [ffi_new_char_array]: [ffi.new('char *', b)]
      and [ffi.new('char[]', b)], which allocate native memory.
    - [c_string]: what C reads at a [const char *]: the bytes up to the
      first NUL of the block, undefined behaviour when there is none.
    - [encode_filename] and [from_buffer]: [_encode_filename] and
      [from_buffer] of src/cairocffi/surfaces.py (lines 37-45). *)

From S2P Require Import Prelude CTypes Native.

Local Open Scope py_scope.
Local Open Scope Z_scope.

(** ** Python strings *)

Definition pystr : Type := list Z.

Definition byte_of_Z (z : Z) : byte :=
  match Byte.of_N (Z.to_N z) with Some b => b | None => x00 end.

Definition Z_of_byte (b : byte) : Z := Z.of_N (Byte.to_N b).

(** A Unicode scalar value: a code point that is not a surrogate. *)
Definition is_scalar (c : Z) : bool :=
  (0 <=? c) && (c <=? 1114111) && negb ((55296 <=? c) && (c <=? 57343)).

(** The UTF-8 form of one code point, as CPython's encoder writes it. *)
Definition utf8_encode_char (c : Z) : list Z :=
  if c <? 128 then [c]
  else if c <? 2048 then
    [Z.lor 192 (Z.shiftr c 6); Z.lor 128 (Z.land c 63)]
  else if c <? 65536 then
    [Z.lor 224 (Z.shiftr c 12); Z.lor 128 (Z.land (Z.shiftr c 6) 63);
     Z.lor 128 (Z.land c 63)]
  else
    [Z.lor 240 (Z.shiftr c 18); Z.lor 128 (Z.land (Z.shiftr c 12) 63);
     Z.lor 128 (Z.land (Z.shiftr c 6) 63); Z.lor 128 (Z.land c 63)].

(** [s.encode('utf8')] *)
Definition utf8_encode {S} (s : pystr) : PyM S exn (list byte) :=
  if forallb is_scalar s then ret (map byte_of_Z (concat (map utf8_encode_char s)))
  else raise UnicodeEncodeError.

(** ** Native strings *)

(** [ffi.new('char *', init)]: one [char]; [init] must be a bytes object
    of length 1. *)
Definition ffi_new_char_ptr (init : list byte) : PyM nstate exn ptr :=
  match init with
  | [c] => b <- mem_alloc [c] ;; ret (mkPtr b 0)
  | _ => raise TypeError
  end.

(** [ffi.new('char[]', init)]: the bytes followed by a NUL. *)
Definition ffi_new_char_array (init : list byte) : PyM nstate exn ptr :=
  b <- mem_alloc (init ++ [x00]) ;; ret (mkPtr b 0).

(** The bytes C reads as a string at [p]: up to the first NUL. *)
Fixpoint take_until_nul (l : list byte) : option (list byte) :=
  match l with
  | [] => None
  | c :: rest => if decide (c = x00) then Some [] else
                 option_map (cons c) (take_until_nul rest)
  end.

Definition c_string (p : ptr) : PyM nstate exn (list byte) :=
  fun n =>
    match n_mem n !! p_block p with
    | Some bytes =>
        if (0 <=? p_off p) then
          match take_until_nul (drop (Z.to_nat (p_off p)) bytes) with
          | Some s => (Ok s, n)
          | None => (Err NativeFault, n)
          end
        else (Err NativeFault, n)
    | None => (Err NativeFault, n)
    end.

(** ** [_encode_filename] and [from_buffer] *)

(** A path argument: [bytes] or [str] (anything else has no [encode]). *)
Inductive pypath :=
| PathBytes (b : list byte)
| PathStr (s : pystr)
| PathOther.

Definition encode_filename (filename : pypath) : PyM nstate exn ptr :=
  match filename with
  | PathBytes b => ffi_new_char_array b
  | PathStr s => b <- utf8_encode s ;; ffi_new_char_array b
  | PathOther => raise AttributeError
  end.

(** [ffi.cast('char *', ctypes.addressof(ctypes.c_char.from_buffer(data)))]:
    the address of the first byte of a writable Python buffer; ctypes
    refuses an empty one. *)
Definition from_buffer (data : block) : PyM nstate exn ptr :=
  fun n =>
    match n_mem n !! data with
    | Some (_ :: _) => (Ok (mkPtr data 0), n)
    | Some [] => (Err (ValueError BufferTooSmall0), n)
    | None => (Err NativeFault, n)
    end.

(** ** Lemmas *)

Lemma take_until_nul_app (b rest : list byte) :
  x00 ∉ b -> take_until_nul (b ++ x00 :: rest) = Some b.
Proof.
  induction b as [|c b IH]; intros Hn; simpl; [done|].
  apply not_elem_of_cons in Hn as [Hc Hn].
  rewrite decide_False by done. by rewrite IH.
Qed.

(** What cairo reads as a file name, for a path given as bytes: the
    bytes before the first NUL. *)
Lemma encode_filename_bytes (b : list byte) (n : nstate) :
  exists p n', encode_filename (PathBytes b) n = (Ok p, n') /\
    fst (c_string p n') = match take_until_nul (b ++ [x00]) with
                          | Some s => Ok s | None => Err NativeFault end.
Proof.
  do 2 eexists. split; [reflexivity|]. unfold c_string. cbn [n_mem p_block p_off].
  rewrite lookup_insert_eq. simpl. by destruct (take_until_nul _).
Qed.

(** C27: for a path without NUL bytes, cairo receives exactly the bytes
    of the path. *)
Theorem encode_filename_roundtrip (b : list byte) (n : nstate) :
  x00 ∉ b ->
  exists p n', encode_filename (PathBytes b) n = (Ok p, n') /\ fst (c_string p n') = Ok b.
Proof.
  intros Hn. destruct (encode_filename_bytes b n) as (p & n' & Hp & Hs).
  exists p, n'. split; [done|]. by rewrite Hs, take_until_nul_app.
Qed.

(** C28: a path with an embedded NUL is passed on silently, and cairo
    opens the file named by its bytes before the first NUL. *)
Theorem encode_filename_embedded_nul (b1 b2 : list byte) (n : nstate) :
  x00 ∉ b1 ->
  exists p n', encode_filename (PathBytes (b1 ++ x00 :: b2)) n = (Ok p, n') /\
               fst (c_string p n') = Ok b1.
Proof.
  intros Hn. destruct (encode_filename_bytes (b1 ++ x00 :: b2) n) as (p & n' & Hp & Hs).
  exists p, n'. split; [done|]. rewrite Hs, <- app_assoc. simpl.
  by rewrite take_until_nul_app.
Qed.

Lemma utf8_encode_ascii {S} (s : pystr) (st : S) :
  Forall (fun c => 0 <= c < 128) s ->
  utf8_encode s st = (Ok (map byte_of_Z s), st).
Proof.
  intros Hs. unfold utf8_encode.
  assert (forallb is_scalar s = true) as ->.
  { apply forallb_forall. intros c Hc%list_elem_of_In. rewrite Forall_forall in Hs.
    specialize (Hs c Hc). unfold is_scalar. case_cmp; simpl; lia. }
  assert (concat (map utf8_encode_char s) = s) as ->; [|done].
  induction s as [|c s IH]; [done|].
  inversion Hs; subst. simpl. unfold utf8_encode_char at 1.
  destruct (Z.ltb_spec c 128); [|lia]. simpl. by rewrite IH.
Qed.

(** C29: a [str] path holding a lone surrogate (what [os.listdir] returns
    for a name that is not valid UTF-8) cannot be encoded: strict
    [str.encode] raises [UnicodeEncodeError] before cairo is called. *)
Theorem encode_filename_surrogate (s1 s2 : pystr) (c : Z) (n : nstate) :
  55296 <= c <= 57343 ->
  encode_filename (PathStr (s1 ++ c :: s2)) n = (Err UnicodeEncodeError, n).
Proof.
  intros Hc. simpl. unfold utf8_encode.
  assert (forallb is_scalar (s1 ++ c :: s2) = false) as ->.
  { apply not_true_iff_false. intros Hall. rewrite forallb_forall in Hall.
    specialize (Hall c ltac:(apply in_or_app; right; left; done)).
    unfold is_scalar in Hall. case_cmp; simpl in *; try discriminate; lia. }
  done.
Qed.

(** [byte_of_Z] and [Z_of_byte] are inverse on the values of a byte. *)
Lemma Z_of_byte_of_Z (z : Z) : 0 <= z <= 255 -> Z_of_byte (byte_of_Z z) = z.
Proof.
  intros Hz. unfold Z_of_byte, byte_of_Z.
  pose proof (Byte.to_of_N_option_map (Z.to_N z)) as Hm.
  assert (N.leb (Z.to_N z) 255 = true) as Hle by (apply N.leb_le; lia).
  rewrite Hle in Hm. destruct (Byte.of_N (Z.to_N z)) as [b|]; simpl in Hm; [|done].
  injection Hm as ->. lia.
Qed.

(** ** Witnesses *)

Lemma encode_filename_roundtrip_witness :
  x00 ∉ [x61; x62] /\
  exists p n', encode_filename (PathBytes [x61; x62]) (mkN ∅ ∅ 1) = (Ok p, n') /\
               fst (c_string p n') = Ok [x61; x62].
Proof.
  split; [by repeat (apply not_elem_of_cons; split; [discriminate|]); apply not_elem_of_nil|].
  apply encode_filename_roundtrip. by repeat (apply not_elem_of_cons; split; [discriminate|]); apply not_elem_of_nil.
Defined.

Lemma encode_filename_embedded_nul_witness :
  x00 ∉ [x61] /\
  exists p n', encode_filename (PathBytes ([x61] ++ x00 :: [x62])) (mkN ∅ ∅ 1) = (Ok p, n') /\
               fst (c_string p n') = Ok [x61].
Proof.
  split; [by repeat (apply not_elem_of_cons; split; [discriminate|]); apply not_elem_of_nil|].
  apply encode_filename_embedded_nul. by repeat (apply not_elem_of_cons; split; [discriminate|]); apply not_elem_of_nil.
Defined.

Lemma encode_filename_surrogate_witness :
  55296 <= 56448 <= 57343 /\
  encode_filename (PathStr ([97] ++ 56448 :: [98])) (mkN ∅ ∅ 1) =
    (Err UnicodeEncodeError, mkN ∅ ∅ 1).
Proof. split; [lia|]. apply encode_filename_surrogate. lia. Defined.

