(* ===== verification/Surface.v ===== *)
(** * Surface: the wrapper class [Surface] and the type dispatch

    [Surface] (src/cairocffi/surfaces.py, lines 64-156) and
    [SURFACE_TYPE_TO_CLASS] (lines 215-217).

    The world [world] is the native state and the Python heap of wrapper
    objects: each live wrapper has its class ([Surface] or
    [ImageSurface]), its [_handle] (the cdata [ffi.gc] returned) and, for
    an image surface over a caller's buffer, its [_data].  Identities of
    Python objects are drawn from [w_next].

    A method of the wrapper is a [PyM world exn _] taking the wrapper's
    identity as [self].  [surface_finalize] is what happens when the
    collector reclaims a wrapper: [ffi.gc] calls [cairo_surface_destroy]
    on its handle. *)

From S2P Require Import Prelude CTypes Native CFFI.
From Stdlib Require Import QArith_base.

Local Open Scope py_scope.

Inductive pyclass := CSurface | CImageSurface.

#[export] Instance pyclass_eq_dec : EqDecision pyclass.
Proof. solve_decision. Defined.

Record pysurface := mkPS {
  ps_class : pyclass;        (** [self.__class__] *)
  ps_handle : handle;        (** [self._handle] *)
  ps_data : option block     (** [self._data] *)
}.

Record world := mkW {
  w_native : nstate;
  w_objs : gmap positive pysurface;
  w_next : positive
}.

Definition oid := positive.

(** ** Plumbing *)

(** A call into cairo. *)
Definition native {A} (m : PyM nstate exn A) : PyM world exn A :=
  fun w => let '(r, n') := m (w_native w) in (r, mkW n' (w_objs w) (w_next w)).

(** [object.__new__]: a fresh identity. *)
Definition new_object : PyM world exn oid :=
  fun w => (Ok (w_next w), mkW (w_native w) (w_objs w) (Pos.succ (w_next w))).

Definition put_object (o : oid) (ps : pysurface) : PyM world exn unit :=
  modify_st (fun w => mkW (w_native w) (<[o := ps]> (w_objs w)) (w_next w)).

(** The attributes of [self]; a wrapper whose [__init__] did not finish
    has no [_handle]. *)
Definition self_of (o : oid) : PyM world exn pysurface :=
  fun w => match w_objs w !! o with
           | Some ps => (Ok ps, w)
           | None => (Err AttributeError, w)
           end.

(** A method defined in [ImageSurface] only: looking it up on a plain
    [Surface] raises [AttributeError]. *)
Definition image_self (o : oid) : PyM world exn pysurface :=
  ps <- self_of o ;;
  match ps_class ps with
  | CImageSurface => ret ps
  | CSurface => raise AttributeError
  end.

(** ** Construction and dispatch *)

(** [Surface.__init__(self, handle)] on an allocated object of class
    [cls] whose [_data] is [data]: check the status, then arrange the
    release with [ffi.gc]. *)
Definition surface___init__ (o : oid) (cls : pyclass) (data : option block) (h : handle)
  : PyM world exn unit :=
  st <- native (cairo_surface_status h) ;;
  check_status st ;;
  put_object o (mkPS cls h data).

(** [Surface(handle)] *)
Definition Surface_new (h : handle) : PyM world exn oid :=
  o <- new_object ;; surface___init__ o CSurface None h ;; ret o.

(** [SURFACE_TYPE_TO_CLASS = dict(IMAGE=ImageSurface)] *)
Definition SURFACE_TYPE_TO_CLASS : list (surface_type * pyclass) :=
  [(ST_IMAGE, CImageSurface)].

(** [surface_type in SURFACE_TYPE_TO_CLASS], [SURFACE_TYPE_TO_CLASS[t]] *)
Fixpoint dict_get (l : list (surface_type * pyclass)) (t : surface_type) : option pyclass :=
  match l with
  | [] => None
  | (k, v) :: rest => if decide (k = t) then Some v else dict_get rest t
  end.

(** [surface.__class__ = cls] *)
Definition set_class (o : oid) (cls : pyclass) : PyM world exn unit :=
  ps <- self_of o ;; put_object o (mkPS cls (ps_handle ps) (ps_data ps)).

(** [Surface._from_handle(handle)] *)
Definition Surface__from_handle (h : handle) : PyM world exn oid :=
  o <- Surface_new h ;;
  t <- native (cairo_surface_get_type h) ;;
  match dict_get SURFACE_TYPE_TO_CLASS t with
  | Some cls => set_class o cls
  | None => ret tt
  end ;;
  ret o.

(** ** Methods *)

Definition Surface_copy_page (o : oid) : PyM world exn unit :=
  ps <- self_of o ;; native (cairo_surface_copy_page (ps_handle ps)).

Definition Surface_show_page (o : oid) : PyM world exn unit :=
  ps <- self_of o ;; native (cairo_surface_show_page (ps_handle ps)).

Definition Surface_create_similar (o : oid) (content width height : Z) : PyM world exn oid :=
  ps <- self_of o ;;
  c <- to_c_int content ;; w <- to_c_int width ;; h <- to_c_int height ;;
  h' <- native (cairo_surface_create_similar (ps_handle ps) c w h) ;;
  Surface__from_handle h'.

(** [create_similar_image(self, content, width, height)] hands its
    [content] argument to the [cairo_format_t] parameter. *)
Definition Surface_create_similar_image (o : oid) (content width height : Z)
  : PyM world exn oid :=
  ps <- self_of o ;;
  c <- to_c_int content ;; w <- to_c_int width ;; h <- to_c_int height ;;
  h' <- native (cairo_surface_create_similar_image (ps_handle ps) c w h) ;;
  Surface__from_handle h'.

Definition Surface_finish (o : oid) : PyM world exn unit :=
  ps <- self_of o ;; native (cairo_surface_finish (ps_handle ps)).

Definition Surface_flush (o : oid) : PyM world exn unit :=
  ps <- self_of o ;; native (cairo_surface_flush (ps_handle ps)).

Definition Surface_get_content (o : oid) : PyM world exn Z :=
  ps <- self_of o ;; native (cairo_surface_get_content (ps_handle ps)).

Definition Surface_get_device_offset (o : oid) : PyM world exn (Q * Q) :=
  ps <- self_of o ;; native (cairo_surface_get_device_offset (ps_handle ps)).

Definition Surface_set_device_offset (o : oid) (x y : Q) : PyM world exn unit :=
  ps <- self_of o ;; native (cairo_surface_set_device_offset (ps_handle ps) x y).

Definition Surface_get_fallback_resolution (o : oid) : PyM world exn (Q * Q) :=
  ps <- self_of o ;; native (cairo_surface_get_fallback_resolution (ps_handle ps)).

(** [set_fallback_resolution] calls [cairo_surface_get_fallback_resolution]
    with two numbers where C expects [double *]: cffi refuses the first
    of them before any native code runs. *)
Definition Surface_set_fallback_resolution (o : oid) (x y : Q) : PyM world exn unit :=
  ps <- self_of o ;; raise TypeError.

Definition Surface_get_font_options (o : oid) : PyM world exn unit :=
  raise NotImplementedError.

(** [ffi.new('char *', mime_type.encode('utf8'))] *)
Definition mime_type_ptr (mime : pystr) : PyM world exn ptr :=
  b <- utf8_encode mime ;; native (ffi_new_char_ptr b).

(** [get_mime_data]: after the three [ffi.new], the call looks up
    [cairo.cairo_surface_get_mime_type], which the library does not
    export. *)
Definition Surface_get_mime_data (o : oid) (mime : pystr) : PyM world exn (list byte) :=
  _ <- mime_type_ptr mime ;; raise AttributeError.

(** [set_mime_data]: the callee [cairo.cairo_surface_set_mime_type] is
    looked up before its arguments, the [KeepAlive] among them, are
    evaluated. *)
Definition Surface_set_mime_data (o : oid) (mime : pystr) (data : block) : PyM world exn unit :=
  _ <- mime_type_ptr mime ;; raise AttributeError.

Definition Surface_set_supports_mime_type (o : oid) (mime : pystr) : PyM world exn bool :=
  p <- mime_type_ptr mime ;;
  ps <- self_of o ;;
  native (cairo_surface_supports_mime_type (ps_handle ps) p).

Definition Surface_mark_dirty (o : oid) : PyM world exn unit :=
  ps <- self_of o ;; native (cairo_surface_mark_dirty (ps_handle ps)).

Definition Surface_mark_dirty_rectangle (o : oid) (x y width height : Z) : PyM world exn unit :=
  ps <- self_of o ;;
  x' <- to_c_int x ;; y' <- to_c_int y ;; w <- to_c_int width ;; h <- to_c_int height ;;
  native (cairo_surface_mark_dirty_rectangle (ps_handle ps) x' y' w h).

(** ** Reclamation *)

(** The collector reclaims wrapper [o]: the cdata of [ffi.gc] dies with
    it and [cairo_surface_destroy] runs on the handle; [_data] is no
    longer referenced by the wrapper. *)
Definition surface_finalize (o : oid) : PyM world exn unit :=
  ps <- self_of o ;;
  modify_st (fun w => mkW (w_native w) (delete o (w_objs w)) (w_next w)) ;;
  native (cairo_surface_destroy (ps_handle ps)).

(** ** Lemmas *)

(** A wrapper whose [__init__] completed. *)
Definition live (w : world) (o : oid) (ps : pysurface) : Prop := w_objs w !! o = Some ps.

(** The native surface behind a handle, in a world. *)
Definition nsurf (w : world) (p : positive) : option nsurface := n_surfaces (w_native w) !! p.

(** The image of the native surface behind a handle, in a world. *)
Definition image_of (w : world) (p : positive) : option image_info :=
  match nsurf w p with Some s => ns_image s | None => None end.

Lemma self_of_live w o ps : live w o ps -> self_of o w = (Ok ps, w).
Proof. unfold live, self_of. by intros ->. Qed.

Lemma surface_of_live w p s : nsurf w p = Some s ->
  surface_of (HSurf p) (w_native w) = (Ok s, w_native w).
Proof. unfold nsurf. simpl. by intros ->. Qed.

#[export] Hint Resolve self_of_live surface_of_live : cairo.

(** Unfold a world-level call on a live wrapper and its surface. *)
Ltac world_simp :=
  repeat match goal with
  | H : live ?w ?o _ |- context [self_of ?o ?w] => rewrite (self_of_live _ _ _ H)
  | H : nsurf ?w ?p = Some _ |- context [n_surfaces (w_native ?w) !! ?p] =>
      unfold nsurf in H; rewrite H
  | H : n_surfaces (w_native ?w) !! ?p = Some _ |- context [n_surfaces (w_native ?w) !! ?p] =>
      rewrite H
  | H : ?x = _ |- context [match ?x with _ => _ end] => rewrite H
  | _ => progress (unfold native, bind, ret, raise, modify_st, check_status in *; simpl in *)
  end.

(** Compute through the lookups of freshly inserted keys. *)
Ltac insert_simp := repeat progress (simpl; rewrite ?lookup_insert_eq).

(** C19: [Surface(handle)] on a handle in error raises [CairoError] with
    the native status and arranges no release: no wrapper is
    registered, and the native state is untouched. *)
Theorem Surface_new_error (st : status) (w : world) :
  st <> SUCCESS ->
  Surface_new (HNil st) w =
    (Err (CairoError (status_code st)), mkW (w_native w) (w_objs w) (Pos.succ (w_next w))).
Proof.
  intros Hst. unfold Surface_new, surface___init__, new_object, cairo_surface_status.
  world_simp. destruct st; try congruence; reflexivity.
Qed.

(** C18: [_from_handle] on a valid handle returns a fresh wrapper whose
    class is the one [SURFACE_TYPE_TO_CLASS] gives for the native type
    tag ([ImageSurface] for [IMAGE]), and plain [Surface] for every
    other tag; nothing else changes. *)
Theorem from_handle_dispatch (p : positive) (s : nsurface) (w : world) :
  nsurf w p = Some s -> ns_status s = SUCCESS ->
  Surface__from_handle (HSurf p) w =
    (Ok (w_next w),
     mkW (w_native w)
         (<[w_next w := mkPS (if decide (ns_type s = ST_IMAGE) then CImageSurface else CSurface)
                             (HSurf p) None]> (w_objs w))
         (Pos.succ (w_next w))).
Proof.
  intros Hp Hst. unfold Surface__from_handle, Surface_new, surface___init__, new_object,
    cairo_surface_status, cairo_surface_get_type, put_object, set_class, self_of.
  world_simp. destruct (ns_type s); simpl; try reflexivity.
  rewrite lookup_insert_eq. unfold put_object, modify_st. simpl. by rewrite insert_insert_eq.
Qed.

Lemma to_c_int_in {S} (z : Z) (s : S) : in_int32 z = true -> to_c_int z s = (Ok z, s).
Proof. unfold to_c_int. by intros ->. Qed.

#[export] Hint Resolve to_c_int_in : cairo.

(** C21: [create_similar_image(content, width, height)] passes [content]
    where cairo expects a pixel format, so on a healthy surface every
    valid content value is refused with [INVALID_FORMAT]. *)
Theorem create_similar_image_content (o : oid) (ps : pysurface) (p : positive)
  (s : nsurface) (c width height : Z) (w : world) :
  live w o ps -> ps_handle ps = HSurf p -> nsurf w p = Some s ->
  ns_status s = SUCCESS -> ns_finished s = false ->
  content_valid c = true -> (0 <= width <= INT32_MAX)%Z -> (0 <= height <= INT32_MAX)%Z ->
  fst (Surface_create_similar_image o c width height w) =
    Err (CairoError (status_code INVALID_FORMAT)).
Proof.
  intros Hl Hh Hp Hst Hf Hc Hw Hht.
  assert (in_int32 c = true) as Hc32.
  { apply in_int32_spec. unfold content_valid in Hc. apply bool_decide_eq_true in Hc.
    unfold CONTENT_COLOR, CONTENT_ALPHA, CONTENT_COLOR_ALPHA, INT32_MIN, INT32_MAX in *. lia. }
  assert (in_int32 width = true) as Hw32 by (apply in_int32_spec; unfold INT32_MIN; lia).
  assert (in_int32 height = true) as Hh32 by (apply in_int32_spec; unfold INT32_MIN; lia).
  assert (format_valid c = false) as Hfv.
  { unfold content_valid in Hc. apply bool_decide_eq_true in Hc. unfold format_valid.
    unfold CONTENT_COLOR, CONTENT_ALPHA, CONTENT_COLOR_ALPHA, FORMAT_RGB30 in *.
    destruct Hc as [-> | [-> | ->]]; reflexivity. }
  unfold Surface_create_similar_image, cairo_surface_create_similar_image, to_c_int.
  rewrite Hc32, Hw32, Hh32. world_simp. rewrite Hh. simpl. world_simp.
  destruct (Z.ltb_spec width 0); [lia|]. destruct (Z.ltb_spec height 0); [lia|]. simpl.
  rewrite Hfv. simpl. unfold Surface__from_handle, Surface_new, surface___init__,
    new_object, cairo_surface_status. world_simp. reflexivity.
Qed.

(** C20: when the collector reclaims the only wrapper of a surface, the
    release arranged by [ffi.gc] runs once: the native surface is freed
    and so is pixel data it owns; the wrapper is gone. *)
Theorem finalize_releases (o : oid) (ps : pysurface) (p : positive) (s : nsurface) (w : world) :
  live w o ps -> ps_handle ps = HSurf p -> nsurf w p = Some s -> ns_refcount s = 1%nat ->
  let '(r, w') := surface_finalize o w in
  r = Ok tt /\ w_objs w' = delete o (w_objs w) /\ nsurf w' p = None /\
  (forall img d, ns_finished s = false -> ns_image s = Some img ->
     img_owns_data img = true -> img_data img = Some d ->
     n_mem (w_native w') !! p_block d = None).
Proof.
  intros Hl Hh Hp Hr. unfold surface_finalize, cairo_surface_destroy, nsurf.
  world_simp. try rewrite Hh. simpl. world_simp.
  destruct (ns_finished s) eqn:Hf; simpl.
  - split_and!; [done|done|by rewrite lookup_delete_eq|done].
  - unfold surface_finish_internal.
    destruct (ns_image s) as [img|] eqn:Hi; simpl.
    + destruct (img_owns_data img) eqn:Ho; simpl;
      [destruct (img_data img) as [d|] eqn:Hd; simpl|].
      all: unfold put_surface, mem_free; world_simp.
      all: split_and!; [done|done|by rewrite lookup_delete_eq|].
      all: intros img' d' _ [= <-] Ho' Hd'; try congruence.
      rewrite Hd in Hd'. injection Hd' as <-. by rewrite lookup_delete_eq.
    + unfold put_surface. world_simp.
      split_and!; [done|done|by rewrite lookup_delete_eq|]. by intros ????? [=].
Qed.

(** C22: on a healthy surface, [set_device_offset(x, y)] followed by
    [get_device_offset()] gives back [(x, y)]. *)
Theorem device_offset_roundtrip (o : oid) (ps : pysurface) (p : positive) (s : nsurface)
  (x y : Q) (w : world) :
  live w o ps -> ps_handle ps = HSurf p -> nsurf w p = Some s ->
  ns_status s = SUCCESS -> ns_finished s = false ->
  exists w', Surface_set_device_offset o x y w = (Ok tt, w') /\
             Surface_get_device_offset o w' = (Ok (x, y), w').
Proof.
  intros Hl Hh Hp Hst Hf. eexists. split.
  - unfold Surface_set_device_offset, cairo_surface_set_device_offset, when_live.
    world_simp. try rewrite Hh. simpl. world_simp. reflexivity.
  - unfold Surface_get_device_offset, cairo_surface_get_device_offset, self_of.
    unfold live in Hl. world_simp. rewrite Hh. simpl. rewrite lookup_insert_eq. reflexivity.
Qed.

(** ** Witnesses *)

(** A world with one A8 image surface 4x2 (handle 5%positive, owning block 1)
    wrapped by object 100%positive of class [cls]. *)
Definition demo_surface : nsurface := new_image FORMAT_A8 4%Z 2%Z 4%Z (mkPtr 1%positive 0%Z) true.

Definition demo_world (cls : pyclass) : world :=
  mkW (mkN {[5%positive := demo_surface]} {[1%positive := replicate 8 x00]} 10%positive)
      {[100%positive := mkPS cls (HSurf 5%positive) None]} 101%positive.

Lemma Surface_new_error_witness :
  NO_MEMORY <> SUCCESS /\
  Surface_new (HNil NO_MEMORY) (demo_world CSurface) =
    (Err (CairoError (status_code NO_MEMORY)),
     mkW (w_native (demo_world CSurface)) (w_objs (demo_world CSurface)) 102%positive).
Proof. split; [discriminate|]. apply Surface_new_error. discriminate. Defined.

Lemma from_handle_dispatch_witness :
  nsurf (demo_world CSurface) 5%positive = Some demo_surface /\ ns_status demo_surface = SUCCESS /\
  Surface__from_handle (HSurf 5%positive) (demo_world CSurface) =
    (Ok 101%positive,
     mkW (w_native (demo_world CSurface))
         (<[101%positive := mkPS CImageSurface (HSurf 5%positive) None]> (w_objs (demo_world CSurface)))
         102%positive).
Proof.
  split; [reflexivity|]. split; [reflexivity|].
  apply (from_handle_dispatch 5%positive demo_surface); reflexivity.
Defined.

Lemma create_similar_image_content_witness :
  live (demo_world CSurface) 100%positive (mkPS CSurface (HSurf 5%positive) None) /\
  nsurf (demo_world CSurface) 5%positive = Some demo_surface /\
  content_valid CONTENT_COLOR = true /\
  fst (Surface_create_similar_image 100%positive CONTENT_COLOR 3 3 (demo_world CSurface)) =
    Err (CairoError (status_code INVALID_FORMAT)).
Proof.
  split; [reflexivity|]. split; [reflexivity|]. split; [reflexivity|].
  apply (create_similar_image_content 100%positive (mkPS CSurface (HSurf 5%positive) None) 5%positive demo_surface);
    try reflexivity; unfold INT32_MAX; lia.
Defined.

Lemma finalize_releases_witness :
  live (demo_world CImageSurface) 100%positive (mkPS CImageSurface (HSurf 5%positive) None) /\
  nsurf (demo_world CImageSurface) 5%positive = Some demo_surface /\ ns_refcount demo_surface = 1%nat /\
  let '(r, w') := surface_finalize 100%positive (demo_world CImageSurface) in
  r = Ok tt /\ w_objs w' = delete 100%positive (w_objs (demo_world CImageSurface)) /\
  nsurf w' 5%positive = None /\
  (forall img d, ns_finished demo_surface = false -> ns_image demo_surface = Some img ->
     img_owns_data img = true -> img_data img = Some d ->
     n_mem (w_native w') !! p_block d = None).
Proof.
  split; [reflexivity|]. split; [reflexivity|]. split; [reflexivity|].
  exact (finalize_releases 100%positive (mkPS CImageSurface (HSurf 5%positive) None) 5%positive demo_surface (demo_world CImageSurface)
           eq_refl eq_refl eq_refl eq_refl).
Defined.

Lemma device_offset_roundtrip_witness :
  live (demo_world CSurface) 100%positive (mkPS CSurface (HSurf 5%positive) None) /\
  nsurf (demo_world CSurface) 5%positive = Some demo_surface /\
  exists w', Surface_set_device_offset 100%positive (1 # 2) 3 (demo_world CSurface) = (Ok tt, w') /\
             Surface_get_device_offset 100%positive w' = (Ok ((1 # 2), 3%Q), w').
Proof.
  split; [reflexivity|]. split; [reflexivity|].
  apply (device_offset_roundtrip 100%positive (mkPS CSurface (HSurf 5%positive) None) 5%positive demo_surface); reflexivity.
Defined.
