(* ===== verification/ImageSurface.v ===== *)
(** * ImageSurface: image surfaces over native or caller-supplied pixels

    [ImageSurface] (src/cairocffi/surfaces.py, lines 159-212), except
    [create_from_png], which is in Png.v with the PNG codec.

    A Python [bytearray] is a memory block of the native state: [data]
    below is the block, [len(data)] its length.  [ffi.buffer(p, size)]
    is a view [mkView p size]: creating it reads nothing, reading or
    writing through it goes to the memory it points into (no copy). *)

From S2P Require Import Prelude CTypes Native CFFI Surface.

Local Open Scope py_scope.

(** ** Buffers and views *)

(** [len(data)] of a live Python buffer. *)
Definition py_len (d : block) : PyM world exn Z :=
  fun w => match n_mem (w_native w) !! d with
           | Some bytes => (Ok (Z.of_nat (length bytes)), w)
           | None => (Err NativeFault, w)
           end.

(** [bytes(data)]: the current content of a Python buffer. *)
Definition py_bytes (d : block) : PyM world exn (list byte) :=
  fun w => match n_mem (w_native w) !! d with
           | Some bytes => (Ok bytes, w)
           | None => (Err NativeFault, w)
           end.

(** The object [ffi.buffer] returns. *)
Record view := mkView { v_ptr : option ptr; v_size : Z }.

(** [view[off:off+len(src)] = src]: an assignment inside the view goes
    to the memory under it; C memory outside its block is undefined
    behaviour. *)
Definition view_write (v : view) (off : Z) (src : list byte) : PyM world exn unit :=
  if (0 <=? off)%Z && (off + Z.of_nat (length src) <=? v_size v)%Z then
    match v_ptr v with
    | None => raise NativeFault
    | Some p =>
        fun w =>
          let n := w_native w in
          match n_mem n !! p_block p with
          | Some bytes =>
              let start := (p_off p + off)%Z in
              if (0 <=? start)%Z && (start + Z.of_nat (length src) <=? Z.of_nat (length bytes))%Z
              then (Ok tt, mkW (mkN (n_surfaces n)
                                    (<[p_block p := store bytes (Z.to_nat start) src]> (n_mem n))
                                    (n_next n)) (w_objs w) (w_next w))
              else (Err NativeFault, w)
          | None => (Err NativeFault, w)
          end
    end
  else raise (ValueError SliceLengthMismatch).

(** ** The class *)

(** [ImageSurface.format_stride_for_width(format, width)] *)
Definition ImageSurface_format_stride_for_width (fmt width : Z) : PyM world exn Z :=
  f <- to_c_int fmt ;; w <- to_c_int width ;; ret (format_stride_for_width f w).

(** [ImageSurface.__init__(self, format, width, height, data, stride)] *)
Definition ImageSurface___init__ (o : oid) (fmt width height : Z)
  (data : option block) (stride : option Z) : PyM world exn unit :=
  match data with
  | None =>
      f <- to_c_int fmt ;; w <- to_c_int width ;; h <- to_c_int height ;;
      hd <- native (cairo_image_surface_create f w h) ;;
      surface___init__ o CImageSurface None hd
  | Some d =>
      s <- match stride with
           | Some s => ret s
           | None => ImageSurface_format_stride_for_width fmt width
           end ;;
      n <- py_len d ;;
      if (n <? s * height)%Z then raise (ValueError (BufferTooSmall n (s * height)))
      else
        p <- native (from_buffer d) ;;
        f <- to_c_int fmt ;; w <- to_c_int width ;; h <- to_c_int height ;;
        s' <- to_c_int s ;;
        hd <- native (cairo_image_surface_create_for_data p f w h s') ;;
        surface___init__ o CImageSurface (Some d) hd
  end.

(** [ImageSurface(format, width, height, data=None, stride=None)] *)
Definition ImageSurface_new (fmt width height : Z) (data : option block) (stride : option Z)
  : PyM world exn oid :=
  o <- new_object ;; ImageSurface___init__ o fmt width height data stride ;; ret o.

(** [ImageSurface.create_for_data(data, format, width, height, stride)] *)
Definition ImageSurface_create_for_data (data : block) (fmt width height : Z)
  (stride : option Z) : PyM world exn oid :=
  ImageSurface_new fmt width height (Some data) stride.

Definition ImageSurface_get_format (o : oid) : PyM world exn Z :=
  ps <- image_self o ;; native (cairo_image_surface_get_format (ps_handle ps)).

Definition ImageSurface_get_width (o : oid) : PyM world exn Z :=
  ps <- image_self o ;; native (cairo_image_surface_get_width (ps_handle ps)).

Definition ImageSurface_get_height (o : oid) : PyM world exn Z :=
  ps <- image_self o ;; native (cairo_image_surface_get_height (ps_handle ps)).

Definition ImageSurface_get_stride (o : oid) : PyM world exn Z :=
  ps <- image_self o ;; native (cairo_image_surface_get_stride (ps_handle ps)).

(** [get_data]: a view of [stride * height] bytes at the pixel data. *)
Definition ImageSurface_get_data (o : oid) : PyM world exn view :=
  ps <- image_self o ;;
  p <- native (cairo_image_surface_get_data (ps_handle ps)) ;;
  s <- ImageSurface_get_stride o ;;
  h <- ImageSurface_get_height o ;;
  ret (mkView p (s * h)).

(** ** Lemmas *)

Definition stride_arg (fmt width : Z) (stride : option Z) : Z :=
  match stride with Some s => s | None => format_stride_for_width fmt width end.

(** What a successful [create_for_data] did: every check passed, one
    native surface over the caller's buffer was allocated, and one
    wrapper holding the buffer in [_data] was registered. *)
Lemma create_for_data_success (d : block) (fmt width height : Z) (stride : option Z)
  (w : world) (o : oid) (w' : world) :
  ImageSurface_create_for_data d fmt width height stride w = (Ok o, w') ->
  let s := stride_arg fmt width stride in
  let p := n_next (w_native w) in
  exists bytes,
    n_mem (w_native w) !! d = Some bytes /\ bytes <> [] /\
    (s * height <= Z.of_nat (length bytes))%Z /\
    format_valid fmt = true /\ size_valid width height = true /\
    Z.land s 3 = 0%Z /\
    (if (s <? 0)%Z then (s <= - format_stride_for_width fmt width)%Z
     else (format_stride_for_width fmt width <= s)%Z) /\
    o = w_next w /\
    w' = mkW (mkN (<[p := new_image fmt width height s (mkPtr d 0) false]>
                     (n_surfaces (w_native w)))
                  (n_mem (w_native w)) (Pos.succ p))
             (<[o := mkPS CImageSurface (HSurf p) (Some d)]> (w_objs w))
             (Pos.succ (w_next w)).
Proof.
  unfold ImageSurface_create_for_data, ImageSurface_new, ImageSurface___init__,
    ImageSurface_format_stride_for_width, new_object, py_len, from_buffer,
    cairo_image_surface_create_for_data, surface___init__, cairo_surface_status,
    alloc_surface, fresh_id, put_surface, put_object, to_c_int, stride_arg.
  world_simp. intros H.
  repeat (first [case_match | progress (unfold ret, raise, surface_of, nil_surface,
                                        create_in_error in *)];
          simplify_eq/=; try discriminate).
  all: repeat match goal with
    | H : negb _ = false |- _ => apply negb_false_iff in H
    | H : (_ <? _)%Z = false |- _ => apply Z.ltb_ge in H
    | H : (_ <? _)%Z = true |- _ => apply Z.ltb_lt in H
    | H : (_ =? _)%Z = true |- _ => apply Z.eqb_eq in H
    end.
  all: eexists; split_and!; try eassumption; try done; simpl; lia.
Qed.

Lemma width_below_stride_bound (fmt width : Z) :
  size_valid width 0 = true -> (0 <= width < (INT32_MAX - 7) / format_bpp fmt)%Z.
Proof.
  intros Hs. unfold size_valid, MAX_IMAGE_SIZE in Hs.
  rewrite !andb_true_iff, !Z.leb_le in Hs.
  pose proof (format_bpp_range fmt) as Hb.
  assert ((INT32_MAX - 7) / 32 <= (INT32_MAX - 7) / format_bpp fmt)%Z
    by (apply Z.div_le_compat_l; unfold INT32_MAX; lia).
  assert ((INT32_MAX - 7) / 32 = 67108863)%Z by reflexivity. lia.
Qed.

Lemma size_valid_w (w h : Z) : size_valid w h = true -> size_valid w 0 = true.
Proof. unfold size_valid. rewrite !andb_true_iff. intros (([? ?] & ?) & ?). done. Qed.

(** The rows of an image over [bytes] from offset 0 with a stride at
    least the minimum stride, and [stride * height] bytes available. *)
Lemma image_rows_in_block (m : gmap block (list byte)) (d : block) (bytes : list byte)
  (fmt width height s : Z) (owns : bool) :
  m !! d = Some bytes -> format_valid fmt = true -> size_valid width height = true ->
  (format_stride_for_width fmt width <= s)%Z -> (s * height <= Z.of_nat (length bytes))%Z ->
  image_in_bounds m (mkImage fmt width height s (Some (mkPtr d 0)) owns) = true.
Proof.
  intros Hm Hf Hs Hmin Hlen.
  destruct (stride_bounds fmt width Hf
              (width_below_stride_bound fmt width (size_valid_w _ _ Hs))) as ([Hr _] & _ & [H0 _]).
  unfold image_in_bounds. apply forallb_forall. intros y Hy%in_seq.
  unfold row_in_block. simpl. rewrite Hm. apply andb_true_intro. rewrite !Z.leb_le.
  set (r := row_bytes fmt width) in *. set (f := format_stride_for_width fmt width) in *.
  assert (0 <= r)%Z by (subst r; unfold row_bytes; pose proof (format_bpp_range fmt);
    unfold size_valid in Hs; rewrite !andb_true_iff, !Z.leb_le in Hs; apply Z.div_pos; lia).
  simpl in Hy. assert (0 <= Z.of_nat y < height)%Z by lia.
  split; nia.
Qed.

(** C1: with a stride that is not negative (given, or computed by
    [format_stride_for_width]), a successful [create_for_data] yields a
    wrapper over the caller's buffer whose every row lies inside that
    buffer: cairo never touches memory outside it. *)
Theorem create_for_data_in_bounds (d : block) (fmt width height : Z) (stride : option Z)
  (w : world) (o : oid) (w' : world) :
  ImageSurface_create_for_data d fmt width height stride w = (Ok o, w') ->
  (forall s, stride = Some s -> (0 <= s)%Z) ->
  exists p img,
    w_objs w' !! o = Some (mkPS CImageSurface (HSurf p) (Some d)) /\
    image_of w' p = Some img /\
    image_in_bounds (n_mem (w_native w')) img = true.
Proof.
  intros Hc Hnn. apply create_for_data_success in Hc.
  destruct Hc as (bytes & Hm & Hne & Hlen & Hf & Hs & Hland & Hcmp & -> & ->).
  exists (n_next (w_native w)), (mkImage fmt width height (stride_arg fmt width stride)
                                         (Some (mkPtr d 0)) false).
  unfold image_of, nsurf. simpl. rewrite !lookup_insert_eq. split_and!; [done|done|].
  apply (image_rows_in_block _ _ bytes); try done.
  destruct (Z.ltb_spec (stride_arg fmt width stride) 0) as [Hneg|]; [|done].
  exfalso. destruct stride as [s|]; simpl in *.
  - specialize (Hnn s eq_refl). lia.
  - destruct (stride_bounds fmt width Hf
                (width_below_stride_bound fmt width (size_valid_w _ _ Hs))) as (_ & _ & [? _]).
    lia.
Qed.

(** C2: the size check [len(data) < stride * height] lets a negative
    stride through, and cairo accepts it: over a 4-byte buffer, an A8
    image 4 pixels wide and 2 high with stride -4 is created, and its
    second row lies before the start of the buffer. *)
Theorem negative_stride_out_of_bounds :
  let w := mkW (mkN ∅ {[1%positive := replicate 4 x00]} 2) ∅ 100 in
  exists o w' p img,
    ImageSurface_create_for_data 1%positive FORMAT_A8 4%Z 2%Z (Some (-4)%Z) w = (Ok o, w') /\
    w_objs w' !! o = Some (mkPS CImageSurface (HSurf p) (Some 1%positive)) /\
    image_of w' p = Some img /\
    image_in_bounds (n_mem (w_native w')) img = false /\
    row_in_block (n_mem (w_native w')) img 1%Z = false.
Proof. do 4 eexists. split; [reflexivity|]. vm_compute. split_and!; reflexivity. Qed.

(** C4: zero copy: the view [get_data()] returns on an image created
    over a caller's buffer is that buffer; bytes written through the
    view, anywhere in its [stride * height] bytes, are then in the
    caller's buffer at the same offset. *)
Theorem create_for_data_zero_copy (d : block) (fmt width height : Z) (stride : option Z)
  (w : world) (o : oid) (w1 : world) (off : Z) (src : list byte) :
  ImageSurface_create_for_data d fmt width height stride w = (Ok o, w1) ->
  (0 <= off)%Z -> (off + Z.of_nat (length src) <= stride_arg fmt width stride * height)%Z ->
  exists w2 bytes,
    ImageSurface_get_data o w1 =
      (Ok (mkView (Some (mkPtr d 0)) (stride_arg fmt width stride * height)), w1) /\
    view_write (mkView (Some (mkPtr d 0)) (stride_arg fmt width stride * height)) off src w1
      = (Ok tt, w2) /\
    py_bytes d w2 = (Ok bytes, w2) /\ load bytes (Z.to_nat off) (length src) = src.
Proof.
  intros Hc Hoff Hin. apply create_for_data_success in Hc.
  destruct Hc as (bytes & Hm & Hne & Hlen & Hf & Hs & Hland & Hcmp & -> & ->).
  set (s := stride_arg fmt width stride) in *.
  do 2 eexists. split_and!.
  - unfold ImageSurface_get_data, ImageSurface_get_stride, ImageSurface_get_height,
      image_self, self_of, cairo_image_surface_get_data, cairo_image_surface_get_stride,
      cairo_image_surface_get_height, image_query.
    world_simp. insert_simp. reflexivity.
  - unfold view_write. case_cmp; simpl in *; try lia. rewrite Hm.
    case_cmp; simpl in *; try lia. reflexivity.
  - unfold py_bytes. simpl. rewrite lookup_insert_eq. reflexivity.
  - apply load_store_same. lia.
Qed.

(** C3: a buffer shorter than [stride * height] is refused with a
    [ValueError] naming both sizes, before any native call: the native
    state is unchanged and no wrapper is registered. *)
Theorem create_for_data_too_small (d : block) (bytes : list byte) (fmt width height : Z)
  (stride : option Z) (w : world) :
  n_mem (w_native w) !! d = Some bytes -> in_int32 fmt = true -> in_int32 width = true ->
  (Z.of_nat (length bytes) < stride_arg fmt width stride * height)%Z ->
  ImageSurface_create_for_data d fmt width height stride w =
    (Err (ValueError (BufferTooSmall (Z.of_nat (length bytes))
                                     (stride_arg fmt width stride * height))),
     mkW (w_native w) (w_objs w) (Pos.succ (w_next w))).
Proof.
  intros Hm Hf Hw Hlt.
  unfold ImageSurface_create_for_data, ImageSurface_new, ImageSurface___init__,
    ImageSurface_format_stride_for_width, new_object, py_len, to_c_int, stride_arg in *.
  world_simp. try rewrite Hm. simpl.
  destruct stride as [s|]; simpl; rewrite Hm; simpl; case_cmp; first [reflexivity | lia].
Qed.

(** C5: [ImageSurface(format, width, height)] with a valid format and
    size creates an image surface whose [get_format], [get_width] and
    [get_height] return exactly the arguments. *)
Theorem image_surface_create_queries (fmt width height : Z) (w : world) :
  format_valid fmt = true -> size_valid width height = true ->
  exists o w',
    ImageSurface_new fmt width height None None w = (Ok o, w') /\
    fst (ImageSurface_get_format o w') = Ok fmt /\
    fst (ImageSurface_get_width o w') = Ok width /\
    fst (ImageSurface_get_height o w') = Ok height.
Proof.
  intros Hf Hs.
  assert (in_int32 fmt = true /\ in_int32 width = true /\ in_int32 height = true)
    as (Hf32 & Hw32 & Hh32).
  { unfold format_valid, FORMAT_RGB30 in Hf. unfold size_valid, MAX_IMAGE_SIZE in Hs.
    rewrite !andb_true_iff, !Z.leb_le in Hf, Hs.
    rewrite !in_int32_spec. unfold INT32_MIN, INT32_MAX. lia. }
  unfold ImageSurface_new, ImageSurface___init__, new_object, to_c_int,
    cairo_image_surface_create, image_create_pixman, surface___init__, cairo_surface_status,
    alloc_surface, mem_alloc, fresh_id, put_surface, put_object,
    ImageSurface_get_format, ImageSurface_get_width, ImageSurface_get_height, image_self,
    self_of, cairo_image_surface_get_format, cairo_image_surface_get_width,
    cairo_image_surface_get_height, image_query.
  world_simp. rewrite ?Hf, ?Hs. world_simp. insert_simp.
  do 2 eexists. split; [reflexivity|]. insert_simp. split_and!; reflexivity.
Qed.

(** The static method is cffi's conversion of both arguments followed
    by cairo's function. *)
Lemma format_stride_py_eq (fmt w : Z) (wd : world) :
  ImageSurface_format_stride_for_width fmt w wd =
    (if in_int32 fmt && in_int32 w then Ok (format_stride_for_width fmt w)
     else Err OverflowError, wd).
Proof.
  unfold ImageSurface_format_stride_for_width, bind, ret. rewrite !to_c_int_ok.
  by destruct (in_int32 fmt), (in_int32 w).
Qed.

Lemma format_valid_int32 (fmt : Z) : format_valid fmt = true -> in_int32 fmt = true.
Proof.
  unfold format_valid, FORMAT_RGB30. rewrite andb_true_iff, !Z.leb_le, in_int32_spec.
  unfold INT32_MIN, INT32_MAX. lia.
Qed.

(** C25: [ImageSurface.format_stride_for_width(format, width)]: for a
    valid format and a width below cairo's limit, the least multiple of
    4 that holds a row of pixels, a C [int]; -1 for an invalid format or
    a negative width (through cairo's unsigned cast); [OverflowError]
    from cffi for an argument outside int32.  Nothing changes state. *)
Theorem format_stride_for_width_py (fmt w : Z) (wd : world) :
  (format_valid fmt = true -> (0 <= w < (INT32_MAX - 7) / format_bpp fmt)%Z ->
   exists s, ImageSurface_format_stride_for_width fmt w wd = (Ok s, wd) /\
     (row_bytes fmt w <= s < row_bytes fmt w + 4)%Z /\ (s mod 4 = 0)%Z /\
     (0 <= s <= INT32_MAX)%Z) /\
  (in_int32 fmt = true -> in_int32 w = true -> (format_valid fmt = false \/ (w < 0)%Z) ->
   ImageSurface_format_stride_for_width fmt w wd = (Ok (-1)%Z, wd)) /\
  (in_int32 fmt = false \/ in_int32 w = false ->
   ImageSurface_format_stride_for_width fmt w wd = (Err OverflowError, wd)).
Proof.
  rewrite !format_stride_py_eq. split_and!.
  - intros Hv Hw. rewrite format_valid_int32 by done.
    assert (in_int32 w = true) as ->.
    { apply in_int32_spec. pose proof (format_bpp_range fmt).
      assert ((INT32_MAX - 7) / format_bpp fmt <= INT32_MAX - 7)%Z
        by (apply Z.div_le_upper_bound; unfold INT32_MAX; nia).
      unfold INT32_MIN, INT32_MAX in *. lia. }
    eexists. split; [reflexivity|]. by apply stride_bounds.
  - intros -> Hw Hc. rewrite Hw. simpl. rewrite stride_error; [done|].
    apply in_int32_spec in Hw. destruct Hc; [by left | right; lia].
  - by intros [-> | ->]; [|rewrite andb_false_r].
Qed.

(** C26: an image surface created by [ImageSurface(format, width,
    height)] reports as its stride what [format_stride_for_width(format,
    width)] computes: the rows pixman allocates are laid out as cairo's
    stride function says. *)
Theorem image_surface_stride (fmt width height : Z) (w : world) :
  format_valid fmt = true -> size_valid width height = true ->
  exists o w' s,
    ImageSurface_new fmt width height None None w = (Ok o, w') /\
    ImageSurface_format_stride_for_width fmt width w' = (Ok s, w') /\
    ImageSurface_get_stride o w' = (Ok s, w').
Proof.
  intros Hf Hs.
  pose proof (width_below_stride_bound fmt width (size_valid_w _ _ Hs)) as Hwb.
  assert (in_int32 fmt = true /\ in_int32 width = true /\ in_int32 height = true)
    as (Hf32 & Hw32 & Hh32).
  { unfold format_valid, FORMAT_RGB30 in Hf. unfold size_valid, MAX_IMAGE_SIZE in Hs.
    rewrite !andb_true_iff, !Z.leb_le in Hf, Hs.
    rewrite !in_int32_spec. unfold INT32_MIN, INT32_MAX. lia. }
  unfold ImageSurface_new, ImageSurface___init__, new_object, to_c_int,
    cairo_image_surface_create, image_create_pixman, surface___init__, cairo_surface_status,
    alloc_surface, mem_alloc, fresh_id, put_surface, put_object,
    ImageSurface_get_stride, image_self, self_of, cairo_image_surface_get_stride, image_query.
  world_simp. rewrite ?Hf, ?Hs. world_simp. insert_simp.
  do 3 eexists. split; [reflexivity|].
  rewrite format_stride_py_eq, Hf32, Hw32. split; [reflexivity|]. insert_simp.
  pose proof (format_bpp_range fmt).
  rewrite format_stride_valid, stride_for_width_bpp_pixman by (done || nia). reflexivity.
Qed.

(** ** Witnesses *)

(** A world holding one 8-byte [bytearray] (block 1). *)
Definition buffer_world (n : nat) : world :=
  mkW (mkN ∅ {[1%positive := replicate n x00]} 2) ∅ 100%positive.

Lemma create_for_data_in_bounds_witness :
  ImageSurface_create_for_data 1%positive FORMAT_A8 4%Z 2%Z None (buffer_world 8) =
    (Ok 100%positive, snd (ImageSurface_create_for_data 1%positive FORMAT_A8 4%Z 2%Z None (buffer_world 8))) /\
  exists p img,
    w_objs (snd (ImageSurface_create_for_data 1%positive FORMAT_A8 4%Z 2%Z None (buffer_world 8)))
      !! 100%positive = Some (mkPS CImageSurface (HSurf p) (Some 1%positive)) /\
    image_of (snd (ImageSurface_create_for_data 1%positive FORMAT_A8 4%Z 2%Z None (buffer_world 8))) p
      = Some img /\
    image_in_bounds (n_mem (w_native (snd (ImageSurface_create_for_data 1%positive FORMAT_A8 4%Z 2%Z
                                            None (buffer_world 8))))) img = true.
Proof.
  split; [reflexivity|].
  apply (create_for_data_in_bounds 1%positive FORMAT_A8 4%Z 2%Z None (buffer_world 8) 100%positive); [reflexivity|].
  intros s Hs. discriminate.
Defined.

Lemma create_for_data_too_small_witness :
  (Z.of_nat (length (replicate 4 x00)) < stride_arg FORMAT_A8 4 None * 2)%Z /\
  ImageSurface_create_for_data 1%positive FORMAT_A8 4%Z 2%Z None (buffer_world 4) =
    (Err (ValueError (BufferTooSmall 4 8)),
     mkW (w_native (buffer_world 4)) (w_objs (buffer_world 4)) 101%positive).
Proof.
  split; [reflexivity|].
  apply (create_for_data_too_small 1%positive (replicate 4 x00)); reflexivity.
Defined.

Lemma create_for_data_zero_copy_witness :
  (0 <= 0)%Z /\ (0 + Z.of_nat (length [x01; x02]) <= stride_arg FORMAT_A8 4 None * 2)%Z /\
  exists w2 bytes,
    ImageSurface_get_data 100%positive (snd (ImageSurface_create_for_data 1%positive FORMAT_A8 4%Z 2%Z None (buffer_world 8))) =
      (Ok (mkView (Some (mkPtr 1%positive 0%Z)) (stride_arg FORMAT_A8 4 None * 2)),
       snd (ImageSurface_create_for_data 1%positive FORMAT_A8 4%Z 2%Z None (buffer_world 8))) /\
    view_write (mkView (Some (mkPtr 1%positive 0%Z)) (stride_arg FORMAT_A8 4 None * 2)) 0 [x01; x02]
      (snd (ImageSurface_create_for_data 1%positive FORMAT_A8 4%Z 2%Z None (buffer_world 8))) = (Ok tt, w2) /\
    py_bytes 1%positive w2 = (Ok bytes, w2) /\ load bytes (Z.to_nat 0) (length [x01; x02]) = [x01; x02].
Proof.
  split; [lia|]. split; [vm_compute; discriminate|].
  apply (create_for_data_zero_copy 1%positive FORMAT_A8 4%Z 2%Z None (buffer_world 8) 100%positive); [reflexivity | lia | vm_compute; discriminate].
Defined.

Lemma image_surface_create_queries_witness :
  format_valid FORMAT_ARGB32 = true /\ size_valid 3 2 = true /\
  exists o w',
    ImageSurface_new FORMAT_ARGB32 3 2 None None (buffer_world 0) = (Ok o, w') /\
    fst (ImageSurface_get_format o w') = Ok FORMAT_ARGB32 /\
    fst (ImageSurface_get_width o w') = Ok 3%Z /\
    fst (ImageSurface_get_height o w') = Ok 2%Z.
Proof.
  split; [reflexivity|]. split; [reflexivity|].
  apply image_surface_create_queries; reflexivity.
Defined.

Lemma format_stride_for_width_py_witness :
  (exists s, ImageSurface_format_stride_for_width FORMAT_A1 10%Z (buffer_world 0) =
               (Ok s, buffer_world 0) /\
     (row_bytes FORMAT_A1 10 <= s < row_bytes FORMAT_A1 10 + 4)%Z /\ (s mod 4 = 0)%Z /\
     (0 <= s <= INT32_MAX)%Z) /\
  ImageSurface_format_stride_for_width FORMAT_RGB24 (-1)%Z (buffer_world 0) =
    (Ok (-1)%Z, buffer_world 0) /\
  ImageSurface_format_stride_for_width FORMAT_A8 (2 ^ 31)%Z (buffer_world 0) =
    (Err OverflowError, buffer_world 0).
Proof.
  split; [|split].
  - apply (format_stride_for_width_py FORMAT_A1 10 (buffer_world 0));
      [reflexivity | split; vm_compute; congruence].
  - apply (format_stride_for_width_py FORMAT_RGB24 (-1) (buffer_world 0));
      [reflexivity | reflexivity | right; lia].
  - apply (format_stride_for_width_py FORMAT_A8 (2 ^ 31) (buffer_world 0)). right. reflexivity.
Defined.

Lemma image_surface_stride_witness :
  format_valid FORMAT_A1 = true /\ size_valid 10 2 = true /\
  exists o w' s,
    ImageSurface_new FORMAT_A1 10%Z 2%Z None None (buffer_world 0) = (Ok o, w') /\
    ImageSurface_format_stride_for_width FORMAT_A1 10%Z w' = (Ok s, w') /\
    ImageSurface_get_stride o w' = (Ok s, w').
Proof.
  split; [reflexivity|]. split; [reflexivity|].
  apply image_surface_stride; reflexivity.
Defined.
