(* ===== verification/Png.v ===== *)
(** * Png: [write_to_png] and [create_from_png]

    [Surface.write_to_png] (src/cairocffi/surfaces.py, lines 149-156)
    and [ImageSurface.create_from_png] (lines 183-195), with the part of
    cairo-png.c they call.

    The PNG codec itself (libpng) is not code of this repository.  It
    is the interface [PngCodec]: the chunks the encoder writes for an
    image ([png_encode]), the requests a pull decoder makes given what
    it has read so far ([png_next]), and the decoded image
    ([png_decode]).  [PngCodecLaws] is what cairo relies on: for an
    image the codec represents exactly ([png_lossless]), the decoder
    reads its own encoding to the end, in requests that stay inside it,
    and decodes the image back.

    The state of these calls ([pworld]) is the world of Surface.v, the
    Python file object the stream variants use, and the file system
    the path variants read and write (a map from file names to
    contents).  A pull decoder might request bytes forever from a file
    object that never ends: [fuel] bounds its number of requests, and
    the theorems show that the length of the stream plus one is
    enough. *)

From S2P Require Import Prelude CTypes Stream Native CFFI Surface ImageSurface.

Local Open Scope py_scope.

(** ** The codec *)

(** A decoded image: format, geometry and its rows, each of
    [row_bytes] bytes. *)
Record pixmap := mkPixmap {
  pm_format : Z; pm_width : Z; pm_height : Z; pm_rows : list (list byte)
}.

Class PngCodec := {
  png_encode : pixmap -> list (list byte);
  png_next : list byte -> option nat;
  png_decode : list byte -> option pixmap;
  png_lossless : pixmap -> bool
}.

(** The decoder follows [plan] from having read [got], with [rest] of
    the stream still unread: each request is inside the stream, and it
    stops exactly at its end. *)
Fixpoint png_follows `{PngCodec} (plan : list nat) (got rest : list byte) : Prop :=
  match plan with
  | [] => png_next got = None /\ rest = []
  | n :: plan' =>
      png_next got = Some n /\ 0 < n <= length rest /\
      png_follows plan' (got ++ take n rest) (drop n rest)
  end.

Class PngCodecLaws `{PngCodec} := {
  png_reads_own : forall pm, png_lossless pm = true ->
    exists plan, png_follows plan [] (concat (png_encode pm));
  png_decode_encode : forall pm, png_lossless pm = true ->
    png_decode (concat (png_encode pm)) = Some pm
}.

Section Png.
Context `{PngCodec} {F : Type} `{FileLike F}.

(** ** The state of the PNG calls *)

Definition fsys : Type := list byte -> option (list byte).

Record pworld := mkPW { pw_world : world; pw_file : F; pw_fs : fsys }.

(** A step of the world of Surface.v, the file and the files unchanged. *)
Definition on_world {A} (m : PyM world exn A) : PyM pworld exn A :=
  fun pw => let '(r, w') := m (pw_world pw) in (r, mkPW w' (pw_file pw) (pw_fs pw)).

(** The destination of [write_to_png] or the source of
    [create_from_png]: an object with a [write] (resp. [read]) method,
    the file object of the state, or a path. *)
Inductive png_target := TargetFile | TargetPath (p : pypath).

(** ** cairo-png.c: writing *)

(** The rows of an image, as the encoder reads them from memory. *)
Definition read_rows (img : image_info) : PyM nstate exn (list (list byte)) :=
  fun n =>
    match img_data img with
    | Some p =>
        match n_mem n !! p_block p with
        | Some bytes =>
            if image_in_bounds (n_mem n) img then
              (Ok (map (fun y => load bytes
                                   (Z.to_nat (p_off p + Z.of_nat y * img_stride img))
                                   (Z.to_nat (row_bytes (img_format img) (img_width img))))
                       (seq 0 (Z.to_nat (img_height img)))), n)
            else (Err NativeFault, n)
        | None => (Err NativeFault, n)
        end
    | None => (Err NativeFault, n)
    end.

(** The checks [cairo_surface_write_to_png(_stream)] starts with. *)
Definition png_write_guard (h : handle) : PyM nstate exn (option status) :=
  s <- surface_of h ;;
  match ns_status s with
  | SUCCESS => if ns_finished s then ret (Some SURFACE_FINISHED) else ret None
  | st => ret (Some st)
  end.

(** [write_png] up to the bytes: an image of zero width or height is
    refused with [WRITE_ERROR]. *)
Definition png_encode_surface (h : handle) : PyM nstate exn (status + list (list byte)) :=
  s <- surface_of h ;;
  match ns_image s with
  | None => ret (inl SURFACE_TYPE_MISMATCH)
  | Some img =>
      if (img_width img =? 0)%Z || (img_height img =? 0)%Z then ret (inl WRITE_ERROR)
      else rows <- read_rows img ;;
           ret (inr (png_encode (mkPixmap (img_format img) (img_width img)
                                          (img_height img) rows)))
  end.

(** [cairo_surface_write_to_png_stream(surface, write_func, NULL)] *)
Definition cairo_surface_write_to_png_stream (h : handle) : PyM pworld exn status :=
  g <- on_world (native (png_write_guard h)) ;;
  match g with
  | Some st => ret st
  | None =>
      r <- on_world (native (png_encode_surface h)) ;;
      match r with
      | inl st => ret st
      | inr chunks =>
          fun pw => let '(st, f') := write_chunks chunks (pw_file pw) in
                    (Ok st, mkPW (pw_world pw) f' (pw_fs pw))
      end
  end.

(** [cairo_surface_write_to_png(surface, filename)]: the file is opened
    (created or truncated) before the image is encoded into it. *)
Definition cairo_surface_write_to_png (h : handle) (filename : ptr) : PyM pworld exn status :=
  g <- on_world (native (png_write_guard h)) ;;
  match g with
  | Some st => ret st
  | None =>
      name <- on_world (native (c_string filename)) ;;
      r <- on_world (native (png_encode_surface h)) ;;
      fun pw =>
        let bytes := match r with
                     | inl _ => []
                     | inr chunks => bio_data (snd (write_chunks chunks (mkBytesIO [] 0)))
                     end in
        let fs' := fun k => if decide (k = name) then Some bytes else pw_fs pw k in
        (Ok (match r with inl st => st | inr _ => SUCCESS end),
         mkPW (pw_world pw) (pw_file pw) fs')
  end.

(** ** cairo-png.c: reading *)

(** The decoder pulls the stream through a read callback, one request
    at a time, until it has what it needs or a read fails. *)
Fixpoint png_pull {G} `{FileLike G} (fuel : nat) (got : list byte) (g : G)
  : status * list byte * G :=
  match fuel with
  | O => (READ_ERROR, got, g)
  | S fuel' =>
      match png_next got with
      | None => (SUCCESS, got, g)
      | Some n =>
          let '(st, (g', buf)) := read_func 0 n (g, replicate n x00) in
          match st with
          | SUCCESS => png_pull fuel' (got ++ buf) g'
          | _ => (st, got, g')
          end
      end
  end.

(** Each row padded to the stride. *)
Definition pixmap_bytes (stride : Z) (rows : list (list byte)) : list byte :=
  concat (map (fun r => r ++ replicate (Z.to_nat stride - length r) x00) rows).

(** [read_png] after decoding: an image surface owning a copy of the
    rows, at the stride [cairo_format_stride_for_width] gives. *)
Definition image_from_pixmap (pm : pixmap) : PyM nstate exn handle :=
  let fmt := pm_format pm in
  let w := pm_width pm in
  let h := pm_height pm in
  if negb (format_valid fmt) || negb (size_valid w h) then ret (create_in_error PNG_ERROR)
  else let stride := format_stride_for_width fmt w in
       b <- mem_alloc (pixmap_bytes stride (pm_rows pm)) ;;
       alloc_surface (new_image fmt w h stride (mkPtr b 0) true).

(** [read_png] on the bytes a pull returned. *)
Definition png_finish (st : status) (bytes : list byte) : PyM nstate exn handle :=
  match st with
  | SUCCESS =>
      match png_decode bytes with
      | Some pm => image_from_pixmap pm
      | None => ret (create_in_error PNG_ERROR)
      end
  | _ => ret (create_in_error st)
  end.

(** [cairo_image_surface_create_from_png_stream(read_func, NULL)] *)
Definition cairo_image_surface_create_from_png_stream (fuel : nat) : PyM pworld exn handle :=
  fun pw =>
    let '(st, bytes, f') := png_pull fuel [] (pw_file pw) in
    on_world (native (png_finish st bytes)) (mkPW (pw_world pw) f' (pw_fs pw)).

(** [cairo_image_surface_create_from_png(filename)]: a missing file is
    [FILE_NOT_FOUND]; an existing one is read as a stream. *)
Definition cairo_image_surface_create_from_png (fuel : nat) (filename : ptr)
  : PyM pworld exn handle :=
  name <- on_world (native (c_string filename)) ;;
  fun pw =>
    match pw_fs pw name with
    | None => (Ok (create_in_error FILE_NOT_FOUND), pw)
    | Some contents =>
        let '(st, bytes, _) := png_pull fuel [] (mkBytesIO contents 0) in
        on_world (native (png_finish st bytes)) pw
    end.

(** ** The Python methods *)

(** [Surface.write_to_png(target)] *)
Definition Surface_write_to_png (o : oid) (target : png_target) : PyM pworld exn unit :=
  ps <- on_world (self_of o) ;;
  match target with
  | TargetFile =>
      st <- cairo_surface_write_to_png_stream (ps_handle ps) ;; check_status st
  | TargetPath p =>
      name <- on_world (native (encode_filename p)) ;;
      st <- cairo_surface_write_to_png (ps_handle ps) name ;; check_status st
  end.

(** [ImageSurface.create_from_png(source)]: [Surface(handle)], then the
    class is forced to [ImageSurface]. *)
Definition ImageSurface_create_from_png (fuel : nat) (source : png_target)
  : PyM pworld exn oid :=
  h <- match source with
       | TargetFile => cairo_image_surface_create_from_png_stream fuel
       | TargetPath p =>
           name <- on_world (native (encode_filename p)) ;;
           cairo_image_surface_create_from_png fuel name
       end ;;
  o <- on_world (Surface_new h) ;;
  on_world (set_class o CImageSurface) ;;
  ret o.

(** ** Observations *)

(** The pixel rows of an image surface as [get_data()] exposes them:
    row [y] is [data[y * stride : y * stride + row_bytes]]. *)
Definition ImageSurface_rows (o : oid) : PyM world exn (list (list byte)) :=
  ps <- image_self o ;;
  s <- native (surface_of (ps_handle ps)) ;;
  match ns_image s with
  | Some img => native (read_rows img)
  | None => raise AttributeError
  end.

End Png.

Arguments pworld F : clear implicits.

(** ** Lemmas *)

Lemma map_seq_ext {A} (f : nat -> A) (l : list A) (start : nat) :
  (forall i x, l !! i = Some x -> f (start + i) = x) ->
  map f (seq start (length l)) = l.
Proof.
  revert start. induction l as [|x l IH]; intros start Hl; [done|]. simpl.
  f_equal; [by rewrite <- (Hl 0 x), Nat.add_0_r|].
  apply IH. intros i y Hy. rewrite <- (Hl (S i) y Hy). f_equal. lia.
Qed.

(** Row [y] of rows padded to a common stride [k]. *)
Lemma load_padded_rows (rows : list (list byte)) (k rb y : nat) (r : list byte) :
  Forall (fun r => length r = rb) rows -> rb <= k -> rows !! y = Some r ->
  load (concat (map (fun r => r ++ replicate (k - length r) x00) rows)) (y * k) rb = r.
Proof.
  revert y. induction rows as [|r0 rows IH]; intros y Hall Hk Hy; [done|].
  inversion Hall as [|? ? Hr0 Hrest]; subst. destruct y as [|y]; simpl in *.
  - injection Hy as <-. unfold load. rewrite drop_0, <- app_assoc, take_app_le by lia.
    rewrite take_ge by lia. done.
  - unfold load in *. rewrite drop_app_ge by (rewrite length_app, length_replicate; lia).
    rewrite length_app, length_replicate.
    replace (k + y * k - (length r0 + (k - length r0))) with (y * k) by lia.
    by apply IH.
Qed.

Lemma length_padded_rows (rows : list (list byte)) (k : nat) :
  Forall (fun r => length r <= k) rows ->
  length (concat (map (fun r => r ++ replicate (k - length r) x00) rows)) = length rows * k.
Proof.
  induction 1 as [|r rows Hr _ IH]; [done|]. simpl.
  rewrite length_app, IH, length_app, length_replicate. lia.
Qed.

(** What the encoder reads from an image in bounds: one row of
    [row_bytes] bytes for each line. *)
Lemma read_rows_ok (img : image_info) (n n' : nstate) (rows : list (list byte)) :
  read_rows img n = (Ok rows, n') ->
  n' = n /\ length rows = Z.to_nat (img_height img) /\
  Forall (fun r => length r = Z.to_nat (row_bytes (img_format img) (img_width img))) rows.
Proof.
  unfold read_rows. destruct (img_data img) as [p|] eqn:Hd; [|done].
  destruct (n_mem n !! p_block p) as [bytes|] eqn:Hm; [|done].
  destruct (image_in_bounds (n_mem n) img) eqn:Hb; [|done].
  intros [= <- <-]. split_and!; [done | by rewrite length_map, length_seq|].
  apply Forall_forall. intros r (y & <- & Hy%in_seq)%list_elem_of_In%in_map_iff.
  unfold image_in_bounds in Hb. rewrite forallb_forall in Hb.
  specialize (Hb y (proj2 (in_seq _ _ _) Hy)). unfold row_in_block in Hb.
  rewrite Hd, Hm, andb_true_iff, !Z.leb_le in Hb.
  unfold load. rewrite length_take, length_drop. lia.
Qed.

(** The rows of an image created from a pixmap read back as the
    pixmap's rows. *)
Lemma read_rows_pixmap (n : nstate) (b : block) (fmt w h : Z) (rows : list (list byte))
  (owns : bool) :
  n_mem n !! b = Some (pixmap_bytes (format_stride_for_width fmt w) rows) ->
  format_valid fmt = true -> size_valid w h = true ->
  length rows = Z.to_nat h -> Forall (fun r => length r = Z.to_nat (row_bytes fmt w)) rows ->
  read_rows (mkImage fmt w h (format_stride_for_width fmt w) (Some (mkPtr b 0)) owns) n
    = (Ok rows, n).
Proof.
  intros Hm Hf Hs Hlen Hrows.
  destruct (stride_bounds fmt w Hf (width_below_stride_bound fmt w (size_valid_w _ _ Hs)))
    as ([Hr _] & _ & [H0 _]).
  set (stride := format_stride_for_width fmt w) in *.
  assert (0 <= row_bytes fmt w)%Z as Hr0.
  { unfold row_bytes. pose proof (format_bpp_range fmt).
    unfold size_valid in Hs. rewrite !andb_true_iff, !Z.leb_le in Hs. apply Z.div_pos; lia. }
  assert (Forall (fun r => length r <= Z.to_nat stride) rows) as Hle.
  { eapply Forall_impl; [exact Hrows|]. simpl. intros r ->. lia. }
  assert (0 <= h)%Z by (unfold size_valid in Hs; rewrite !andb_true_iff, !Z.leb_le in Hs; lia).
  assert (image_in_bounds (n_mem n) (mkImage fmt w h stride (Some (mkPtr b 0)) owns) = true)
    as Hb.
  { apply (image_rows_in_block _ _ (pixmap_bytes stride rows)); [done|done|done|lia|].
    unfold pixmap_bytes. rewrite length_padded_rows by done. lia. }
  unfold read_rows. simpl. rewrite Hm, Hb.
  f_equal. f_equal. rewrite <- Hlen. apply map_seq_ext. intros y r Hy. simpl.
  replace (Z.to_nat (0 + Z.of_nat y * stride)) with (y * Z.to_nat stride) by lia.
  apply load_padded_rows; [done|lia|done].
Qed.

Section PngLemmas.
Context `{PngCodecLaws} {F : Type} `{FileLike F}.

Lemma png_follows_length plan got rest :
  png_follows plan got rest -> length plan <= length rest.
Proof.
  revert got rest. induction plan as [|n plan IH]; intros got rest; simpl; [lia|].
  intros (_ & Hn & Hf). apply IH in Hf. rewrite length_drop in Hf. lia.
Qed.

(** A decoder following its plan over a BytesIO reads the rest of the
    BytesIO to its end. *)
Lemma png_pull_bytesio plan got (d : list byte) (p fuel : nat) :
  png_follows plan got (drop p d) -> p <= length d -> length plan < fuel ->
  png_pull fuel got (mkBytesIO d p) = (SUCCESS, got ++ drop p d, mkBytesIO d (length d)).
Proof.
  revert got p fuel. induction plan as [|n plan IH]; intros got p fuel Hf Hp Hfuel;
    (destruct fuel as [|fuel]; [simpl in Hfuel; lia|]); simpl in Hf |- *.
  - destruct Hf as [-> Hd]. rewrite Hd, app_nil_r.
    assert (p = length d) as -> by (apply (f_equal length) in Hd; rewrite length_drop in Hd; simpl in Hd; lia).
    done.
  - destruct Hf as (-> & [Hn Hle] & Hf). rewrite length_drop in Hle.
    rewrite read_func_bytesio_enough by lia. rewrite drop_drop in Hf.
    rewrite (IH _ (p + n)) by (done || lia || simpl in Hfuel; lia).
    unfold load. by rewrite <- app_assoc, <- drop_drop, take_drop.
Qed.

(** A decoder following its plan over a BytesIO that holds only the
    first [k] bytes of the stream stops with [READ_ERROR] at the first
    request that crosses [k]. *)
Lemma png_pull_truncated plan got (d : list byte) (k p fuel : nat) :
  png_follows plan got (drop p d) -> p <= k -> k < length d -> length plan < fuel ->
  (png_pull fuel got (mkBytesIO (take k d) p)).1.1 = READ_ERROR.
Proof.
  revert got p fuel. induction plan as [|n plan IH]; intros got p fuel Hf Hp Hk Hfuel;
    (destruct fuel as [|fuel]; [simpl in Hfuel; lia|]); simpl in Hf |- *.
  - destruct Hf as [_ Hd]. apply (f_equal length) in Hd. rewrite length_drop in Hd.
    simpl in Hd. lia.
  - destruct Hf as (-> & [Hn Hle] & Hf). rewrite length_drop in Hle.
    destruct (Nat.le_gt_cases (p + n) k) as [Hin|Hout].
    + rewrite read_func_bytesio_enough by (rewrite length_take; lia).
      assert (load (take k d) p n = take n (drop p d)) as ->.
      { unfold load. rewrite take_drop_commute, take_take, Nat.min_l by lia.
        by rewrite <- take_drop_commute. }
      rewrite drop_drop in Hf. apply (IH _ (p + n)); [done|lia|done|simpl in Hfuel; lia].
    + pose proof (read_func_bytesio_short (take k d) p n (replicate n x00)
                    ltac:(rewrite length_take; lia) ltac:(rewrite length_take; lia)) as Hs.
      destruct (read_func 0 n _) as [st [g' buf]]. simpl in Hs. subst st. done.
Qed.

End PngLemmas.

Section PngFuel.
Context `{PngCodec}.

(** libpng never asks the read callback for zero bytes. *)
Hypothesis png_next_pos : forall got n, png_next got = Some n -> 0 < n.

(** Over a BytesIO every request of the pull consumes a byte or ends
    it: any fuel above the bytes left gives the same result. *)
Lemma png_pull_fuel (f1 f2 : nat) (got d : list byte) (p : nat) :
  p <= length d -> length d - p < f1 -> length d - p < f2 ->
  png_pull f1 got (mkBytesIO d p) = png_pull f2 got (mkBytesIO d p).
Proof.
  revert f2 got p. induction f1 as [|f1 IH]; intros [|f2] got p Hp H1 H2; try lia. simpl.
  destruct (png_next got) as [n|] eqn:Hn; [|done]. pose proof (png_next_pos _ _ Hn).
  destruct (Nat.le_gt_cases (p + n) (length d)) as [Hin|Hout].
  - rewrite read_func_bytesio_enough by done. apply IH; lia.
  - pose proof (read_func_bytesio_short d p n (replicate n x00) Hp Hout) as Hs.
    destruct (read_func 0 n _) as [st [g' buf]]. simpl in Hs. by subst st.
Qed.

(** C33: [create_from_png(f)] over a BytesIO terminates: cairo's pull
    through the read callback of [_make_read_func] makes at most one
    request more than the bytes left in [f], so any larger bound on the
    number of requests gives the same surface, the same exception and
    the same state. *)
Theorem create_from_png_fuel_enough (f1 f2 : nat) (pw : pworld BytesIO) :
  bio_pos (pw_file pw) <= length (bio_data (pw_file pw)) ->
  length (bio_data (pw_file pw)) - bio_pos (pw_file pw) < f1 ->
  length (bio_data (pw_file pw)) - bio_pos (pw_file pw) < f2 ->
  ImageSurface_create_from_png f1 TargetFile pw = ImageSurface_create_from_png f2 TargetFile pw.
Proof.
  destruct pw as [w [d p] fs]. simpl. intros Hp H1 H2.
  unfold ImageSurface_create_from_png, cairo_image_surface_create_from_png_stream, bind. simpl.
  by rewrite (png_pull_fuel f1 f2 [] d p Hp H1 H2).
Qed.

End PngFuel.

Section PngCalls.
Context `{PngCodec} {F : Type} `{FileLike F}.

(** [write_to_png(f)] on a healthy image surface with rows in memory:
    the encoder's chunks go through the write callback, and the status
    they end with is checked; nothing but the file object changes. *)
Lemma write_to_png_stream_eq (o : oid) (ps : pysurface) (p : positive) (s : nsurface)
  (img : image_info) (rows : list (list byte)) (w : world) (f : F) (fs : fsys) :
  live w o ps -> ps_handle ps = HSurf p -> nsurf w p = Some s ->
  ns_status s = SUCCESS -> ns_finished s = false -> ns_image s = Some img ->
  img_width img <> 0%Z -> img_height img <> 0%Z ->
  read_rows img (w_native w) = (Ok rows, w_native w) ->
  let '(st, f') := write_chunks (png_encode (mkPixmap (img_format img) (img_width img)
                                                      (img_height img) rows)) f in
  Surface_write_to_png o TargetFile (mkPW w f fs) = check_status st (mkPW w f' fs).
Proof.
  intros Hl Hh Hp Hst Hf Hi Hw0 Hh0 Hr.
  destruct (write_chunks _ f) as [st f'] eqn:Hwc.
  destruct w as [n objs next]. unfold live, nsurf in *; simpl in *.
  unfold Surface_write_to_png, cairo_surface_write_to_png_stream, png_write_guard,
    png_encode_surface, self_of, on_world, native, bind, ret. simpl. rewrite Hl, Hh. simpl.
  rewrite Hp. simpl. rewrite Hst, Hf. simpl. rewrite Hp. simpl. rewrite Hi.
  destruct (Z.eqb_spec (img_width img) 0); [done|].
  destruct (Z.eqb_spec (img_height img) 0); [done|]. simpl. rewrite Hr. simpl.
  by rewrite Hwc.
Qed.

End PngCalls.

Section PngRead.
Context `{PngCodecLaws}.

(** The decoder reads its own encoding of a lossless image back from a
    BytesIO, with fuel one more than the bytes. *)
Lemma png_pull_own (pm : pixmap) (fuel : nat) :
  png_lossless pm = true -> length (concat (png_encode pm)) < fuel ->
  png_pull fuel [] (mkBytesIO (concat (png_encode pm)) 0) =
    (SUCCESS, concat (png_encode pm),
     mkBytesIO (concat (png_encode pm)) (length (concat (png_encode pm)))).
Proof.
  intros Hl Hfuel. destruct (png_reads_own pm Hl) as [plan Hplan].
  pose proof (png_follows_length _ _ _ Hplan) as Hlen.
  apply (png_pull_bytesio plan); [by rewrite drop_0 | lia | lia].
Qed.

(** [create_from_png(f)] over a BytesIO holding the encoding of a
    lossless image: one new image surface owning a copy of the rows,
    and one new wrapper of class [ImageSurface]; the BytesIO is read to
    its end. *)
Lemma create_from_png_bytesio (fuel : nat) (pm : pixmap) (w : world) (fs : fsys) :
  png_lossless pm = true ->
  format_valid (pm_format pm) = true -> size_valid (pm_width pm) (pm_height pm) = true ->
  length (concat (png_encode pm)) < fuel ->
  let d := concat (png_encode pm) in
  let n := w_native w in
  let stride := format_stride_for_width (pm_format pm) (pm_width pm) in
  ImageSurface_create_from_png fuel TargetFile (mkPW w (mkBytesIO d 0) fs) =
    (Ok (w_next w),
     mkPW (mkW (mkN (<[Pos.succ (n_next n) :=
                        new_image (pm_format pm) (pm_width pm) (pm_height pm) stride
                                  (mkPtr (n_next n) 0) true]> (n_surfaces n))
                    (<[n_next n := pixmap_bytes stride (pm_rows pm)]> (n_mem n))
                    (Pos.succ (Pos.succ (n_next n))))
               (<[w_next w := mkPS CImageSurface (HSurf (Pos.succ (n_next n))) None]> (w_objs w))
               (Pos.succ (w_next w)))
          (mkBytesIO d (length d)) fs).
Proof.
  intros Hl Hf Hs Hfuel. cbn zeta.
  unfold ImageSurface_create_from_png, cairo_image_surface_create_from_png_stream, bind at 1.
  simpl. rewrite (png_pull_own pm fuel Hl Hfuel).
  unfold on_world at 1, native at 1, png_finish. rewrite png_decode_encode by done.
  unfold image_from_pixmap. rewrite Hf, Hs. simpl.
  unfold Surface_new, surface___init__, set_class, new_object, put_object, self_of,
    cairo_surface_status, alloc_surface, fresh_id, put_surface, surface_of, on_world, native,
    bind, ret, modify_st, check_status.
  simpl. rewrite !lookup_insert_eq. simpl. rewrite lookup_insert_eq. simpl.
  by rewrite insert_insert_eq.
Qed.

(** C6: round trip through PNG (spec, section 8): an image surface
    written with [write_to_png] to a fresh BytesIO and read back from
    its start with [ImageSurface.create_from_png] gives a new
    [ImageSurface] with the same format, width and height, whose pixel
    rows are byte for byte the rows of the original, for every image
    the codec represents exactly. *)
Theorem png_roundtrip (o : oid) (ps : pysurface) (p : positive) (s : nsurface)
  (img : image_info) (rows : list (list byte)) (w : world) (fs : fsys) (fuel : nat) :
  live w o ps -> ps_handle ps = HSurf p -> nsurf w p = Some s ->
  ns_status s = SUCCESS -> ns_finished s = false -> ns_image s = Some img ->
  format_valid (img_format img) = true -> size_valid (img_width img) (img_height img) = true ->
  img_width img <> 0%Z -> img_height img <> 0%Z ->
  read_rows img (w_native w) = (Ok rows, w_native w) ->
  let pm := mkPixmap (img_format img) (img_width img) (img_height img) rows in
  png_lossless pm = true -> length (concat (png_encode pm)) < fuel ->
  exists pw1 o' pw2,
    Surface_write_to_png o TargetFile (mkPW w (mkBytesIO [] 0) fs) = (Ok tt, pw1) /\
    ImageSurface_create_from_png fuel TargetFile
      (mkPW (pw_world pw1) (mkBytesIO (bio_data (pw_file pw1)) 0) (pw_fs pw1)) = (Ok o', pw2) /\
    fst (ImageSurface_get_format o' (pw_world pw2)) = Ok (img_format img) /\
    fst (ImageSurface_get_width o' (pw_world pw2)) = Ok (img_width img) /\
    fst (ImageSurface_get_height o' (pw_world pw2)) = Ok (img_height img) /\
    fst (ImageSurface_rows o' (pw_world pw2)) = Ok rows.
Proof.
  intros Hl Hh Hp Hst Hf Hi Hfv Hsv Hw0 Hh0 Hr pm Hloss Hfuel.
  destruct (read_rows_ok _ _ _ _ Hr) as (_ & Hlen & Hrows).
  pose proof (write_to_png_stream_eq o ps p s img rows w (mkBytesIO [] 0) fs
                Hl Hh Hp Hst Hf Hi Hw0 Hh0 Hr) as Hwrite.
  change (mkBytesIO [] 0) with (mkBytesIO [] (length (@nil byte))) in Hwrite.
  rewrite write_chunks_bytesio in Hwrite. simpl in Hwrite.
  eexists. exists (w_next w). eexists. split; [exact Hwrite|]. simpl.
  split; [exact (create_from_png_bytesio fuel pm w fs Hloss Hfv Hsv Hfuel)|].
  unfold ImageSurface_get_format, ImageSurface_get_width, ImageSurface_get_height,
    ImageSurface_rows, image_self, self_of, cairo_image_surface_get_format,
    cairo_image_surface_get_width, cairo_image_surface_get_height, image_query,
    surface_of, native, bind, ret.
  simpl. rewrite !lookup_insert_eq. simpl. rewrite !lookup_insert_eq. simpl.
  split_and!; try reflexivity.
  rewrite (read_rows_pixmap _ (n_next (w_native w)) _ _ _ rows); [done | simpl; by rewrite lookup_insert_eq | done..].
Qed.

(** C11: a PNG stream that ends early (the first [k] bytes of a valid
    encoding) makes [create_from_png] raise [CairoError(READ_ERROR)]:
    no partial image is decoded, no surface or memory is allocated and
    no wrapper is registered; only the file position moves. *)
Theorem create_from_png_truncated (fuel : nat) (pm : pixmap) (k : nat) (w : world) (fs : fsys) :
  png_lossless pm = true -> k < length (concat (png_encode pm)) ->
  length (concat (png_encode pm)) < fuel ->
  exists f',
    ImageSurface_create_from_png fuel TargetFile
      (mkPW w (mkBytesIO (take k (concat (png_encode pm))) 0) fs) =
    (Err (CairoError (status_code READ_ERROR)),
     mkPW (mkW (w_native w) (w_objs w) (Pos.succ (w_next w))) f' fs).
Proof.
  intros Hl Hk Hfuel. destruct (png_reads_own pm Hl) as [plan Hplan].
  pose proof (png_follows_length _ _ _ Hplan) as Hlen.
  pose proof (png_pull_truncated plan [] (concat (png_encode pm)) k 0 fuel
                ltac:(by rewrite drop_0) ltac:(lia) Hk ltac:(lia)) as Hst.
  destruct (png_pull fuel [] _) as [[st bytes] f'] eqn:Hpull. simpl in Hst. subst st.
  exists f'. unfold ImageSurface_create_from_png, cairo_image_surface_create_from_png_stream,
    bind at 1. simpl. rewrite Hpull.
  unfold png_finish, Surface_new, surface___init__, new_object, cairo_surface_status,
    surface_of, create_in_error, on_world, native, bind, ret, raise, check_status.
  simpl. by destruct w.
Qed.

End PngRead.

Section PngPath.
Context `{PngCodec} {F : Type} `{FileLike F}.

(** C23: [write_to_png(path)] on an image surface of zero width or
    height raises [CairoError(WRITE_ERROR)], after cairo has created
    (or truncated) the file: an empty file named by the path is left
    behind, and no other file changes. *)
Theorem write_to_png_path_empty (o : oid) (ps : pysurface) (p : positive) (s : nsurface)
  (img : image_info) (w : world) (f : F) (fs : fsys) (name : list byte) :
  live w o ps -> ps_handle ps = HSurf p -> nsurf w p = Some s ->
  ns_status s = SUCCESS -> ns_finished s = false -> ns_image s = Some img ->
  (img_width img = 0 \/ img_height img = 0)%Z -> x00 ∉ name ->
  exists pw',
    Surface_write_to_png o (TargetPath (PathBytes name)) (mkPW w f fs) =
      (Err (CairoError (status_code WRITE_ERROR)), pw') /\
    pw_fs pw' name = Some [] /\ (forall k, k <> name -> pw_fs pw' k = fs k).
Proof.
  intros Hl Hh Hp Hst Hf Hi Hz Hn.
  destruct w as [n objs next]. unfold live, nsurf in *; simpl in *.
  assert ((img_width img =? 0)%Z || (img_height img =? 0)%Z = true) as Hz'.
  { destruct Hz as [-> | ->]; [done|apply orb_true_r]. }
  eexists. split.
  - unfold Surface_write_to_png, cairo_surface_write_to_png, png_write_guard,
      png_encode_surface, encode_filename, ffi_new_char_array, mem_alloc, fresh_id,
      c_string, self_of, surface_of, on_world, native, bind, ret, modify_st.
    simpl. rewrite Hl, Hh.
    cbn [pw_world pw_file pw_fs w_native w_objs w_next n_surfaces n_mem n_next p_block p_off].
    rewrite Hp, Hst, Hf. simpl. erewrite lookup_insert_eq.
    rewrite drop_0, take_until_nul_app by done. simpl.
    cbn [pw_world pw_file pw_fs w_native w_objs w_next n_surfaces n_mem n_next p_block p_off].
    rewrite Hp, Hi, Hz'. reflexivity.
  - simpl. split; [by rewrite decide_True|]. intros k Hk. by rewrite decide_False.
Qed.

(** C24: [create_from_png(path)] for a path naming no file raises
    [CairoError(FILE_NOT_FOUND)]: no surface is created and no wrapper
    registered (the only native change is the [char[]] holding the
    path). *)
Theorem create_from_png_missing_file (fuel : nat) (name : list byte) (pw : pworld F) :
  x00 ∉ name -> pw_fs pw name = None ->
  exists n',
    ImageSurface_create_from_png fuel (TargetPath (PathBytes name)) pw =
      (Err (CairoError (status_code FILE_NOT_FOUND)),
       mkPW (mkW n' (w_objs (pw_world pw)) (Pos.succ (w_next (pw_world pw))))
            (pw_file pw) (pw_fs pw)) /\
    n_surfaces n' = n_surfaces (w_native (pw_world pw)).
Proof.
  intros Hn Hfs. destruct pw as [[n objs next] f fs]. simpl in *.
  exists (mkN (n_surfaces n) (<[n_next n := name ++ [x00]]> (n_mem n)) (Pos.succ (n_next n))).
  split; [|reflexivity].
  unfold ImageSurface_create_from_png, cairo_image_surface_create_from_png, encode_filename,
    ffi_new_char_array, mem_alloc, fresh_id, c_string, on_world, native, bind, ret, modify_st.
  simpl. erewrite lookup_insert_eq. rewrite drop_0, take_until_nul_app by done. simpl.
  rewrite Hfs.
  unfold Surface_new, surface___init__, new_object, cairo_surface_status, surface_of,
    create_in_error, on_world, native, bind, ret, raise, check_status.
  simpl. reflexivity.
Qed.

End PngPath.

(** ** A concrete codec

    A raw format with the same interface: three header bytes (format,
    width, height), then the rows.  It represents exactly the images
    whose format and geometry fit a byte and whose rows have
    [row_bytes] bytes each.  It serves as the concrete codec of the
    witnesses below. *)

Definition raw_header (pm : pixmap) : list byte :=
  [byte_of_Z (pm_format pm); byte_of_Z (pm_width pm); byte_of_Z (pm_height pm)].

Definition raw_data_len (f w h : Z) : nat := (Z.to_nat h * Z.to_nat (row_bytes f w))%nat.

Fixpoint split_rows (h rb : nat) (d : list byte) : list (list byte) :=
  match h with
  | O => []
  | S h' => take rb d :: split_rows h' rb (drop rb d)
  end.

Definition raw_next (got : list byte) : option nat :=
  match got with
  | [] => Some 3%nat
  | [f; w; h] =>
      let n := raw_data_len (Z_of_byte f) (Z_of_byte w) (Z_of_byte h) in
      if Nat.eqb n 0 then None else Some n
  | _ => None
  end.

Definition raw_decode (bytes : list byte) : option pixmap :=
  match bytes with
  | f :: w :: h :: data =>
      let fz := Z_of_byte f in
      let wz := Z_of_byte w in
      let hz := Z_of_byte h in
      if Nat.eqb (length data) (raw_data_len fz wz hz)
      then Some (mkPixmap fz wz hz (split_rows (Z.to_nat hz) (Z.to_nat (row_bytes fz wz)) data))
      else None
  | _ => None
  end.

Definition in_byte (z : Z) : bool := (0 <=? z)%Z && (z <=? 255)%Z.

Definition raw_lossless (pm : pixmap) : bool :=
  in_byte (pm_format pm) && in_byte (pm_width pm) && in_byte (pm_height pm) &&
  Nat.eqb (length (pm_rows pm)) (Z.to_nat (pm_height pm)) &&
  forallb (fun r => Nat.eqb (length r) (Z.to_nat (row_bytes (pm_format pm) (pm_width pm))))
          (pm_rows pm).

#[local] Instance raw_codec : PngCodec := {|
  png_encode pm := raw_header pm :: pm_rows pm;
  png_next := raw_next;
  png_decode := raw_decode;
  png_lossless := raw_lossless
|}.

Lemma split_rows_concat (rows : list (list byte)) (rb : nat) :
  Forall (fun r => length r = rb) rows -> split_rows (length rows) rb (concat rows) = rows.
Proof.
  induction 1 as [|r rows Hr _ IH]; [done|]. simpl.
  rewrite take_app_length', drop_app_length' by done. by rewrite IH.
Qed.

Lemma length_concat_rows (rows : list (list byte)) (rb : nat) :
  Forall (fun r => length r = rb) rows -> length (concat rows) = (length rows * rb)%nat.
Proof. induction 1 as [|r rows Hr _ IH]; [done|]. simpl. rewrite length_app, IH. lia. Qed.

Lemma raw_lossless_spec (pm : pixmap) :
  raw_lossless pm = true ->
  (0 <= pm_format pm <= 255 /\ 0 <= pm_width pm <= 255 /\ 0 <= pm_height pm <= 255)%Z /\
  length (pm_rows pm) = Z.to_nat (pm_height pm) /\
  Forall (fun r => length r = Z.to_nat (row_bytes (pm_format pm) (pm_width pm))) (pm_rows pm).
Proof.
  unfold raw_lossless, in_byte. rewrite !andb_true_iff, !Z.leb_le, Nat.eqb_eq, forallb_forall.
  intros (((([? ?] & [? ?]) & [? ?]) & Hl) & Hr). split; [lia|]. split; [done|].
  apply Forall_forall. intros r Hin%list_elem_of_In. by apply Nat.eqb_eq, Hr.
Qed.

#[local] Instance raw_codec_laws : PngCodecLaws.
Proof.
  split; intros [f w h rows] Hl; apply raw_lossless_spec in Hl as ([Hf [Hw Hh]] & Hlen & Hrows);
    simpl in *; try rewrite !Z_of_byte_of_Z by lia.
  - set (n := raw_data_len f w h).
    assert (length (concat rows) = n) as Hn
      by (subst n; unfold raw_data_len; rewrite (length_concat_rows _ _ Hrows); lia).
    destruct (Nat.eqb_spec n 0) as [Hz|Hz].
    + assert (concat rows = []) as Hnil by (apply nil_length_inv; lia).
      exists [3%nat]. simpl. rewrite Hnil. simpl. rewrite !Z_of_byte_of_Z by lia. fold n.
      rewrite (proj2 (Nat.eqb_eq n 0) Hz). split_and!; done || lia.
    + destruct (concat rows) as [|x rest] eqn:E; simpl in Hn; [lia|].
      exists [3%nat; n]. simpl. rewrite !Z_of_byte_of_Z by lia. fold n.
      rewrite (proj2 (Nat.eqb_neq n 0) Hz).
      rewrite take_ge, drop_ge by (simpl; lia). split_and!; done || lia.
  - assert (length (concat rows) = raw_data_len f w h) as ->
      by (unfold raw_data_len; rewrite (length_concat_rows _ _ Hrows); lia).
    rewrite Nat.eqb_refl, <- Hlen, split_rows_concat by done. done.
Qed.

(** The raw decoder never asks for zero bytes. *)
Lemma raw_next_pos (got : list byte) (n : nat) : raw_next got = Some n -> 0 < n.
Proof.
  intros Hn. destruct got as [|f [|w [|h [|]]]]; simpl in Hn; simplify_eq; [lia|].
  destruct (Nat.eqb _ 0) eqn:Hz; simplify_eq. apply Nat.eqb_neq in Hz. lia.
Qed.

(** ** Witnesses *)

Definition no_files : fsys := fun _ => None.

(** The image of [demo_world] (Surface.v): A8, 4x2, stride 4, zeroed. *)
Definition demo_img : image_info := mkImage FORMAT_A8 4%Z 2%Z 4%Z (Some (mkPtr 1%positive 0%Z)) true.

Definition demo_rows : list (list byte) := [replicate 4 x00; replicate 4 x00].

Definition demo_pixmap : pixmap := mkPixmap FORMAT_A8 4%Z 2%Z demo_rows.

Lemma png_roundtrip_witness :
  read_rows demo_img (w_native (demo_world CImageSurface)) =
    (Ok demo_rows, w_native (demo_world CImageSurface)) /\
  png_lossless demo_pixmap = true /\
  exists pw1 o' pw2,
    Surface_write_to_png 100%positive TargetFile
      (mkPW (demo_world CImageSurface) (mkBytesIO [] 0) no_files) = (Ok tt, pw1) /\
    ImageSurface_create_from_png 12 TargetFile
      (mkPW (pw_world pw1) (mkBytesIO (bio_data (pw_file pw1)) 0) (pw_fs pw1)) = (Ok o', pw2) /\
    fst (ImageSurface_get_format o' (pw_world pw2)) = Ok FORMAT_A8 /\
    fst (ImageSurface_get_width o' (pw_world pw2)) = Ok 4%Z /\
    fst (ImageSurface_get_height o' (pw_world pw2)) = Ok 2%Z /\
    fst (ImageSurface_rows o' (pw_world pw2)) = Ok demo_rows.
Proof.
  split; [reflexivity|]. split; [reflexivity|].
  apply (png_roundtrip 100%positive (mkPS CImageSurface (HSurf 5%positive) None) 5%positive demo_surface demo_img
           demo_rows (demo_world CImageSurface) no_files 12);
    try reflexivity; simpl; lia.
Defined.

Lemma create_from_png_truncated_witness :
  png_lossless demo_pixmap = true /\ (5 < length (concat (png_encode demo_pixmap)))%nat /\
  exists f',
    ImageSurface_create_from_png 12 TargetFile
      (mkPW (buffer_world 0) (mkBytesIO (take 5 (concat (png_encode demo_pixmap))) 0) no_files) =
    (Err (CairoError (status_code READ_ERROR)),
     mkPW (mkW (w_native (buffer_world 0)) (w_objs (buffer_world 0))
               (Pos.succ (w_next (buffer_world 0)))) f' no_files).
Proof.
  split; [reflexivity|]. split; [simpl; lia|].
  apply create_from_png_truncated; [reflexivity | simpl; lia | simpl; lia].
Defined.

(** A surface of zero width. *)
Definition empty_world : world :=
  mkW (mkN {[5%positive := new_image FORMAT_A8 0%Z 2%Z 4%Z (mkPtr 1%positive 0%Z) true]}
           {[1%positive := replicate 8 x00]} 10%positive)
      {[100%positive := mkPS CImageSurface (HSurf 5%positive) None]} 101%positive.

Lemma write_to_png_path_empty_witness :
  x00 ∉ [x61] /\
  exists pw',
    Surface_write_to_png 100%positive (TargetPath (PathBytes [x61]))
      (mkPW empty_world (mkBytesIO [] 0) no_files) =
      (Err (CairoError (status_code WRITE_ERROR)), pw') /\
    pw_fs pw' [x61] = Some [] /\ (forall k, k <> [x61] -> pw_fs pw' k = no_files k).
Proof.
  split; [by repeat (apply not_elem_of_cons; split; [discriminate|]); apply not_elem_of_nil|].
  apply (write_to_png_path_empty 100%positive (mkPS CImageSurface (HSurf 5%positive) None) 5%positive
           (new_image FORMAT_A8 0%Z 2%Z 4%Z (mkPtr 1%positive 0%Z) true)
           (mkImage FORMAT_A8 0%Z 2%Z 4%Z (Some (mkPtr 1%positive 0%Z)) true));
    try reflexivity; [by left|].
  by repeat (apply not_elem_of_cons; split; [discriminate|]); apply not_elem_of_nil.
Defined.

Lemma create_from_png_missing_file_witness :
  x00 ∉ [x61] /\
  exists n',
    ImageSurface_create_from_png 12 (TargetPath (PathBytes [x61]))
      (mkPW (demo_world CImageSurface) (mkBytesIO [] 0) no_files) =
      (Err (CairoError (status_code FILE_NOT_FOUND)),
       mkPW (mkW n' (w_objs (demo_world CImageSurface))
                 (Pos.succ (w_next (demo_world CImageSurface))))
            (mkBytesIO [] 0) no_files) /\
    n_surfaces n' = n_surfaces (w_native (demo_world CImageSurface)).
Proof.
  split; [by repeat (apply not_elem_of_cons; split; [discriminate|]); apply not_elem_of_nil|].
  apply (create_from_png_missing_file 12 [x61]
           (mkPW (demo_world CImageSurface) (mkBytesIO [] 0) no_files)); [|reflexivity].
  by repeat (apply not_elem_of_cons; split; [discriminate|]); apply not_elem_of_nil.
Defined.

(** The encoding of [demo_pixmap] in a BytesIO, read with a bound of 12
    requests or of 50. *)
Definition demo_png_world : pworld BytesIO :=
  mkPW (buffer_world 0) (mkBytesIO (concat (png_encode demo_pixmap)) 0) no_files.

Lemma create_from_png_fuel_enough_witness :
  ImageSurface_create_from_png 12 TargetFile demo_png_world =
  ImageSurface_create_from_png 50 TargetFile demo_png_world.
Proof.
  eapply create_from_png_fuel_enough; [exact raw_next_pos | simpl; lia | simpl; lia | simpl; lia].
Defined.
