(* ===== verification/World.v ===== *)
(** * World: the life cycle of image surfaces and the buffers they borrow

    A program using surfaces.py allocates [bytearray]s, creates image
    surfaces (over pixels cairo allocates, or over one of its buffers
    with [create_for_data]), writes pixels through [get_data()],
    finishes surfaces, and drops its references; the collector then
    reclaims the wrappers ([ffi.gc] runs [cairo_surface_destroy]) and
    the buffers nothing references any more.

    [wstep] is one such event on [wstate]: the world of Surface.v, the
    buffers the program still references ([ws_roots]) and the blocks
    that are Python buffers ([ws_pybufs]) rather than memory cairo
    allocated.  The collector's steps are refused while their object is
    referenced: a buffer is referenced by the program or by the [_data]
    attribute of a wrapper ([ImageSurface.__init__], line 169, "keep it
    alive").  [reachable] is the set of states a program can reach.

    The invariant [wf] says, among other things, that the pixel memory
    of every image surface is allocated, and that memory a surface
    borrows is pinned by the [_data] of its wrapper.  It holds in every
    reachable state: cairo never reads or writes freed memory; and that
    every wrapper is an [ImageSurface] over a live image surface, so its
    methods are well typed. *)

From S2P Require Import Prelude CTypes Native CFFI Surface ImageSurface.

Local Open Scope py_scope.

(** ** States and events *)

Record wstate := mkWS {
  ws_world : world;
  ws_roots : gset block;     (** buffers the program references *)
  ws_pybufs : gset block     (** blocks that are Python [bytearray]s *)
}.

Inductive wevent :=
| EvBuffer (n : nat)                       (** [bytearray(n)] *)
| EvDropBuffer (d : block)                 (** the program drops its reference *)
| EvCollectBuffer (d : block)              (** the collector frees the buffer *)
| EvCreate (fmt w h : Z)                   (** [ImageSurface(fmt, w, h)] *)
| EvCreateForData (d : block) (fmt w h : Z) (stride : option Z)
                                           (** [ImageSurface.create_for_data(d, ...)] *)
| EvWriteData (o : oid) (off : Z) (src : list byte)
                                           (** [s.get_data()[off:off+len(src)] = src] *)
| EvFinish (o : oid)                       (** [s.finish()] *)
| EvFinalize (o : oid).                    (** the collector reclaims the wrapper *)

(** The world after a call, whatever it returned or raised. *)
Definition after {A} (m : PyM world exn A) (w : world) : world := snd (m w).

(** No wrapper's [_data] is the buffer [d]. *)
Definition unreferenced (w : world) (d : block) : Prop :=
  map_Forall (fun _ ps => ps_data ps <> Some d) (w_objs w).

#[export] Instance unreferenced_dec w d : Decision (unreferenced w d).
Proof. unfold unreferenced. apply _. Defined.

(** [get_data()] and a slice assignment into the view. *)
Definition write_data (o : oid) (off : Z) (src : list byte) : PyM world exn unit :=
  v <- ImageSurface_get_data o ;; view_write v off src.

Definition wstep (st : wstate) (ev : wevent) : option wstate :=
  let w := ws_world st in
  match ev with
  | EvBuffer n =>
      let n0 := w_native w in
      let b := n_next n0 in
      Some (mkWS (mkW (mkN (n_surfaces n0) (<[b := replicate n x00]> (n_mem n0)) (Pos.succ b))
                      (w_objs w) (w_next w))
                 ({[b]} ∪ ws_roots st) ({[b]} ∪ ws_pybufs st))
  | EvDropBuffer d => Some (mkWS w (ws_roots st ∖ {[d]}) (ws_pybufs st))
  | EvCollectBuffer d =>
      if decide (d ∈ ws_pybufs st /\ d ∉ ws_roots st /\ unreferenced w d)
      then Some (mkWS (mkW (mkN (n_surfaces (w_native w)) (delete d (n_mem (w_native w)))
                               (n_next (w_native w))) (w_objs w) (w_next w))
                      (ws_roots st) (ws_pybufs st ∖ {[d]}))
      else None
  | EvCreate fmt wd h =>
      Some (mkWS (after (ImageSurface_new fmt wd h None None) w) (ws_roots st) (ws_pybufs st))
  | EvCreateForData d fmt wd h stride =>
      if decide (d ∈ ws_roots st)
      then Some (mkWS (after (ImageSurface_create_for_data d fmt wd h stride) w)
                      (ws_roots st) (ws_pybufs st))
      else None
  | EvWriteData o off src =>
      Some (mkWS (after (write_data o off src) w) (ws_roots st) (ws_pybufs st))
  | EvFinish o => Some (mkWS (after (Surface_finish o) w) (ws_roots st) (ws_pybufs st))
  | EvFinalize o => Some (mkWS (after (surface_finalize o) w) (ws_roots st) (ws_pybufs st))
  end.

Definition winit : wstate := mkWS (mkW (mkN ∅ ∅ 1) ∅ 1) ∅ ∅.

Fixpoint wrun (st : wstate) (evs : list wevent) : option wstate :=
  match evs with
  | [] => Some st
  | ev :: rest => st' ← wstep st ev; wrun st' rest
  end.

Inductive reachable : wstate -> Prop :=
| reach_init : reachable winit
| reach_step st ev st' : reachable st -> wstep st ev = Some st' -> reachable st'.

(** ** The invariant *)

(** The pixel data of surface [p], when it has some. *)
Definition pixels (n : nstate) (p : positive) (s : nsurface) (img : image_info) (d : ptr) : Prop :=
  n_surfaces n !! p = Some s /\ ns_image s = Some img /\ img_data img = Some d.

Record wf (st : wstate) : Prop := {
  wf_fresh_mem : forall b, is_Some (n_mem (w_native (ws_world st)) !! b) ->
                   (b < n_next (w_native (ws_world st)))%positive;
  wf_fresh_surf : forall p, is_Some (n_surfaces (w_native (ws_world st)) !! p) ->
                    (p < n_next (w_native (ws_world st)))%positive;
  wf_fresh_obj : forall o, is_Some (w_objs (ws_world st) !! o) -> (o < w_next (ws_world st))%positive;
  wf_roots : ws_roots st ⊆ ws_pybufs st;
  wf_pybufs : forall b, b ∈ ws_pybufs st -> is_Some (n_mem (w_native (ws_world st)) !! b);
  (** the pixels of every surface are allocated *)
  wf_pixels : forall p s img d, pixels (w_native (ws_world st)) p s img d ->
                is_Some (n_mem (w_native (ws_world st)) !! p_block d);
  (** pixels cairo owns are no Python buffer, and no other surface's *)
  wf_owned : forall p s img d, pixels (w_native (ws_world st)) p s img d ->
               img_owns_data img = true -> p_block d ∉ ws_pybufs st /\
               forall p' s' img' d', pixels (w_native (ws_world st)) p' s' img' d' ->
                 p_block d' = p_block d -> p' = p;
  (** borrowed pixels are pinned by the [_data] of the surface's wrapper *)
  wf_borrowed : forall p s img d, pixels (w_native (ws_world st)) p s img d ->
                  img_owns_data img = false ->
                  exists o ps, w_objs (ws_world st) !! o = Some ps /\ ps_handle ps = HSurf p /\
                               ps_data ps = Some (p_block d);
  (** every wrapper holds the only reference to its own surface *)
  wf_wrapped : forall o ps p, w_objs (ws_world st) !! o = Some ps -> ps_handle ps = HSurf p ->
                 exists s, n_surfaces (w_native (ws_world st)) !! p = Some s /\
                           ns_refcount s = 1%nat;
  wf_unique : forall o1 o2 ps1 ps2 p, w_objs (ws_world st) !! o1 = Some ps1 ->
                w_objs (ws_world st) !! o2 = Some ps2 ->
                ps_handle ps1 = HSurf p -> ps_handle ps2 = HSurf p -> o1 = o2;
  (** every wrapper is an [ImageSurface] over a native image surface *)
  wf_typed : forall o ps, w_objs (ws_world st) !! o = Some ps ->
               ps_class ps = CImageSurface /\
               exists p s, ps_handle ps = HSurf p /\ n_surfaces (w_native (ws_world st)) !! p = Some s /\
                           ns_type s = ST_IMAGE /\ is_Some (ns_image s)
}.

(** ** What each call does to the memory *)

(** The memory after [_cairo_surface_finish] on [s]: the block of the
    pixels [s] owns, if any, is freed. *)
Definition freed_mem (s : nsurface) (m : gmap block (list byte)) : gmap block (list byte) :=
  match ns_image s with
  | Some img => if img_owns_data img
                then match img_data img with
                     | Some d => delete (p_block d) m
                     | None => m
                     end
                else m
  | None => m
  end.

Lemma freed_mem_sub (s : nsurface) (m : gmap block (list byte)) (b : block) :
  is_Some (freed_mem s m !! b) -> is_Some (m !! b).
Proof.
  unfold freed_mem. repeat case_match; try done.
  intros Hb. apply lookup_delete_is_Some in Hb. by destruct Hb.
Qed.

(** Only the block of the pixels [s] owns is freed. *)
Lemma freed_mem_keep (s : nsurface) (m : gmap block (list byte)) (b : block) :
  (forall img d, ns_image s = Some img -> img_owns_data img = true -> img_data img = Some d ->
     p_block d <> b) ->
  freed_mem s m !! b = m !! b.
Proof.
  unfold freed_mem. intros Hne.
  destruct (ns_image s) as [img|] eqn:Hi; [|done].
  destruct (img_owns_data img) eqn:Hoi; [|done].
  destruct (img_data img) as [d|] eqn:Hd; [|done].
  apply lookup_delete_ne. eauto.
Qed.

(** [_cairo_surface_finish] on surface [p]: the surface is replaced by
    a finished one whose pixels, if any, are the borrowed pixels of [s];
    the pixels [s] owned are freed. *)
Lemma surface_finish_internal_spec (p : positive) (s : nsurface) (n : nstate) :
  exists s',
    surface_finish_internal p s n =
      (Ok tt, mkN (<[p := s']> (n_surfaces n))
                  (freed_mem s (n_mem n)) (n_next n)) /\
    ns_refcount s' = ns_refcount s /\ ns_type s' = ns_type s /\
    (is_Some (ns_image s') <-> is_Some (ns_image s)) /\
    (forall img d, ns_image s' = Some img -> img_data img = Some d ->
       ns_image s = Some img /\ img_owns_data img = false).
Proof.
  unfold surface_finish_internal, put_surface, mem_free, modify_st, bind, ret, freed_mem.
  destruct (ns_image s) as [img|] eqn:Hi.
  - destruct (img_owns_data img) eqn:Ho; [destruct (img_data img) as [d|] eqn:Hd|];
      eexists; (split; [reflexivity|]); simpl; split_and!; try done;
      intros img' d' [= <-]; simpl; intros Hd'; first [discriminate | split; congruence].
  - eexists. split; [reflexivity|]. simpl. split_and!; try done; by intros ? ? [=].
Qed.

(** A call that only reads the native state. *)
Definition reads_only {A} (m : PyM nstate exn A) : Prop := forall n, snd (m n) = n.

Lemma surface_of_reads h : reads_only (surface_of h).
Proof. intros n. destruct h; simpl; [done|]. by destruct (n_surfaces n !! p). Qed.

Lemma image_query_reads {A} (dflt : A) f h : reads_only (image_query dflt f h).
Proof.
  intros n. unfold image_query, bind. pose proof (surface_of_reads h n) as Hs.
  destruct (surface_of h n) as [[s|e] n'] eqn:E; simpl in *; subst; [|done].
  by destruct h, (ns_image s).
Qed.

(** Case on every [match] of a computation, as the calls branch. *)
Ltac split_calls :=
  repeat (first [case_match | progress (unfold ret, raise, surface_of, nil_surface,
                                              create_in_error in *)];
          simplify_eq/=; try discriminate).

(** [s.finish()]: nothing, or [_cairo_surface_finish] on the surface of
    the wrapper. *)
Lemma Surface_finish_after (o : oid) (w : world) :
  after (Surface_finish o) w = w \/
  exists ps p s, w_objs w !! o = Some ps /\ ps_handle ps = HSurf p /\
    n_surfaces (w_native w) !! p = Some s /\
    after (Surface_finish o) w =
      mkW (snd (surface_finish_internal p s (w_native w))) (w_objs w) (w_next w).
Proof.
  destruct w as [n objs next]. unfold after, Surface_finish, self_of, native, bind. simpl.
  destruct (objs !! o) as [ps|] eqn:Ho; [|left; reflexivity].
  unfold cairo_surface_finish. destruct (ps_handle ps) as [st|p] eqn:Hh; [left; reflexivity|].
  unfold bind, surface_of. simpl. destruct (n_surfaces n !! p) as [s|] eqn:Hs; [|left; reflexivity].
  destruct (ns_finished s); [left; reflexivity|]. right. exists ps, p, s. split_and!; try done.
  by destruct (surface_finish_internal p s n).
Qed.

(** The collector reclaims wrapper [o]: nothing if it is gone, else
    the wrapper is deleted and its handle destroyed. *)
Lemma surface_finalize_after (o : oid) (w : world) :
  (w_objs w !! o = None /\ after (surface_finalize o) w = w) \/
  exists ps, w_objs w !! o = Some ps /\
    after (surface_finalize o) w =
      mkW (snd (cairo_surface_destroy (ps_handle ps) (w_native w))) (delete o (w_objs w))
          (w_next w).
Proof.
  destruct w as [n objs next]. unfold after, surface_finalize, self_of, native, bind,
    modify_st. simpl.
  destruct (objs !! o) as [ps|] eqn:Ho; [|by left]. right. exists ps. split; [done|].
  simpl. by destruct (cairo_surface_destroy (ps_handle ps) n).
Qed.

(** [get_data()] only reads. *)
Lemma get_data_reads (o : oid) (w : world) : exists r, ImageSurface_get_data o w = (r, w).
Proof.
  destruct w as [n objs next].
  unfold ImageSurface_get_data, ImageSurface_get_stride, ImageSurface_get_height, image_self,
    self_of, cairo_image_surface_get_data, cairo_image_surface_get_stride,
    cairo_image_surface_get_height, image_query, native, bind. simpl.
  split_calls; eauto.
Qed.

(** A write through a view changes the bytes of an allocated block, and
    nothing else. *)
Lemma write_data_after (o : oid) (off : Z) (src : list byte) (w : world) :
  let w' := after (write_data o off src) w in
  n_surfaces (w_native w') = n_surfaces (w_native w) /\
  n_next (w_native w') = n_next (w_native w) /\
  w_objs w' = w_objs w /\ w_next w' = w_next w /\
  (forall b, is_Some (n_mem (w_native w') !! b) <-> is_Some (n_mem (w_native w) !! b)).
Proof.
  unfold after, write_data, bind. destruct (get_data_reads o w) as [r ->].
  destruct r as [v|e]; [|done]. unfold view_write.
  destruct (_ && _); [|done]. destruct (v_ptr v) as [p|]; [|done]. simpl.
  destruct (n_mem (w_native w) !! p_block p) as [bytes|] eqn:Hb; [|done].
  destruct (_ && _); [|done]. simpl. split_and!; try done.
  intros b. rewrite lookup_insert. case_decide; subst; [|done]. rewrite Hb. done.
Qed.

(** [ImageSurface(fmt, w, h)]: nothing but a fresh identity, or one new
    surface owning a new block of pixels, wrapped by a new object. *)
Lemma image_new_after (fmt wd h : Z) (w : world) :
  let w' := after (ImageSurface_new fmt wd h None None) w in
  (w_native w' = w_native w /\ w_objs w' = w_objs w /\ w_next w' = Pos.succ (w_next w)) \/
  (exists bytes stride,
     let n := w_native w in
     w_native w' = mkN (<[Pos.succ (n_next n) :=
                            new_image fmt wd h stride (mkPtr (n_next n) 0) true]> (n_surfaces n))
                       (<[n_next n := bytes]> (n_mem n)) (Pos.succ (Pos.succ (n_next n))) /\
     w_objs w' = <[w_next w := mkPS CImageSurface (HSurf (Pos.succ (n_next n))) None]> (w_objs w) /\
     w_next w' = Pos.succ (w_next w)).
Proof.
  destruct w as [n objs next]. cbn zeta.
  unfold after, ImageSurface_new, ImageSurface___init__, new_object, to_c_int,
    cairo_image_surface_create, image_create_pixman, surface___init__, cairo_surface_status,
    alloc_surface, mem_alloc, fresh_id, put_surface, put_object, native, bind, modify_st,
    check_status.
  simpl. split_calls; try (left; done).
  all: try (rewrite lookup_insert_eq in *; simplify_eq/=).
  all: first [by left | right; do 2 eexists; split_and!; reflexivity].
Qed.

(** A [create_for_data] that raises changes nothing but the identity
    counter: every check comes before the only allocation. *)
Lemma create_for_data_error (d : block) (fmt wd h : Z) (stride : option Z) (w : world)
  (e : exn) (w' : world) :
  ImageSurface_create_for_data d fmt wd h stride w = (Err e, w') ->
  w_native w' = w_native w /\ w_objs w' = w_objs w /\ w_next w' = Pos.succ (w_next w).
Proof.
  destruct w as [n objs next].
  unfold ImageSurface_create_for_data, ImageSurface_new, ImageSurface___init__,
    ImageSurface_format_stride_for_width, new_object, py_len, from_buffer,
    cairo_image_surface_create_for_data, surface___init__, cairo_surface_status,
    alloc_surface, fresh_id, put_surface, put_object, to_c_int, native, bind, check_status,
    modify_st.
  simpl. intros H. split_calls; try done.
  all: rewrite lookup_insert_eq in *; simplify_eq/=.
Qed.

(** ** The invariant holds in every reachable state *)

Lemma wf_init : wf winit.
Proof.
  constructor; simpl; unfold pixels; simpl;
    try (intros; repeat match goal with H : _ /\ _ |- _ => destruct H end;
         simplify_map_eq; fail).
  all: try (intros ? [? Hx]; by rewrite lookup_empty in Hx).
  all: set_solver.
Qed.

Lemma wf_buffer (st : wstate) (k : nat) (st' : wstate) :
  wf st -> wstep st (EvBuffer k) = Some st' -> wf st'.
Proof.
  intros [Hm Hs Ho Hr Hp Hpix Hown Hbor Hwr Hun Hty] [= <-].
  destruct st as [[n objs next] roots bufs]; simpl in *. unfold pixels in *. simpl in *.
  constructor; simpl; unfold pixels; simpl.
  - intros b Hb. apply lookup_insert_is_Some' in Hb as [<- | Hb]; [lia|].
    specialize (Hm _ Hb). lia.
  - intros p Hp'. specialize (Hs _ Hp'). lia.
  - done.
  - set_solver.
  - intros b Hb. apply lookup_insert_is_Some'. apply elem_of_union in Hb as [Hb|Hb];
      [left; set_solver | right; auto].
  - intros p s img d Hpx. apply lookup_insert_is_Some'. right. eauto.
  - intros p s img d Hpx Hoi. destruct (Hown p s img d Hpx Hoi) as [Hnb Huniq].
    split; [|done]. specialize (Hm _ (Hpix _ _ _ _ Hpx)).
    apply not_elem_of_union. split; [apply not_elem_of_singleton; lia | done].
  - done.
  - done.
  - done.
  - done.
Qed.

Lemma wf_drop (st : wstate) (d : block) (st' : wstate) :
  wf st -> wstep st (EvDropBuffer d) = Some st' -> wf st'.
Proof.
  intros [Hm Hs Ho Hr Hp Hpix Hown Hbor Hwr Hun Hty] [= <-].
  constructor; simpl; try done. set_solver.
Qed.

Lemma wf_collect (st : wstate) (d : block) (st' : wstate) :
  wf st -> wstep st (EvCollectBuffer d) = Some st' -> wf st'.
Proof.
  intros [Hm Hs Ho Hr Hp Hpix Hown Hbor Hwr Hun Hty]. simpl.
  case_decide as Hc; [|done]. destruct Hc as (Hd & Hnr & Hunref). intros [= <-].
  destruct st as [[n objs next] roots bufs]; simpl in *. unfold pixels in *. simpl in *.
  (* no surface uses the collected buffer *)
  assert (Hfree : forall p s img d', pixels n p s img d' -> p_block d' <> d).
  { intros p s img d' Hpx <-. destruct (img_owns_data img) eqn:Hoi.
    - by apply (proj1 (Hown _ _ _ _ Hpx Hoi)).
    - destruct (Hbor _ _ _ _ Hpx Hoi) as (o & ps & Hob & _ & Hdata).
      by apply (Hunref o ps Hob). }
  constructor; simpl; unfold pixels; simpl.
  - intros b Hb. apply Hm. apply lookup_delete_is_Some in Hb. by destruct Hb.
  - done.
  - done.
  - set_solver.
  - intros b Hb. apply elem_of_difference in Hb as [Hb Hne].
    rewrite lookup_delete_ne by set_solver. auto.
  - intros p s img d' Hpx. rewrite lookup_delete_ne by (apply not_eq_sym, (Hfree _ _ _ _ Hpx)).
    eauto.
  - intros p s img d' Hpx Hoi. destruct (Hown p s img d' Hpx Hoi) as [Hnb Huniq].
    split; [set_solver | done].
  - done.
  - done.
  - done.
  - done.
Qed.

(** The pixels after a new surface [p] is inserted: those of [p], or
    those of another surface as before. *)
Lemma pixels_insert (n : nstate) (p : positive) (sn : nsurface) mem' nx p' s img d :
  pixels (mkN (<[p := sn]> (n_surfaces n)) mem' nx) p' s img d ->
  (p' = p /\ s = sn /\ ns_image sn = Some img /\ img_data img = Some d) \/
  (p' <> p /\ pixels n p' s img d).
Proof.
  intros (Hps & Hi & Hd). simpl in Hps. rewrite lookup_insert in Hps.
  case_decide; [left; simplify_eq; auto | right; split; [done | split_and!; done]].
Qed.

(** The three facts of [wf] about wrappers, for a map of wrappers and
    a map of surfaces. *)
Definition wrappers_ok (objs : gmap positive pysurface) (surfs : gmap positive nsurface) : Prop :=
  (forall o ps p, objs !! o = Some ps -> ps_handle ps = HSurf p ->
     exists s, surfs !! p = Some s /\ ns_refcount s = 1%nat) /\
  (forall o1 o2 ps1 ps2 p, objs !! o1 = Some ps1 -> objs !! o2 = Some ps2 ->
     ps_handle ps1 = HSurf p -> ps_handle ps2 = HSurf p -> o1 = o2) /\
  (forall o ps, objs !! o = Some ps -> ps_class ps = CImageSurface /\
     exists p s, ps_handle ps = HSurf p /\ surfs !! p = Some s /\
                 ns_type s = ST_IMAGE /\ is_Some (ns_image s)).

(** A new wrapper of a new image surface with one reference. *)
Lemma wrappers_insert (objs : gmap positive pysurface) (surfs : gmap positive nsurface)
  (o : oid) (p : positive) (sn : nsurface) (dat : option block) :
  wrappers_ok objs surfs -> objs !! o = None -> surfs !! p = None ->
  ns_refcount sn = 1%nat -> ns_type sn = ST_IMAGE -> is_Some (ns_image sn) ->
  wrappers_ok (<[o := mkPS CImageSurface (HSurf p) dat]> objs) (<[p := sn]> surfs).
Proof.
  intros (Hwr & Hun & Hty) Ho Hp Hrc Htype Himg.
  assert (Hold : forall o' ps', objs !! o' = Some ps' -> ps_handle ps' <> HSurf p).
  { intros o' ps' Hob Hh. destruct (Hwr _ _ _ Hob Hh) as (s & Hs & _). congruence. }
  assert (Hne : forall o' ps', objs !! o' = Some ps' -> o' <> o) by (intros; congruence).
  split_and!.
  - intros o' ps p' Hob Hh. apply lookup_insert_Some in Hob as [[<- <-] | [_ Hob]].
    + injection Hh as <-. rewrite lookup_insert_eq. by eexists.
    + destruct (Hwr _ _ _ Hob Hh) as (s & Hsp & Hrc'). exists s.
      rewrite lookup_insert_ne; [done|]. intros <-. by apply (Hold _ _ Hob).
  - intros o1 o2 ps1 ps2 p' Ho1 Ho2 Hh1 Hh2.
    apply lookup_insert_Some in Ho1 as [[<- <-] | [_ Ho1]];
    apply lookup_insert_Some in Ho2 as [[<- <-] | [_ Ho2]]; [done| | |eauto];
      simpl in *; simplify_eq; exfalso; eapply Hold; eauto.
  - intros o' ps Hob. apply lookup_insert_Some in Hob as [[<- <-] | [_ Hob]].
    + split; [done|]. exists p, sn. rewrite lookup_insert_eq. auto.
    + destruct (Hty _ _ Hob) as (Hc & p' & s' & Hh & Hsp & Ht & Hi). split; [done|].
      exists p', s'. rewrite lookup_insert_ne; [auto|]. intros <-. by apply (Hold _ _ Hob).
Qed.


(** Replacing a surface by one with the same reference count and type,
    and pixel information when it had some. *)
Lemma wrappers_replace (objs : gmap positive pysurface) (surfs : gmap positive nsurface)
  (p : positive) (s s' : nsurface) :
  wrappers_ok objs surfs -> surfs !! p = Some s ->
  ns_refcount s' = ns_refcount s -> ns_type s' = ns_type s ->
  (is_Some (ns_image s') <-> is_Some (ns_image s)) ->
  wrappers_ok objs (<[p := s']> surfs).
Proof.
  intros (Hwr & Hun & Hty) Hps Hrc Htype Himg. split_and!; [|done|].
  - intros o ps p' Hob Hh. destruct (Hwr _ _ _ Hob Hh) as (s'' & Hsp & Hrc'').
    rewrite lookup_insert. case_decide; [subst; eexists; split; [done|congruence]|]. eauto.
  - intros o ps Hob. destruct (Hty _ _ Hob) as (Hc & p' & s'' & Hh & Hsp & Ht & Hi).
    split; [done|]. exists p'. rewrite lookup_insert. case_decide as Heq; [|eauto].
    subst p'. rewrite Hps in Hsp. injection Hsp as <-.
    exists s'. split_and!; [done | done | congruence | by apply Himg].
Qed.

(** Removing wrapper [o] together with its surface [p]. *)
Lemma wrappers_remove (objs : gmap positive pysurface) (surfs : gmap positive nsurface)
  (o : oid) (ps : pysurface) (p : positive) :
  wrappers_ok objs surfs -> objs !! o = Some ps -> ps_handle ps = HSurf p ->
  wrappers_ok (delete o objs) (delete p surfs).
Proof.
  intros (Hwr & Hun & Hty) Hob Hh.
  assert (Hother : forall o' ps', objs !! o' = Some ps' -> ps_handle ps' = HSurf p -> o' = o)
    by (intros o' ps' Hob' Hh'; by apply (Hun o' o ps' ps p)).
  split_and!.
  - intros o' ps' p' Hob' Hh'. apply lookup_delete_Some in Hob' as [Hne Hob'].
    destruct (Hwr _ _ _ Hob' Hh') as (s' & Hsp & Hrc). exists s'.
    rewrite lookup_delete_ne; [done|]. intros ->. apply Hne. symmetry. by apply (Hother o' ps').
  - intros o1 o2 ps1 ps2 p' Ho1 Ho2.
    apply lookup_delete_Some in Ho1 as [_ Ho1]. apply lookup_delete_Some in Ho2 as [_ Ho2].
    eauto.
  - intros o' ps' Hob'. apply lookup_delete_Some in Hob' as [Hne Hob'].
    destruct (Hty _ _ Hob') as (Hc & p' & s' & Hh' & Hsp & Ht & Hi). split; [done|].
    exists p', s'. split; [done|]. rewrite lookup_delete_ne; [auto|].
    intros ->. apply Hne. symmetry. by apply (Hother o' ps').
Qed.
(** A new surface [p], with a reference count of one, wrapped by a new
    object: the invariant holds after, when the new surface's pixels
    are allocated, a block it owns is no Python buffer and no other
    surface's, and a block it borrows is the wrapper's [_data] and not
    owned by another surface. *)
Lemma wf_alloc (n : nstate) (objs : gmap positive pysurface) (next : positive)
  (roots bufs : gset block) (p : positive) (sn : nsurface) (mem' : gmap block (list byte))
  (nx : positive) (dat : option block) :
  wf (mkWS (mkW n objs next) roots bufs) ->
  (n_next n <= p)%positive -> (p < nx)%positive -> (n_next n <= nx)%positive ->
  (forall b, is_Some (n_mem n !! b) -> is_Some (mem' !! b)) ->
  (forall b, is_Some (mem' !! b) -> (b < nx)%positive) ->
  ns_refcount sn = 1%nat -> ns_type sn = ST_IMAGE -> is_Some (ns_image sn) ->
  (forall img d, ns_image sn = Some img -> img_data img = Some d ->
     is_Some (mem' !! p_block d) /\
     (img_owns_data img = true -> p_block d ∉ bufs) /\
     (img_owns_data img = false -> dat = Some (p_block d)) /\
     (forall p' s' img' d', pixels n p' s' img' d' -> p_block d' = p_block d ->
        img_owns_data img = false /\ img_owns_data img' = false)) ->
  wf (mkWS (mkW (mkN (<[p := sn]> (n_surfaces n)) mem' nx)
                (<[next := mkPS CImageSurface (HSurf p) dat]> objs) (Pos.succ next))
           roots bufs).
Proof.
  intros [Hm Hs Ho Hr Hp Hpix Hown Hbor Hwr Hun Hty] Hp0 Hp1 Hnx Hgrow Hfresh Hrc Htype Himg Hsn.
  simpl in *.
  destruct (wrappers_insert objs (n_surfaces n) next p sn dat (conj Hwr (conj Hun Hty)))
    as (Hwr' & Hun' & Hty'); try done.
  { apply eq_None_not_Some. intros Hb. specialize (Ho _ Hb). lia. }
  { apply eq_None_not_Some. intros Hb. specialize (Hs _ Hb). lia. }
  constructor; simpl.
  - done.
  - intros p' Hp'. apply lookup_insert_is_Some' in Hp' as [<- | Hp']; [done|].
    specialize (Hs _ Hp'). lia.
  - intros o' Ho'. apply lookup_insert_is_Some' in Ho' as [<- | Ho']; [lia|].
    specialize (Ho _ Ho'). lia.
  - done.
  - auto.
  - intros p' s img d Hpx. destruct (pixels_insert _ _ _ _ _ _ _ _ _ Hpx)
      as [(_ & -> & Hi & Hd) | (_ & Hpx')]; [by apply (Hsn img d) | eauto].
  - intros p' s img d Hpx Hoi.
    destruct (pixels_insert _ _ _ _ _ _ _ _ _ Hpx) as [(-> & -> & Hi & Hd) | (Hne & Hpx')].
    + destruct (Hsn img d Hi Hd) as (_ & Hnb & _ & Hdis). split; [auto|].
      intros p'' s'' img'' d'' Hpx'' Heq.
      destruct (pixels_insert _ _ _ _ _ _ _ _ _ Hpx'') as [(-> & _) | (_ & Hpx3)]; [done|].
      destruct (Hdis _ _ _ _ Hpx3 Heq). congruence.
    + destruct (Hown _ _ _ _ Hpx' Hoi) as [Hnb Huniq]. split; [done|].
      intros p'' s'' img'' d'' Hpx'' Heq.
      destruct (pixels_insert _ _ _ _ _ _ _ _ _ Hpx'') as [(-> & -> & Hi & Hd) | (_ & Hpx3)].
      * destruct (Hsn img'' d'' Hi Hd) as (_ & _ & _ & Hdis).
        destruct (Hdis _ _ _ _ Hpx' (eq_sym Heq)). congruence.
      * by apply (Huniq _ _ _ _ Hpx3).
  - intros p' s img d Hpx Hoi.
    destruct (pixels_insert _ _ _ _ _ _ _ _ _ Hpx) as [(-> & -> & Hi & Hd) | (Hne & Hpx')].
    + destruct (Hsn img d Hi Hd) as (_ & _ & Hdat & _).
      exists next. eexists. rewrite lookup_insert_eq. split; [done|]. simpl. auto.
    + destruct (Hbor _ _ _ _ Hpx' Hoi) as (o & ps & Hob' & Hh & Hd).
      exists o, ps. split; [|done]. rewrite lookup_insert_ne; [done|].
      intros ->. specialize (Ho _ (mk_is_Some _ _ Hob')). lia.
  - exact Hwr'.
  - exact Hun'.
  - exact Hty'.
Qed.

Lemma wf_create (st : wstate) (fmt wd h : Z) (st' : wstate) :
  wf st -> wstep st (EvCreate fmt wd h) = Some st' -> wf st'.
Proof.
  intros Hwf [= <-]. simpl.
  destruct (image_new_after fmt wd h (ws_world st))
    as [(Hn & Hob & Hnx) | (bytes & stride & Hn & Hob & Hnx)]; set (w' := after _ _) in *.
  - destruct Hwf. constructor; simpl; rewrite ?Hn, ?Hob, ?Hnx; try done.
    intros o Hs'. specialize (wf_fresh_obj0 _ Hs'). lia.
  - destruct w' as [n' objs' next']; simpl in Hn, Hob, Hnx; subst.
    destruct st as [[n objs next] roots bufs]; simpl in *.
    apply wf_alloc; simpl; try (done || lia || by eexists).
    + intros b Hb. apply lookup_insert_is_Some'. by right.
    + intros b Hb. apply lookup_insert_is_Some' in Hb as [<- | Hb]; [lia|].
      specialize (wf_fresh_mem _ Hwf _ Hb). simpl in *. lia.
    + intros img d [= <-] [= <-]. simpl. split_and!; try done.
      * rewrite lookup_insert_eq. by eexists.
      * intros _ Hb. specialize (wf_fresh_mem _ Hwf _ (wf_pybufs _ Hwf _ Hb)). simpl in *. lia.
      * intros p' s' img' d' Hpx Heq. exfalso.
        specialize (wf_fresh_mem _ Hwf _ (wf_pixels _ Hwf _ _ _ _ Hpx)). simpl in *.
        rewrite Heq in *. simpl in *. lia.
Qed.

Lemma wf_create_for_data (st : wstate) (d : block) (fmt wd h : Z) (stride : option Z)
  (st' : wstate) :
  wf st -> wstep st (EvCreateForData d fmt wd h stride) = Some st' -> wf st'.
Proof.
  intros Hwf. simpl. case_decide as Hd; [|done]. intros [= <-]. simpl. unfold after.
  destruct (ImageSurface_create_for_data d fmt wd h stride (ws_world st)) as [[o|e] w'] eqn:Hc;
    simpl.
  2:{ apply create_for_data_error in Hc as (Hn & Hob & Hnx). destruct Hwf.
      constructor; simpl; rewrite ?Hn, ?Hob, ?Hnx; try done.
      intros o Hs'. specialize (wf_fresh_obj0 _ Hs'). lia. }
  apply create_for_data_success in Hc.
  destruct Hc as (bytes & Hmd & _ & _ & _ & _ & _ & _ & -> & ->).
  destruct st as [[n objs next] roots bufs]; simpl in *.
  apply wf_alloc; simpl; try (done || lia || by eexists).
  - intros b Hb. specialize (wf_fresh_mem _ Hwf _ Hb). simpl in *. lia.
  - intros img d' [= <-] [= <-]. simpl. split_and!; try done; try by eexists.
    intros p' s' img' d'' Hpx Heq. split; [done|].
    destruct (img_owns_data img') eqn:Hoi; [|done]. exfalso.
    apply (proj1 (wf_owned _ Hwf _ _ _ _ Hpx Hoi)). simpl in *. rewrite Heq.
    by apply (wf_roots _ Hwf).
Qed.

Lemma wf_write (st : wstate) (o : oid) (off : Z) (src : list byte) (st' : wstate) :
  wf st -> wstep st (EvWriteData o off src) = Some st' -> wf st'.
Proof.
  intros [Hm Hs Ho Hr Hp Hpix Hown Hbor Hwr Hun Hty] [= <-]. simpl.
  destruct (write_data_after o off src (ws_world st)) as (Hsf & Hnx & Hob & Hwn & Hmem).
  set (w' := after _ _) in *. unfold pixels in *.
  constructor; simpl; unfold pixels; rewrite ?Hsf, ?Hnx, ?Hob, ?Hwn; try done.
  - intros b Hb. apply Hm. by apply Hmem.
  - intros b Hb. apply Hmem. auto.
  - intros p s img d Hpx. apply Hmem. eauto.
Qed.

(** The pixels after surface [p] is replaced by a finished [s']
    whose pixels are borrowed pixels of [s]. *)
Lemma pixels_finish (n : nstate) (p : positive) (s s' : nsurface) mem' nx p' s'' img d :
  (forall img d, ns_image s' = Some img -> img_data img = Some d ->
     ns_image s = Some img /\ img_owns_data img = false) ->
  pixels (mkN (<[p := s']> (n_surfaces n)) mem' nx) p' s'' img d ->
  (p' = p /\ ns_image s = Some img /\ img_data img = Some d /\ img_owns_data img = false) \/
  (p' <> p /\ pixels n p' s'' img d).
Proof.
  intros Hs' (Hps & Hi & Hd). simpl in Hps. rewrite lookup_insert in Hps.
  case_decide; [subst; left; simplify_eq; destruct (Hs' img d) as [? ?]; auto|].
  right. split; [done|]. by split_and!.
Qed.

(** Finishing a surface keeps the invariant: the pixels it owned are
    freed, and no other surface used them. *)
Lemma wf_finish_surface (n : nstate) (objs : gmap positive pysurface) (next : positive)
  (roots bufs : gset block) (p : positive) (s : nsurface) :
  wf (mkWS (mkW n objs next) roots bufs) -> n_surfaces n !! p = Some s ->
  wf (mkWS (mkW (snd (surface_finish_internal p s n)) objs next) roots bufs).
Proof.
  intros [Hm Hs Ho Hr Hp Hpix Hown Hbor Hwr Hun Hty] Hps. simpl in *.
  destruct (surface_finish_internal_spec p s n) as (s' & -> & Hrc & Htype & Himg & Hs'). simpl.
  destruct (wrappers_replace objs _ p s s' (conj Hwr (conj Hun Hty)) Hps Hrc Htype Himg)
    as (Hwr' & Hun' & Hty').
  (* the pixels of [s] are those of [p] *)
  assert (Hpx_s : forall img d, ns_image s = Some img -> img_data img = Some d ->
            pixels n p s img d) by (intros; by split_and!).
  (* a block another surface uses is not freed *)
  assert (Hkeep : forall p'' s'' img d, pixels n p'' s'' img d -> p'' <> p ->
            freed_mem s (n_mem n) !! p_block d = n_mem n !! p_block d).
  { intros p'' s'' img d Hpx Hne. apply freed_mem_keep. intros img0 d0 Hi Hoi Hd0 Heq.
    apply Hne, (proj2 (Hown p s img0 d0 (Hpx_s _ _ Hi Hd0) Hoi) _ _ _ _ Hpx). congruence. }
  constructor; simpl.
  - intros b Hb. apply Hm, (freed_mem_sub s), Hb.
  - intros p'' Hp''. apply lookup_insert_is_Some' in Hp'' as [<- | Hp'']; [|auto].
    apply Hs. by eexists.
  - done.
  - done.
  - intros b Hb. rewrite freed_mem_keep; [auto|]. intros img d Hi Hoi Hd <-.
    by apply (proj1 (Hown p s img d (Hpx_s _ _ Hi Hd) Hoi)).
  - intros p'' s'' img d Hpx.
    destruct (pixels_finish _ _ _ _ _ _ _ _ _ _ Hs' Hpx) as [(-> & Hi & Hd & Hoi) | (Hne & Hpx')].
    + rewrite freed_mem_keep; [eauto|]. intros img' d' Hi'. congruence.
    + rewrite (Hkeep _ _ _ _ Hpx' Hne). eauto.
  - intros p'' s'' img d Hpx Hoi.
    destruct (pixels_finish _ _ _ _ _ _ _ _ _ _ Hs' Hpx) as [(_ & _ & _ & ?) | (Hne & Hpx')];
      [congruence|].
    destruct (Hown _ _ _ _ Hpx' Hoi) as [Hnb Huniq]. split; [done|].
    intros p3 s3 img3 d3 Hpx3 Heq.
    destruct (pixels_finish _ _ _ _ _ _ _ _ _ _ Hs' Hpx3) as [(-> & Hi3 & Hd3 & _) | (_ & Hpx3')].
    + exfalso. apply Hne. symmetry. by apply (Huniq p s img3 d3); [apply Hpx_s|].
    + by apply (Huniq _ _ _ _ Hpx3').
  - intros p'' s'' img d Hpx Hoi.
    destruct (pixels_finish _ _ _ _ _ _ _ _ _ _ Hs' Hpx) as [(-> & Hi & Hd & _) | (Hne & Hpx')].
    + apply (Hbor p s img d); [apply Hpx_s|]; done.
    + eauto.
  - exact Hwr'.
  - exact Hun'.
  - exact Hty'.
Qed.

(** Removing a wrapper together with the surface only it references. *)
Lemma wf_remove (n : nstate) (objs : gmap positive pysurface) (next : positive)
  (roots bufs : gset block) (o : oid) (ps : pysurface) (p : positive) :
  wf (mkWS (mkW n objs next) roots bufs) -> objs !! o = Some ps -> ps_handle ps = HSurf p ->
  wf (mkWS (mkW (mkN (delete p (n_surfaces n)) (n_mem n) (n_next n)) (delete o objs) next)
           roots bufs).
Proof.
  intros [Hm Hs Ho Hr Hp Hpix Hown Hbor Hwr Hun Hty] Hob Hh. simpl in *. unfold pixels in *.
  assert (Hold : forall p' s' img d, delete p (n_surfaces n) !! p' = Some s' /\
            ns_image s' = Some img /\ img_data img = Some d ->
            p' <> p /\ n_surfaces n !! p' = Some s' /\ ns_image s' = Some img /\
            img_data img = Some d).
  { intros p' s' img d (Hps & Hi & Hd). apply lookup_delete_Some in Hps as [Hne Hps]. auto. }
  destruct (wrappers_remove objs _ o ps p (conj Hwr (conj Hun Hty)) Hob Hh)
    as (Hwr' & Hun' & Hty').
  constructor; simpl; unfold pixels; simpl.
  - done.
  - intros p' Hp'. apply lookup_delete_is_Some in Hp' as [_ Hp']. auto.
  - intros o' Ho'. apply lookup_delete_is_Some in Ho' as [_ Ho']. auto.
  - done.
  - done.
  - intros p' s' img d Hpx. apply Hold in Hpx as (_ & Hpx). eauto.
  - intros p' s' img d Hpx Hoi. apply Hold in Hpx as (Hne & Hpx).
    destruct (Hown _ _ _ _ Hpx Hoi) as [Hnb Huniq]. split; [done|].
    intros p'' s'' img'' d'' Hpx'' Heq. apply Hold in Hpx'' as (_ & Hpx''). eauto.
  - intros p' s' img d Hpx Hoi. apply Hold in Hpx as (Hne & Hpx).
    destruct (Hbor _ _ _ _ Hpx Hoi) as (o' & ps' & Hob' & Hh' & Hd).
    exists o', ps'. split; [|done]. apply lookup_delete_Some. split; [|done].
    intros Heq. subst o'. unfold oid in *. congruence.
  - exact Hwr'.
  - exact Hun'.
  - exact Hty'.
Qed.

(** [cairo_surface_destroy] on the last reference: the surface is
    finished, if it was not, and freed. *)
Lemma destroy_last (p : positive) (s : nsurface) (n : nstate) :
  n_surfaces n !! p = Some s -> ns_refcount s = 1%nat ->
  snd (cairo_surface_destroy (HSurf p) n) =
    (let n1 := if ns_finished s then n else snd (surface_finish_internal p s n) in
     mkN (delete p (n_surfaces n1)) (n_mem n1) (n_next n1)).
Proof.
  intros Hs Hrc. unfold cairo_surface_destroy, bind, surface_of. rewrite Hs, Hrc. simpl.
  destruct (ns_finished s); [reflexivity|].
  destruct (surface_finish_internal_spec p s n) as (s' & -> & _). reflexivity.
Qed.

Lemma wf_finish (st : wstate) (o : oid) (st' : wstate) :
  wf st -> wstep st (EvFinish o) = Some st' -> wf st'.
Proof.
  intros Hwf [= <-]. destruct st as [[n objs next] roots bufs]. simpl in *.
  destruct (Surface_finish_after o (mkW n objs next)) as [-> | (ps & p & s & _ & _ & Hs & ->)];
    [done|].
  by apply wf_finish_surface.
Qed.

Lemma wf_finalize (st : wstate) (o : oid) (st' : wstate) :
  wf st -> wstep st (EvFinalize o) = Some st' -> wf st'.
Proof.
  intros Hwf [= <-]. destruct st as [[n objs next] roots bufs]. simpl in *.
  destruct (surface_finalize_after o (mkW n objs next)) as [[_ ->] | (ps & Hob & ->)]; [done|].
  simpl in *. destruct (ps_handle ps) as [stt | p] eqn:Hh.
  - (* a wrapper never holds one of cairo's static nil surfaces *)
    exfalso. destruct (wf_typed _ Hwf o ps Hob) as (_ & ? & ? & Hh' & _). congruence.
  - destruct (wf_wrapped _ Hwf o ps p Hob Hh) as (s & Hs & Hrc). simpl in Hs.
    rewrite (destroy_last p s n Hs Hrc). simpl.
    destruct (ns_finished s).
    + by apply (wf_remove _ _ _ _ _ _ ps).
    + apply (wf_remove _ _ _ _ _ _ ps); [|done..]. by apply wf_finish_surface.
Qed.

(** Every event keeps the invariant. *)
Lemma wstep_wf (st : wstate) (ev : wevent) (st' : wstate) :
  wf st -> wstep st ev = Some st' -> wf st'.
Proof.
  destruct ev.
  - apply wf_buffer.
  - apply wf_drop.
  - apply wf_collect.
  - apply wf_create.
  - apply wf_create_for_data.
  - apply wf_write.
  - apply wf_finish.
  - apply wf_finalize.
Qed.

Lemma reachable_wf_lemma (st : wstate) : reachable st -> wf st.
Proof.
  induction 1 as [|st ev st' _ IH Hstep]; [apply wf_init|]. by eapply wstep_wf.
Qed.

Lemma wrun_reachable (evs : list wevent) : forall st st',
  reachable st -> wrun st evs = Some st' -> reachable st'.
Proof.
  induction evs as [|ev evs IH]; simpl; intros st st' Hr Hrun; [by simplify_eq|].
  destruct (wstep st ev) as [st1|] eqn:Hs; [|done]. eapply IH; [|done]. by econstructor.
Qed.

(** ** Theorems *)

(** C30: in every state a program can reach, the pixel memory of every
    image surface is allocated: cairo never draws into freed memory,
    whether the surface owns its pixels or borrows a Python buffer. *)
Theorem reachable_pixels_allocated (st : wstate) (p : positive) (s : nsurface)
  (img : image_info) (d : ptr) :
  reachable st -> pixels (w_native (ws_world st)) p s img d ->
  is_Some (n_mem (w_native (ws_world st)) !! p_block d).
Proof. intros Hr. apply (wf_pixels _ (reachable_wf_lemma st Hr)). Qed.

(** C31: in every reachable state, the collector refuses to free a
    buffer a surface borrows, even after the program dropped its own
    reference: the [_data] attribute [ImageSurface.__init__] sets
    keeps it alive. *)
Theorem collect_borrowed_refused (st : wstate) (p : positive) (s : nsurface)
  (img : image_info) (d : ptr) :
  reachable st -> pixels (w_native (ws_world st)) p s img d -> img_owns_data img = false ->
  wstep st (EvCollectBuffer (p_block d)) = None.
Proof.
  intros Hr Hpx Hoi. destruct (wf_borrowed _ (reachable_wf_lemma st Hr) p s img d Hpx Hoi)
    as (o & ps & Hob & _ & Hd).
  simpl. rewrite decide_False; [done|]. intros (_ & _ & Hun). by apply (Hun o ps).
Qed.


(** C35: in every reachable state every wrapper is well typed: its
    class is [ImageSurface] and it holds a live native image surface, so
    [get_data()] (and with it the getters it calls) returns a view and
    raises neither [AttributeError] nor touches a dangling handle. *)
Theorem reachable_wrappers_typed (st : wstate) (o : oid) (ps : pysurface) :
  reachable st -> w_objs (ws_world st) !! o = Some ps ->
  ps_class ps = CImageSurface /\
  exists v, ImageSurface_get_data o (ws_world st) = (Ok v, ws_world st).
Proof.
  intros Hr Hob.
  destruct (wf_typed _ (reachable_wf_lemma st Hr) o ps Hob) as (Hc & p & s & Hh & Hs & _ & [img Hi]).
  split; [done|].
  unfold ImageSurface_get_data, ImageSurface_get_stride, ImageSurface_get_height, image_self,
    self_of, cairo_image_surface_get_data, cairo_image_surface_get_stride,
    cairo_image_surface_get_height, image_query, surface_of.
  world_simp. eexists. by destruct (ws_world st).
Qed.

(** ** Witnesses *)

(** [b = bytearray(16)]; [s = ImageSurface.create_for_data(b, FORMAT_A8,
    4, 4)]; [del b]. *)
Definition demo_trace : list wevent :=
  [EvBuffer 16; EvCreateForData 1%positive FORMAT_A8 4%Z 4%Z None; EvDropBuffer 1%positive].

Definition demo_state : wstate := default winit (wrun winit demo_trace).

Lemma demo_state_reachable : reachable demo_state.
Proof. apply (wrun_reachable demo_trace winit); [constructor | reflexivity]. Qed.

Definition demo_state_surf : nsurface :=
  default (new_image FORMAT_A8 0%Z 0%Z 0%Z (mkPtr 1%positive 0%Z) true)
          (n_surfaces (w_native (ws_world demo_state)) !! 2%positive).

Definition demo_state_img : image_info := default (mkImage 0%Z 0%Z 0%Z 0%Z None true) (ns_image demo_state_surf).

Lemma demo_pixels : pixels (w_native (ws_world demo_state)) 2%positive demo_state_surf demo_state_img
                           (mkPtr 1%positive 0%Z).
Proof. split; [|split]; vm_compute; reflexivity. Qed.

Lemma reachable_pixels_allocated_witness :
  is_Some (n_mem (w_native (ws_world demo_state)) !! 1%positive).
Proof.
  apply (reachable_pixels_allocated demo_state 2%positive demo_state_surf demo_state_img
           (mkPtr 1%positive 0%Z)); [apply demo_state_reachable | apply demo_pixels].
Defined.

Lemma collect_borrowed_refused_witness :
  wstep demo_state (EvCollectBuffer 1%positive) = None.
Proof.
  apply (collect_borrowed_refused demo_state 2%positive demo_state_surf demo_state_img
           (mkPtr 1%positive 0%Z)); [apply demo_state_reachable | apply demo_pixels |].
  vm_compute. reflexivity.
Defined.

Definition demo_ps : pysurface :=
  default (mkPS CImageSurface (HNil SUCCESS) None) (w_objs (ws_world demo_state) !! 1%positive).

Lemma demo_objs : w_objs (ws_world demo_state) = {[1%positive := demo_ps]}.
Proof. vm_compute. reflexivity. Qed.


Lemma reachable_wrappers_typed_witness :
  ps_class demo_ps = CImageSurface /\
  exists v, ImageSurface_get_data 1%positive (ws_world demo_state) = (Ok v, ws_world demo_state).
Proof.
  apply (reachable_wrappers_typed demo_state 1%positive demo_ps);
    [apply demo_state_reachable | rewrite demo_objs; apply lookup_singleton_eq].
Defined.
