(* ===== verification/Pixels.v ===== *)
(** * Pixels: an image surface as a grid of rows

    What a program sees of an image surface is a grid: [height] rows of
    [row_bytes] bytes each, which [write_to_png] encodes
    ([ImageSurface_rows], Png.v).  What the code does is lower level:
    [get_data()] (src/cairocffi/surfaces.py, lines 197-200) hands out a
    flat [ffi.buffer] of [stride * height] bytes over cairo's pixel
    memory, and a slice assignment into it stores bytes at an offset.

    [grid_write] is the abstract operation: the bytes [src] written into
    row [y] from column [x] on.  The refinement theorem shows that a
    slice assignment through [get_data()] at offset [y * stride + x]
    implements it, on any image surface whose rows lie in memory and do
    not overlap ([row_bytes <= stride]): the grid after the concrete
    write is the abstract write of the grid before.  The hypotheses on
    the surface are shared by the lemmas of the Section [ImageRows]. *)

From S2P Require Import Prelude CTypes Native CFFI Surface ImageSurface Png World.

Local Open Scope py_scope.

(** ** The abstract grid *)

Notation grid := (list (list byte)) (only parsing).

(** [src] written into row [y] from column [x] on. *)
Definition grid_write (g : grid) (y x : nat) (src : list byte) : grid :=
  alter (fun r => store r x src) y g.

(** The grid an image shows in the memory block [bytes] of its pixels. *)
Definition image_grid (img : image_info) (d : ptr) (bytes : list byte) : grid :=
  (fun y => load bytes (Z.to_nat (p_off d + Z.of_nat y * img_stride img))
                  (Z.to_nat (row_bytes (img_format img) (img_width img))))
    <$> seq 0 (Z.to_nat (img_height img)).

(** ** Memory facts *)

Lemma image_in_bounds_row (m : gmap block (list byte)) (img : image_info) (d : ptr)
  (bytes : list byte) (y : nat) :
  image_in_bounds m img = true -> img_data img = Some d -> m !! p_block d = Some bytes ->
  y < Z.to_nat (img_height img) ->
  (0 <= p_off d + Z.of_nat y * img_stride img)%Z /\
  (p_off d + Z.of_nat y * img_stride img + row_bytes (img_format img) (img_width img)
     <= Z.of_nat (length bytes))%Z.
Proof.
  intros Hb Hd Hm Hy. unfold image_in_bounds in Hb. rewrite forallb_forall in Hb.
  specialize (Hb y (proj2 (in_seq _ _ _) (conj (Nat.le_0_l y) Hy))).
  unfold row_in_block in Hb. rewrite Hd, Hm, andb_true_iff, !Z.leb_le in Hb. lia.
Qed.

(** Whether the rows are in memory depends only on the length of the
    block of the pixels. *)
Lemma image_in_bounds_same_length (m m' : gmap block (list byte)) (img : image_info) (d : ptr)
  (bytes bytes' : list byte) :
  img_data img = Some d -> m !! p_block d = Some bytes -> m' !! p_block d = Some bytes' ->
  length bytes' = length bytes -> image_in_bounds m' img = image_in_bounds m img.
Proof.
  intros Hd Hm Hm' Hl. unfold image_in_bounds.
  induction (seq 0 _) as [|y ys IH]; [done|]. simpl. rewrite IH.
  unfold row_in_block. by rewrite Hd, Hm, Hm', Hl.
Qed.

Lemma read_rows_grid (img : image_info) (n : nstate) (d : ptr) (bytes : list byte) :
  img_data img = Some d -> n_mem n !! p_block d = Some bytes ->
  image_in_bounds (n_mem n) img = true ->
  read_rows img n = (Ok (image_grid img d bytes), n).
Proof. intros Hd Hm Hb. unfold read_rows. by rewrite Hd, Hm, Hb. Qed.

(** What [write_to_png] encodes of an image surface whose rows are in
    memory: its grid. *)
Lemma rows_grid (w : world) (o : oid) (ps : pysurface) (p : positive) (s : nsurface)
  (img : image_info) (d : ptr) (bytes : list byte) :
  w_objs w !! o = Some ps -> ps_class ps = CImageSurface -> ps_handle ps = HSurf p ->
  n_surfaces (w_native w) !! p = Some s -> ns_image s = Some img -> img_data img = Some d ->
  n_mem (w_native w) !! p_block d = Some bytes -> image_in_bounds (n_mem (w_native w)) img = true ->
  ImageSurface_rows o w = (Ok (image_grid img d bytes), w).
Proof.
  intros Hob Hcls Hh Hs Hi Hd Hm Hb.
  unfold ImageSurface_rows, image_self, self_of, surface_of.
  world_simp. rewrite (read_rows_grid img _ d bytes Hd Hm Hb). simpl. by destruct w.
Qed.

Section ImageRows.

(** Wrapper [o] of class [ImageSurface] holds surface [p], an image
    whose pixels at [d] lie in the block [bytes], in rows that do not
    overlap. *)
Variables (w : world) (o : oid) (ps : pysurface) (p : positive) (s : nsurface)
  (img : image_info) (d : ptr) (bytes : list byte).
Hypothesis Hob : w_objs w !! o = Some ps.
Hypothesis Hcls : ps_class ps = CImageSurface.
Hypothesis Hh : ps_handle ps = HSurf p.
Hypothesis Hs : n_surfaces (w_native w) !! p = Some s.
Hypothesis Hi : ns_image s = Some img.
Hypothesis Hd : img_data img = Some d.
Hypothesis Hm : n_mem (w_native w) !! p_block d = Some bytes.
Hypothesis Hb : image_in_bounds (n_mem (w_native w)) img = true.
Hypothesis Hrb : (0 <= row_bytes (img_format img) (img_width img) <= img_stride img)%Z.

Local Notation rb := (row_bytes (img_format img) (img_width img)).
Local Notation stride := (img_stride img).
Local Notation row_start y := (p_off d + Z.of_nat y * img_stride img)%Z.

Lemma row_start_bounds (y : nat) :
  y < Z.to_nat (img_height img) ->
  (0 <= row_start y)%Z /\ (row_start y + rb <= Z.of_nat (length bytes))%Z.
Proof. intros Hy. by apply (image_in_bounds_row (n_mem (w_native w)) img d bytes y). Qed.

(** The grid after a store into row [y] at column [x] is the abstract
    write: the other rows lie before or after the bytes stored. *)
Lemma image_grid_store (y x : nat) (src : list byte) :
  y < Z.to_nat (img_height img) -> x + length src <= Z.to_nat rb ->
  image_grid img d (store bytes (Z.to_nat (row_start y) + x) src) =
    grid_write (image_grid img d bytes) y x src.
Proof.
  intros Hy Hx. destruct (row_start_bounds y Hy) as [Hy0 Hy1].
  apply list_eq. intros i. unfold grid_write, image_grid.
  destruct (decide (i = y)) as [->|Hne].
  - rewrite list_lookup_alter_eq, !list_lookup_fmap, lookup_seq_lt by done. simpl. f_equal.
    rewrite load_store_inside by lia. f_equal. lia.
  - rewrite list_lookup_alter_ne by done. rewrite !list_lookup_fmap.
    destruct (decide (i < Z.to_nat (img_height img))) as [Hi'|Hi'];
      [|rewrite lookup_seq_ge by lia; done].
    rewrite lookup_seq_lt by done. simpl. f_equal.
    destruct (row_start_bounds i Hi') as [Hi0 Hi1].
    destruct (proj1 (Nat.lt_gt_cases i y) Hne) as [Hlt|Hgt].
    + assert (Z.of_nat i * stride + stride <= Z.of_nat y * stride)%Z by nia.
      apply load_store_disjoint; lia.
    + assert (Z.of_nat y * stride + stride <= Z.of_nat i * stride)%Z by nia.
      apply load_store_after; lia.
Qed.

Lemma get_data_view :
  ImageSurface_get_data o w = (Ok (mkView (Some d) (stride * img_height img)), w).
Proof.
  unfold ImageSurface_get_data, ImageSurface_get_stride, ImageSurface_get_height, image_self,
    self_of, cairo_image_surface_get_data, cairo_image_surface_get_stride,
    cairo_image_surface_get_height, image_query, surface_of.
  world_simp. rewrite Hd. by destruct w.
Qed.


(** C34: a slice assignment through [get_data()] refines the abstract
    write into the grid: on an image surface whose rows lie in memory
    and do not overlap, [s.get_data()[y * stride + x : ...] = src], for
    [src] inside row [y], succeeds, and the grid [write_to_png] then
    encodes is the grid before with [src] written into row [y] from
    column [x] on; every other row is unchanged. *)
Theorem write_data_refines (y x : nat) (src : list byte) :
  y < Z.to_nat (img_height img) -> x + length src <= Z.to_nat rb ->
  exists w',
    write_data o (Z.of_nat y * stride + Z.of_nat x) src w = (Ok tt, w') /\
    ImageSurface_rows o w' = (Ok (grid_write (image_grid img d bytes) y x src), w').
Proof.
  intros Hy Hx. destruct (row_start_bounds y Hy) as [Hy0 Hy1].
  assert (Z.of_nat y * stride + stride <= img_height img * stride)%Z by nia.
  unfold write_data, bind. rewrite get_data_view. unfold view_write. simpl.
  case_cmp; simpl; try nia. rewrite Hm. case_cmp; simpl; try lia.
  eexists. split; [reflexivity|].
  rewrite <- image_grid_store by done.
  replace (Z.to_nat (p_off d + (Z.of_nat y * stride + Z.of_nat x)))
    with (Z.to_nat (row_start y) + x) by lia.
  eapply rows_grid; simpl; [exact Hob | exact Hcls | exact Hh | exact Hs | exact Hi | exact Hd
                           | apply lookup_insert_eq |].
  erewrite image_in_bounds_same_length; [exact Hb | exact Hd | exact Hm
                                        | apply lookup_insert_eq | apply length_store; lia].
Qed.

End ImageRows.

(** ** Witnesses *)

(** Two bytes written at row 1, column 1 of the A8 4x2 image of
    [demo_world] (Surface.v). *)
Lemma write_data_refines_witness :
  exists w',
    write_data 100%positive (Z.of_nat 1 * 4 + Z.of_nat 1)%Z [x61; x62]
      (demo_world CImageSurface) = (Ok tt, w') /\
    ImageSurface_rows 100%positive w' =
      (Ok (grid_write (image_grid demo_img (mkPtr 1%positive 0%Z) (replicate 8 x00)) 1 1
                      [x61; x62]), w').
Proof.
  apply (write_data_refines (demo_world CImageSurface) 100%positive
           (mkPS CImageSurface (HSurf 5%positive) None) 5%positive demo_surface demo_img
           (mkPtr 1%positive 0%Z) (replicate 8 x00));
    try reflexivity; try (vm_compute; split; congruence); vm_compute; lia.
Defined.
